(** * CHATHUB: the message broker of [app.py]

    A shallow embedding of the server side of [app.py]: the SQLite tables
    ([messages], [reactions], [pins], [users]), the persistence helpers
    ([persist_message] ... [search_room]), the two in-memory presence
    dictionaries, the Socket.IO event handlers and the avatar upload
    ([allowed_file], [file_to_dataurl], [set_avatar], [upload_avatar]),
    followed by the properties of the broker stated in the specification
    and by further properties read off the code.

    Conventions of the embedding.
    - A nullable SQL column or a Python value that may be [None] is an
      [option]; text is a [string], a row id an integer ([Z]).
    - A table is the list of its rows in rowid order; [INTEGER PRIMARY KEY
      AUTOINCREMENT] is the counter SQLite keeps in [sqlite_sequence].
    - Text is the string of the UTF-8 bytes of a Python [str].  [LIKE]
      is SQLite's default one: it reads its operands as C strings, up to
      the first NUL, character by character; it folds the case of the
      ASCII letters only; [%] and [_] are its wildcards; and it refuses a
      pattern of more than 50,000 bytes.
    - A handler is a function from the state to the new state and the list
      of events it emits, in emission order.  [request.sid] and the clock
      reading of [time.time()] are arguments.
    - Outside the model: a failure of the database file and an integer
      that SQLite cannot hold, for which the handlers have no code of
      their own ([sqlite_integer] and [search_refused] say when a
      statement is refused), and the delivery of an emitted
      event by Socket.IO to the connections of its room. *)

From Stdlib Require Import ZArith List Bool Ascii String Sorted Lia.
From Stdlib Require Strings.Byte.
From stdpp Require Import gmap strings list.
Import ListNotations.

Local Open Scope string_scope.
Local Open Scope list_scope.
Local Open Scope Z_scope.

(* ================================================================== *)
(** * Python values *)

(** A key of the [data] dictionary of an event: missing, JSON [null], or
    a value. *)
Inductive field (A : Type) : Type :=
| absent
| null
| val (a : A).
Arguments absent {A}.
Arguments null {A}.
Arguments val {A} a.

(** [data.get(k)]: [None] when the key is missing or null. *)
Definition get {A} (f : field A) : option A :=
  match f with
  | val a => Some a
  | _ => None
  end.

(** [data.get(k, d)]: the default only replaces a missing key. *)
Definition get_or {A} (f : field A) (d : A) : option A :=
  match f with
  | absent => Some d
  | null => None
  | val a => Some a
  end.

(** Truth value of a string-or-[None] in a Python condition. *)
Definition truthy (o : option string) : bool :=
  match o with
  | Some s => negb (String.eqb s "")
  | None => false
  end.

(** [str(x)] as an f-string formats a string-or-[None]. *)
Definition py_str (o : option string) : string :=
  match o with
  | Some s => s
  | None => "None"
  end.

(** Python's [==] on string-or-[None] values. *)
Definition py_eq (a b : option string) : bool :=
  match a, b with
  | Some x, Some y => String.eqb x y
  | None, None => true
  | _, _ => false
  end.

(** An insertion-ordered Python [dict] with string keys and values. *)
Definition dict : Type := list (string * string).

Fixpoint dict_get (k : string) (d : dict) : option string :=
  match d with
  | [] => None
  | (k', v) :: d' => if String.eqb k k' then Some v else dict_get k d'
  end.

(** [d[k] = v]: an existing key keeps its position. *)
Fixpoint dict_set (k v : string) (d : dict) : dict :=
  match d with
  | [] => [(k, v)]
  | (k', v') :: d' =>
      if String.eqb k k' then (k, v) :: d' else (k', v') :: dict_set k v d'
  end.

(** [d.pop(k, None)]: the entry of [k], if any, is gone. *)
Definition dict_pop (k : string) (d : dict) : dict :=
  List.filter (fun kv => negb (String.eqb k (fst kv))) d.

Definition dict_keys (d : dict) : list string := map fst d.

(* ================================================================== *)
(** * SQL expressions *)

(** Three-valued logic: [None] is SQL's NULL. *)
Definition sql_eq {A} (eqb : A -> A -> bool) (a b : option A) : option bool :=
  match a, b with
  | Some x, Some y => Some (eqb x y)
  | _, _ => None
  end.

Definition sql_and (a b : option bool) : option bool :=
  match a, b with
  | Some false, _ | _, Some false => Some false
  | Some true, Some true => Some true
  | _, _ => None
  end.

Definition sql_or (a b : option bool) : option bool :=
  match a, b with
  | Some true, _ | _, Some true => Some true
  | Some false, Some false => Some false
  | _, _ => None
  end.

Definition sql_is_null {A} (a : option A) : option bool :=
  Some (match a with None => true | Some _ => false end).

Definition sql_is_not_null {A} (a : option A) : option bool :=
  Some (match a with None => false | Some _ => true end).

(** A row passes [WHERE] only when the condition is true. *)
Definition sql_where (c : option bool) : bool :=
  match c with
  | Some true => true
  | _ => false
  end.

Definition text_eq : option string -> option string -> option bool :=
  sql_eq String.eqb.
Definition int_eq : option Z -> option Z -> option bool :=
  sql_eq Z.eqb.

(** The lower case of an ASCII letter. *)
Definition lower (c : ascii) : ascii :=
  let n := nat_of_ascii c in
  if ((65 <=? n)%nat && (n <=? 90)%nat)%bool then ascii_of_nat (n + 32) else c.

(** The value of a character of a text, 0 to 255: texts are the UTF-8
    bytes that [sqlite3] binds for a Python [str]. *)
Definition char_val (c : ascii) : Z := Z.of_N (N_of_ascii c).

(** The text up to its first NUL: SQLite's [LIKE] reads its operands as C
    strings. *)
Fixpoint c_string (s : string) : string :=
  match s with
  | EmptyString => EmptyString
  | String c s' =>
      if char_val c =? 0 then EmptyString else String c (c_string s')
  end.

(** SQLite's [sqlite3Utf8Trans1]: the payload bits of a lead byte, 192 to
    255. *)
Definition utf8_lead (c : Z) : Z :=
  if c <? 224 then Z.land c 31
  else if c <? 240 then Z.land c 15
  else if c <? 248 then Z.land c 7
  else if c <? 252 then Z.land c 3
  else if c <? 254 then Z.land c 1
  else 0.

(** The bytes 128 to 191 continue a character. *)
Definition utf8_continues (c : Z) : bool := Z.land c 192 =? 128.

(** The end of [sqlite3Utf8Read]: a value below 128, a surrogate, 0xFFFE
    and 0xFFFF are read as 0xFFFD. *)
Definition utf8_fix (v : Z) : Z :=
  if (v <? 128) || (Z.land v 4294965248 =? 55296)
     || (Z.land v 4294967294 =? 65534)
  then 65533 else v.

(** The characters of a text as [sqlite3Utf8Read] reads them, one after
    the other: a byte below 192 is a character; a byte from 192 on takes
    the continuation bytes that follow it, six bits each in 32-bit
    arithmetic.  [pending] is the value of a character whose continuation
    bytes are being read. *)
Fixpoint utf8_chars_from (pending : option Z) (s : string) : list Z :=
  match s with
  | EmptyString =>
      match pending with
      | Some v => [utf8_fix v]
      | None => []
      end
  | String b s' =>
      let c := char_val b in
      match pending with
      | Some v =>
          if utf8_continues c then
            utf8_chars_from (Some ((v * 64 + Z.land c 63) mod 4294967296)) s'
          else if c <? 192 then utf8_fix v :: c :: utf8_chars_from None s'
          else utf8_fix v :: utf8_chars_from (Some (utf8_lead c)) s'
      | None =>
          if c <? 192 then c :: utf8_chars_from None s'
          else utf8_chars_from (Some (utf8_lead c)) s'
      end
  end.

Definition utf8_chars (s : string) : list Z := utf8_chars_from None s.

(** The characters [LIKE] sees of an operand. *)
Definition sql_chars (s : string) : list Z := utf8_chars (c_string s).

(** [sqlite3Tolower] on a character below 128. *)
Definition lower_char (c : Z) : Z :=
  if (65 <=? c) && (c <=? 90) then c + 32 else c.

(** Two characters are the same for [LIKE]: equal, or both below 128 and
    equal when the case is folded. *)
Definition same_char (c d : Z) : bool :=
  (c =? d) || ((c <? 128) && (d <? 128) && (lower_char c =? lower_char d)).

(** SQLite's [patternCompare] for [LIKE] without [ESCAPE]: [%] (37) stands
    for any run of characters and [_] (95) for any one character. *)
Fixpoint like_chars (p : list Z) : list Z -> bool :=
  match p with
  | [] => fun s => match s with [] => true | _ :: _ => false end
  | c :: p' =>
      if c =? 37 then
        fix star (s : list Z) : bool :=
          like_chars p' s
          || match s with
             | [] => false
             | _ :: s' => star s'
             end
      else if c =? 95 then
        fun s =>
          match s with
          | [] => false
          | _ :: s' => like_chars p' s'
          end
      else
        fun s =>
          match s with
          | [] => false
          | d :: s' => same_char c d && like_chars p' s'
          end
  end.

(** [like p s]: the text [s] matches the pattern [p]. *)
Definition like (p s : string) : bool :=
  like_chars (sql_chars p) (sql_chars s).

(** SQLite refuses a [LIKE] pattern of more than 50,000 bytes
    ([SQLITE_MAX_LIKE_PATTERN_LENGTH]): the statement fails with "LIKE or
    GLOB pattern too complex" at the first row it is evaluated on. *)
Definition like_refused (pattern : string) : bool :=
  50000 <? Z.of_nat (String.length pattern).

Definition sql_like (x : option string) (pattern : string) : option bool :=
  match x with
  | Some s => Some (like pattern s)
  | None => None
  end.

(** [ORDER BY]: a stable insertion sort on an integer key. *)
Fixpoint insert_by {A} (leb : A -> A -> bool) (x : A) (l : list A) : list A :=
  match l with
  | [] => [x]
  | y :: l' => if leb x y then x :: l else y :: insert_by leb x l'
  end.

Definition sort_by {A} (leb : A -> A -> bool) (l : list A) : list A :=
  foldr (insert_by leb) [] l.

Definition order_by_asc {A} (key : A -> Z) : list A -> list A :=
  sort_by (fun x y => key x <=? key y).

Definition order_by_desc {A} (key : A -> Z) : list A -> list A :=
  sort_by (fun x y => key y <=? key x).

(** [LIMIT n]: a negative [n] means no limit. *)
Definition sql_limit {A} (n : Z) (l : list A) : list A :=
  if n <? 0 then l else firstn (Z.to_nat n) l.

(** The rowid an [AUTOINCREMENT] table gives the next row: one more than
    the largest rowid the table has ever held. *)
Definition next_rowid (seq : Z) (ids : list Z) : Z :=
  Z.max seq (foldr Z.max 0 ids) + 1.

(** [fetchone()]: the first row of the result, if any. *)
Definition fetchone {A} (l : list A) : option A := head l.

(* ================================================================== *)
(** * The tables of [init_db] *)

(** A row of [users]; the broker reads the avatar only. *)
Record User : Type := {
  usr_username : string;
  usr_avatar : option string
}.

Record Message : Type := {
  msg_id : Z;
  msg_room : option string;
  msg_sender : option string;
  msg_receiver : option string;
  msg_message : option string;
  msg_image : option string;
  msg_reply_to : option Z;
  msg_timestamp : Z
}.

Record Reaction : Type := {
  rc_id : Z;
  rc_message_id : option Z;
  rc_username : option string;
  rc_emoji : option string
}.

Record Pin : Type := {
  pin_id : Z;
  pin_message_id : option Z;
  pin_room : option string
}.

(** The database file: each table with its [sqlite_sequence] counter. *)
Record Store : Type := {
  users : list User;
  messages : list Message;
  messages_seq : Z;
  reactions : list Reaction;
  reactions_seq : Z;
  pins : list Pin;
  pins_seq : Z
}.

(** The database [init_db] creates when the file does not exist yet. *)
Definition empty_store : Store :=
  {| users := []; messages := []; messages_seq := 0;
     reactions := []; reactions_seq := 0;
     pins := []; pins_seq := 0 |}.

Definition set_messages (ms : list Message) (seq : Z) (db : Store) : Store :=
  {| users := users db; messages := ms; messages_seq := seq;
     reactions := reactions db; reactions_seq := reactions_seq db;
     pins := pins db; pins_seq := pins_seq db |}.

Definition set_reactions (rs : list Reaction) (seq : Z) (db : Store) : Store :=
  {| users := users db; messages := messages db;
     messages_seq := messages_seq db;
     reactions := rs; reactions_seq := seq;
     pins := pins db; pins_seq := pins_seq db |}.

Definition set_pins (ps : list Pin) (seq : Z) (db : Store) : Store :=
  {| users := users db; messages := messages db;
     messages_seq := messages_seq db;
     reactions := reactions db; reactions_seq := reactions_seq db;
     pins := ps; pins_seq := seq |}.

(** [SELECT * FROM messages WHERE id=?]. *)
Definition select_message (mid : option Z) (db : Store) : option Message :=
  fetchone
    (List.filter (fun m => sql_where (int_eq (Some (msg_id m)) mid))
       (messages db)).

(* ================================================================== *)
(** * User helpers *)

Definition get_user (username : option string) (db : Store) : option User :=
  fetchone
    (List.filter
       (fun u => sql_where (text_eq (Some (usr_username u)) username))
       (users db)).

(** [get_user(u)["avatar"] if get_user(u) else None]. *)
Definition avatar_of (username : option string) (db : Store) : option string :=
  match get_user username db with
  | Some u => usr_avatar u
  | None => None
  end.

(* ================================================================== *)
(** * Message helpers / persistence *)

Definition persist_message (room sender receiver message_text : option string)
    (image_dataurl : option string) (reply_to : option Z) (ts : Z)
    (db : Store) : Store * option Message :=
  let mid := next_rowid (messages_seq db) (map msg_id (messages db)) in
  let row :=
    {| msg_id := mid; msg_room := room; msg_sender := sender;
       msg_receiver := receiver; msg_message := message_text;
       msg_image := image_dataurl; msg_reply_to := reply_to;
       msg_timestamp := ts |} in
  let db' := set_messages (messages db ++ [row]) mid db in
  (db', select_message (Some mid) db').

Definition load_room_messages (room : option string) (limit : Z)
    (db : Store) : list Message :=
  sql_limit limit
    (order_by_asc msg_id
       (List.filter
          (fun m =>
             sql_where
               (sql_and (text_eq (msg_room m) room)
                  (sql_is_null (msg_receiver m))))
          (messages db))).

Definition load_dm_history (user other : option string) (limit : Z)
    (db : Store) : list Message :=
  sql_limit limit
    (order_by_asc msg_id
       (List.filter
          (fun m =>
             sql_where
               (sql_or
                  (sql_and (text_eq (msg_sender m) user)
                     (text_eq (msg_receiver m) other))
                  (sql_and (text_eq (msg_sender m) other)
                     (text_eq (msg_receiver m) user))))
          (messages db))).

Definition set_body (new_text : option string) (m : Message) : Message :=
  {| msg_id := msg_id m; msg_room := msg_room m; msg_sender := msg_sender m;
     msg_receiver := msg_receiver m; msg_message := new_text;
     msg_image := msg_image m; msg_reply_to := msg_reply_to m;
     msg_timestamp := msg_timestamp m |}.

Definition edit_message (mid : option Z) (username new_text : option string)
    (db : Store) : Store * option Message :=
  match select_message mid db with
  | None => (db, None)
  | Some row =>
      if negb (py_eq (msg_sender row) username) then (db, None)
      else
        let db' :=
          set_messages
            (map
               (fun m =>
                  if sql_where (int_eq (Some (msg_id m)) mid)
                  then set_body new_text m else m)
               (messages db))
            (messages_seq db) db in
        (db', select_message mid db')
  end.

Definition delete_message (mid : option Z) (username : option string)
    (db : Store) : Store * bool :=
  match select_message mid db with
  | None => (db, false)
  | Some row =>
      if negb (py_eq (msg_sender row) username) then (db, false)
      else
        let db1 :=
          set_messages
            (List.filter
               (fun m => negb (sql_where (int_eq (Some (msg_id m)) mid)))
               (messages db))
            (messages_seq db) db in
        let db2 :=
          set_reactions
            (List.filter
               (fun r => negb (sql_where (int_eq (rc_message_id r) mid)))
               (reactions db1))
            (reactions_seq db1) db1 in
        (db2, true)
  end.

Definition toggle_reaction (mid : option Z) (username emoji : option string)
    (db : Store) : Store * bool :=
  let existing :=
    fetchone
      (List.filter
         (fun r =>
            sql_where
              (sql_and
                 (sql_and (int_eq (rc_message_id r) mid)
                    (text_eq (rc_username r) username))
                 (text_eq (rc_emoji r) emoji)))
         (reactions db)) in
  match existing with
  | Some e =>
      (set_reactions
         (List.filter (fun r => negb (rc_id r =? rc_id e)) (reactions db))
         (reactions_seq db) db,
       false)
  | None =>
      let rid := next_rowid (reactions_seq db) (map rc_id (reactions db)) in
      let row :=
        {| rc_id := rid; rc_message_id := mid; rc_username := username;
           rc_emoji := emoji |} in
      (set_reactions (reactions db ++ [row]) rid db, true)
  end.

(** [{r["emoji"]: r["cnt"] for r in rows}] over [GROUP BY emoji]: the
    number of reaction rows of the message per emoji. *)
Definition reactions_summary (mid : option Z) (db : Store)
    : gmap (option string) nat :=
  foldr
    (fun r acc =>
       <[rc_emoji r := S (default 0%nat (acc !! rc_emoji r))]> acc)
    ∅
    (List.filter (fun r => sql_where (int_eq (rc_message_id r) mid))
       (reactions db)).

Definition pin_message (mid : option Z) (room : option string) (db : Store)
    : Store * option Message :=
  let pid := next_rowid (pins_seq db) (map pin_id (pins db)) in
  let db' :=
    set_pins
      (pins db ++ [{| pin_id := pid; pin_message_id := mid; pin_room := room |}])
      pid db in
  (db', select_message mid db').

(** The join of [messages] with [pins], by pin, newest pin first. *)
Definition get_pinned (room : option string) (db : Store) : list Message :=
  sql_limit 50
    (flat_map
       (fun p =>
          List.filter
            (fun m => sql_where (int_eq (Some (msg_id m)) (pin_message_id p)))
            (messages db))
       (order_by_desc pin_id
          (List.filter (fun p => sql_where (text_eq (pin_room p) room))
             (pins db)))).

Definition search_room (room q : option string) (db : Store) : list Message :=
  let qlike := String.append "%" (String.append (py_str q) "%") in
  sql_limit 200
    (order_by_desc msg_id
       (List.filter
          (fun m =>
             sql_where
               (sql_and (text_eq (msg_room m) room)
                  (sql_like (msg_message m) qlike)))
          (messages db))).

(** The [SELECT] of [search_room] fails when the pattern is refused and a
    row of the room is reached: SQLite evaluates [LIKE] on the rows that
    pass [room=?]. *)
Definition search_refused (room q : option string) (db : Store) : bool :=
  like_refused (String.append "%" (String.append (py_str q) "%"))
  && existsb (fun m => sql_where (text_eq (msg_room m) room)) (messages db).

(* ================================================================== *)
(** * Events *)

(** The [data] argument of a handler: the keys the handlers read. *)
Record Data : Type := {
  d_username : field string;
  d_room : field string;
  d_message : field string;
  d_image : field string;
  d_reply_to : field Z;
  d_id : field Z;
  d_message_id : field Z;
  d_emoji : field string;
  d_to : field string;
  d_other : field string;
  d_query : field string
}.

(** The payload of a [send_message] or [send_dm] event. *)
Definition text_data (username : string) (room to : field string)
    (message : field string) : Data :=
  {| d_username := val username; d_room := room; d_message := message;
     d_image := absent; d_reply_to := absent; d_id := absent;
     d_message_id := absent; d_emoji := absent; d_to := to;
     d_other := absent; d_query := absent |}.

(** The payload of an event on a message: its id under both key names. *)
Definition id_data (mid : Z) (username emoji message : field string) : Data :=
  {| d_username := username; d_room := absent; d_message := message;
     d_image := absent; d_reply_to := absent; d_id := val mid;
     d_message_id := val mid; d_emoji := emoji; d_to := absent;
     d_other := absent; d_query := absent |}.

(** What an emitted event carries. *)
Inductive Payload : Type :=
| rows (l : list Message)
| one_row (m : option Message)
| row_with_avatar (m : Message) (avatar : option string)
| deleted_id (mid : option Z)
| reaction_counts (mid : option Z) (counts : gmap (option string) nat)
| results (l : list Message)
| user_list (l : list (string * option string))
| room_names (l : list string)
| initial (us : list (string * option string)) (rooms : list string)
| who (username : option string).

(** An emitted event.  [ev_to] is the [room=] argument: a room name, the
    sid of one connection, or [None] for every connection. *)
Record Emission : Type := {
  ev_name : string;
  ev_payload : Payload;
  ev_to : option string
}.

Definition emit (name : string) (p : Payload) (to : option string) : Emission :=
  {| ev_name := name; ev_payload := p; ev_to := to |}.

(** The state of the process: the database, the two presence dictionaries
    and the rooms each connection entered with [join_room]. *)
Record State : Type := {
  db : Store;
  user_to_sid : dict;
  sid_to_user : dict;
  entered : list (string * option string)
}.

Definition initial_state : State :=
  {| db := empty_store; user_to_sid := []; sid_to_user := []; entered := [] |}.

Definition with_db (d : Store) (st : State) : State :=
  {| db := d; user_to_sid := user_to_sid st; sid_to_user := sid_to_user st;
     entered := entered st |}.

(** Keeps the first occurrence of each name. *)
Fixpoint distinct (l : list string) : list string :=
  match l with
  | [] => []
  | x :: l' =>
      x :: List.filter (fun y => negb (String.eqb x y)) (distinct l')
  end.

(** [SELECT DISTINCT room FROM messages WHERE room IS NOT NULL ORDER BY id
    DESC LIMIT 100], then the list the handlers build from it: the empty
    name dropped, ["Lobby"] put first when it is not there.  The rows are
    taken newest first and a room counts at its newest message. *)
Definition room_list (d : Store) : list string :=
  let names :=
    sql_limit 100
      (distinct
         (flat_map
            (fun m => match msg_room m with Some r => [r] | None => [] end)
            (order_by_desc msg_id
               (List.filter (fun m => sql_where (sql_is_not_null (msg_room m)))
                  (messages d))))) in
  let rooms := List.filter (fun r => negb (String.eqb r "")) names in
  if existsb (String.eqb "Lobby") rooms then rooms else "Lobby" :: rooms.

(** The [user_list] payload: every key of [user_to_sid] with its avatar. *)
Definition presence_list (st : State) : list (string * option string) :=
  map (fun u => (u, avatar_of (Some u) (db st))) (dict_keys (user_to_sid st)).

(* ================================================================== *)
(** * Socket event handlers *)

Definition on_fetch_initial (sid : string) (st : State)
    : State * list Emission :=
  (st,
   [emit "initial"
      (initial (map (fun u => (usr_username u, usr_avatar u)) (users (db st)))
         (room_list (db st)))
      (Some sid)]).

Definition on_join_room (data : Data) (sid : string) (now : Z) (st : State)
    : State * list Emission :=
  let username := get (d_username data) in
  let room := get_or (d_room data) "Lobby" in
  match username with
  | Some name =>
      if negb (truthy username) then (st, [])
      else
        let st1 :=
          {| db := db st;
             user_to_sid := dict_set name sid (user_to_sid st);
             sid_to_user := dict_set sid name (sid_to_user st);
             entered := (sid, room) :: entered st |} in
        let msgs := load_room_messages room 500 (db st1) in
        let '(d2, sys_msg) :=
          persist_message room (Some "System") None
            (Some (String.append name (String.append " joined " (py_str room)))) None None now
            (db st1) in
        let st2 := with_db d2 st1 in
        (st2,
         [emit "load_room_messages" (rows msgs) (Some sid);
          emit "new_message_room" (one_row sys_msg) room;
          emit "user_list" (user_list (presence_list st2)) None;
          emit "rooms_list" (room_names (room_list d2)) None])
  | None => (st, [])
  end.

Definition on_load_room_messages (data : Data) (sid : string) (st : State)
    : State * list Emission :=
  let room := get_or (d_room data) "Lobby" in
  (st,
   [emit "load_room_messages" (rows (load_room_messages room 500 (db st)))
      (Some sid)]).

Definition on_send_message (data : Data) (sid : string) (now : Z) (st : State)
    : State * list Emission :=
  let username := get (d_username data) in
  let room := get (d_room data) in
  let message := get_or (d_message data) "" in
  let image := get (d_image data) in
  let reply_to := get (d_reply_to data) in
  if negb (truthy username) || negb (truthy room) then (st, [])
  else
    let avatar := avatar_of username (db st) in
    let '(d1, msg) :=
      persist_message room username None message image reply_to now (db st) in
    match msg with
    | Some m =>
        (with_db d1 st,
         [emit "new_message_room" (row_with_avatar m avatar) room;
          emit "message" (row_with_avatar m avatar) room])
    | None => (with_db d1 st, [])
    end.

Definition on_edit_message (data : Data) (sid : string) (st : State)
    : State * list Emission :=
  let mid := get (d_id data) in
  let new_text := get (d_message data) in
  let user := dict_get sid (sid_to_user st) in
  let '(d1, updated) := edit_message mid user new_text (db st) in
  match updated with
  | Some m => (with_db d1 st, [emit "update_message" (one_row (Some m)) None])
  | None => (with_db d1 st, [])
  end.

Definition on_delete_message (data : Data) (sid : string) (st : State)
    : State * list Emission :=
  let mid := get (d_id data) in
  let user := dict_get sid (sid_to_user st) in
  let '(d1, ok) := delete_message mid user (db st) in
  if ok then (with_db d1 st, [emit "delete_message" (deleted_id mid) None])
  else (with_db d1 st, []).

Definition on_react (data : Data) (sid : string) (st : State)
    : State * list Emission :=
  let mid := get (d_message_id data) in
  let username := get (d_username data) in
  let emoji := get (d_emoji data) in
  let '(d1, ok) := toggle_reaction mid username emoji (db st) in
  let reactions := reactions_summary mid d1 in
  (with_db d1 st,
   [emit "reactions_update" (reaction_counts mid reactions) None]).

Definition on_request_reactions (data : Data) (sid : string) (st : State)
    : State * list Emission :=
  let mid := get (d_message_id data) in
  (st,
   [emit "reactions_update" (reaction_counts mid (reactions_summary mid (db st)))
      (Some sid)]).

Definition on_pin_message (data : Data) (sid : string) (st : State)
    : State * list Emission :=
  let mid := get (d_id data) in
  let room := get_or (d_room data) "Lobby" in
  let '(d1, p) := pin_message mid room (db st) in
  match p with
  | Some m =>
      (with_db d1 st,
       [emit "pinned_message" (one_row (Some m)) None;
        emit "pinned_list" (rows (get_pinned room d1)) None])
  | None => (with_db d1 st, [])
  end.

Definition on_typing (data : Data) (sid : string) (st : State)
    : State * list Emission :=
  (st, [emit "typing" (who (get (d_username data))) (get (d_room data))]).

Definition on_stop_typing (data : Data) (sid : string) (st : State)
    : State * list Emission :=
  (st, [emit "stop_typing" (who (get (d_username data))) (get (d_room data))]).

Definition on_send_dm (data : Data) (sid : string) (now : Z) (st : State)
    : State * list Emission :=
  let sender := get (d_username data) in
  let to := get (d_to data) in
  let message := get_or (d_message data) "" in
  let image := get (d_image data) in
  let reply_to := get (d_reply_to data) in
  if negb (truthy sender) || negb (truthy to) then (st, [])
  else
    let avatar := avatar_of sender (db st) in
    let '(d1, msg) :=
      persist_message None sender to message image reply_to now (db st) in
    match msg with
    | Some m =>
        let recipient_sid :=
          match to with
          | Some t => dict_get t (user_to_sid st)
          | None => None
          end in
        (with_db d1 st,
         (if truthy recipient_sid
          then [emit "new_message_dm" (row_with_avatar m avatar) recipient_sid]
          else [])
         ++ [emit "new_message_dm" (row_with_avatar m avatar) (Some sid)])
    | None => (with_db d1 st, [])
    end.

Definition on_load_dm (data : Data) (sid : string) (st : State)
    : State * list Emission :=
  let user := get (d_username data) in
  let other := get (d_other data) in
  (st,
   [emit "load_dm_history" (rows (load_dm_history user other 500 (db st)))
      (Some sid)]).

Definition on_search (data : Data) (sid : string) (st : State)
    : State * list Emission :=
  let room := get (d_room data) in
  let q := get (d_query data) in
  (st, [emit "search_results" (results (search_room room q (db st))) (Some sid)]).

Definition on_get_pinned (data : Data) (sid : string) (st : State)
    : State * list Emission :=
  let room := get_or (d_room data) "Lobby" in
  (st, [emit "pinned_list" (rows (get_pinned room (db st))) (Some sid)]).

Definition on_presence (data : Data) (sid : string) (st : State)
    : State * list Emission :=
  (st, []).

Definition on_connect (sid : string) (st : State) : State * list Emission :=
  (st, []).

Definition on_disconnect (sid : string) (st : State) : State * list Emission :=
  let user := dict_get sid (sid_to_user st) in
  let st1 :=
    match user with
    | Some u =>
        if truthy user then
          {| db := db st;
             user_to_sid := dict_pop u (user_to_sid st);
             sid_to_user := dict_pop sid (sid_to_user st);
             entered := entered st |}
        else st
    | None => st
    end in
  (st1, [emit "user_list" (user_list (presence_list st1)) None]).

(** The [__main__] block: a welcome message in an empty [messages] table. *)
Definition startup (now : Z) (st : State) : State :=
  if (Z.of_nat (length (messages (db st))) =? 0) then
    with_db
      (fst
         (persist_message (Some "Lobby") (Some "System") None
            (Some "Welcome to CHATHUB") None None now (db st)))
      st
  else st.

(** The events a connection can send, and the broker's reaction. *)
Inductive Event : Type :=
| ev_fetch_initial
| ev_join_room (data : Data)
| ev_load_room_messages (data : Data)
| ev_send_message (data : Data)
| ev_edit_message (data : Data)
| ev_delete_message (data : Data)
| ev_react (data : Data)
| ev_request_reactions (data : Data)
| ev_pin_message (data : Data)
| ev_typing (data : Data)
| ev_stop_typing (data : Data)
| ev_send_dm (data : Data)
| ev_load_dm (data : Data)
| ev_search (data : Data)
| ev_get_pinned (data : Data)
| ev_presence (data : Data)
| ev_connect
| ev_disconnect.

Definition handle (e : Event) (sid : string) (now : Z) (st : State)
    : State * list Emission :=
  match e with
  | ev_fetch_initial => on_fetch_initial sid st
  | ev_join_room data => on_join_room data sid now st
  | ev_load_room_messages data => on_load_room_messages data sid st
  | ev_send_message data => on_send_message data sid now st
  | ev_edit_message data => on_edit_message data sid st
  | ev_delete_message data => on_delete_message data sid st
  | ev_react data => on_react data sid st
  | ev_request_reactions data => on_request_reactions data sid st
  | ev_pin_message data => on_pin_message data sid st
  | ev_typing data => on_typing data sid st
  | ev_stop_typing data => on_stop_typing data sid st
  | ev_send_dm data => on_send_dm data sid now st
  | ev_load_dm data => on_load_dm data sid st
  | ev_search data => on_search data sid st
  | ev_get_pinned data => on_get_pinned data sid st
  | ev_presence data => on_presence data sid st
  | ev_connect => on_connect sid st
  | ev_disconnect => on_disconnect sid st
  end.

(** A run of the broker: each event with the connection that sent it and
    the clock reading at that moment. *)
Fixpoint run (evs : list (Event * string * Z)) (st : State)
    : State * list Emission :=
  match evs with
  | [] => (st, [])
  | (e, sid, now) :: evs' =>
      let '(st1, out1) := handle e sid now st in
      let '(st2, out2) := run evs' st1 in
      (st2, out1 ++ out2)
  end.

(** The Presence Registry of the specification, as the handlers do it. *)
Definition set_online (username sid : string) (st : State) : State :=
  fst (on_join_room (text_data username absent absent absent) sid 0 st).

Definition set_offline (sid : string) (st : State) : State :=
  fst (on_disconnect sid st).

Definition lookup_connection (username : string) (st : State) : option string :=
  dict_get username (user_to_sid st).

(** The rows of [room] that [load_room_messages] selects from, and their
    number. *)
Definition is_room_row (room : string) (m : Message) : Prop :=
  msg_room m = Some room /\ msg_receiver m = None.

Definition room_count (room : string) (d : Store) : nat :=
  length
    (List.filter
       (fun m =>
          match msg_room m, msg_receiver m with
          | Some r, None => String.eqb r room
          | _, _ => false
          end)
       (messages d)).




(** [PRIMARY KEY]: no two rows of a table have the same id. *)
Definition primary_keys (d : Store) : Prop :=
  List.NoDup (map msg_id (messages d))
  /\ List.NoDup (map rc_id (reactions d))
  /\ List.NoDup (map pin_id (pins d)).

(** [q] is at the head of [s], and [q] occurs in [s], for characters that
    are the same for [LIKE]. *)
Fixpoint prefix_chars (q s : list Z) : bool :=
  match q, s with
  | [], _ => true
  | _ :: _, [] => false
  | c :: q', d :: s' => same_char c d && prefix_chars q' s'
  end.

Fixpoint contains_chars (q s : list Z) : bool :=
  prefix_chars q s
  || match s with
     | [] => false
     | _ :: s' => contains_chars q s'
     end.

(** [q] occurs in [s] when the case of the characters below 128 is
    folded. *)
Definition occurs_in (q s : list Z) : Prop :=
  exists pre post, map lower_char s = pre ++ map lower_char q ++ post.

(** A text of [search] that [LIKE] takes literally: no [%], no [_] and no
    NUL in it, and short enough for the pattern to be accepted. *)
Definition plain_char (c : ascii) : bool :=
  negb (char_val c =? 0) && negb (char_val c =? 37) && negb (char_val c =? 95).

Definition plain_query (q : string) : bool :=
  forallb plain_char (list_ascii_of_string q)
  && (Z.of_nat (String.length q) <=? 49998).

(** The specification's words for the match of [search]: [q] occurs in the
    whole text [s] when the case of the letters is ignored.  [lower_letter]
    is the lower case of the letters of Basic Latin and of the Latin-1
    Supplement, as Python's [str.lower] gives it. *)
Definition lower_letter (c : Z) : Z :=
  if ((65 <=? c) && (c <=? 90)) || ((192 <=? c) && (c <=? 214))
     || ((216 <=? c) && (c <=? 222))
  then c + 32 else c.

Fixpoint prefix_ci (q s : list Z) : bool :=
  match q, s with
  | [], _ => true
  | _ :: _, [] => false
  | c :: q', d :: s' => (lower_letter c =? lower_letter d) && prefix_ci q' s'
  end.

Fixpoint contains_ci (q s : list Z) : bool :=
  prefix_ci q s
  || match s with
     | [] => false
     | _ :: s' => contains_ci q s'
     end.

Definition substring_ci (q s : string) : bool :=
  contains_ci (utf8_chars q) (utf8_chars s).

(* ================================================================== *)
(** * Predicates of the statements *)

(** The text with the case of its ASCII letters folded. *)
Fixpoint fold_case (s : string) : string :=
  match s with
  | EmptyString => EmptyString
  | String c s' => String (lower c) (fold_case s')
  end.

(** The row [toggle_reaction] looks for. *)
Definition reaction_matches (m : Z) (u e : string) (r : Reaction) : bool :=
  sql_where
    (sql_and
       (sql_and (int_eq (rc_message_id r) (Some m))
          (text_eq (rc_username r) (Some u)))
       (text_eq (rc_emoji r) (Some e))).

(** The [WHERE] condition of the [SELECT] of [toggle_reaction]. *)
Definition reaction_where (mid : option Z) (username emoji : option string)
    (r : Reaction) : bool :=
  sql_where
    (sql_and
       (sql_and (int_eq (rc_message_id r) mid)
          (text_eq (rc_username r) username))
       (text_eq (rc_emoji r) emoji)).

(** The integers that [sqlite3] binds as a parameter: 64 bits, signed.  A
    Python [int] outside this range raises [OverflowError] in [execute],
    before the statement runs. *)
Definition sqlite_integer (x : option Z) : bool :=
  match x with
  | Some z => (- 2 ^ 63 <=? z) && (z <? 2 ^ 63)
  | None => true
  end.

(** The [WHERE] condition of [load_dm_history]. *)
Definition dm_where (user other : option string) (m : Message) : bool :=
  sql_where
    (sql_or
       (sql_and (text_eq (msg_sender m) user) (text_eq (msg_receiver m) other))
       (sql_and (text_eq (msg_sender m) other) (text_eq (msg_receiver m) user))).

(** Exactly one of [room] and [receiver] is set. *)
Definition room_xor_receiver (m : Message) : Prop :=
  (msg_room m <> None /\ msg_receiver m = None)
  \/ (msg_room m = None /\ msg_receiver m <> None).

(** No stored message has an id above the counter. *)
Definition ids_assigned (d : Store) : Prop :=
  Forall (fun m => msg_id m <= messages_seq d) (messages d).


(* ================================================================== *)
(** * Example states *)

(** The first message of the examples. *)
Definition hello_row : Message :=
  {| msg_id := 1; msg_room := Some "Lobby"; msg_sender := Some "alice";
     msg_receiver := None; msg_message := Some "hello"; msg_image := None;
     msg_reply_to := None; msg_timestamp := 100 |}.

(** The state after "alice" said hello in the Lobby and then "alice"
    joined it on "c1" and "bob" on "c2". *)
Definition lobby_state : State :=
  fst (run
         [(ev_send_message (text_data "alice" (val "Lobby") absent (val "hello")),
           "c1", 100);
          (ev_join_room (text_data "alice" (val "Lobby") absent absent), "c1", 101);
          (ev_join_room (text_data "bob" (val "Lobby") absent absent), "c2", 102)]
         initial_state).

(** The store of [lobby_state] after "alice" reacted to message 1. *)
Definition reacted_store : Store :=
  fst (toggle_reaction (Some 1) (Some "alice") (Some "+1") (db lobby_state)).

(** The store of [lobby_state] with a reaction on message 1 and message 1
    pinned in the Lobby. *)
Definition pinned_store : Store :=
  fst (pin_message (Some 1) (Some "Lobby") reacted_store).

(** The store of [lobby_state] after "alice" sent [body] to the Lobby. *)
Definition lobby_with (body : string) : Store :=
  db (fst (on_send_message (text_data "alice" (val "Lobby") absent (val body))
             "c1" 200 lobby_state)).

(** "É" and "é" in UTF-8, and two texts with a NUL in them. *)
Definition upper_e_acute : string := String "195" (String "137" "").
Definition lower_e_acute : string := String "195" (String "169" "").
Definition a_nul_z : string := String "a" (String "000" "z").
Definition o_nul_z : string := String "o" (String "000" "z").

(** A text of 49,999 letters. *)
Definition long_query : string :=
  string_of_list_ascii (repeat "a"%char (Z.to_nat 49999)).

(** [lobby_state] with the store [pinned_store]: three messages, a
    reaction on message 1 and a pin of message 1. *)
Definition busy_state : State := with_db pinned_store lobby_state.



(* ================================================================== *)
(** * Uploads and avatars *)

(** [ALLOWED_EXT]. *)
Definition ALLOWED_EXT : list string := ["png"; "jpg"; "jpeg"; "gif"; "webp"].

(** ['.' in filename]. *)
Fixpoint has_dot (s : string) : bool :=
  match s with
  | EmptyString => false
  | String c s' => Ascii.eqb c "." || has_dot s'
  end.

(** The text before and the text after the last ['.'], if there is one. *)
Fixpoint split_last_dot (s : string) : option (string * string) :=
  match s with
  | EmptyString => None
  | String c s' =>
      match split_last_dot s' with
      | Some (stem, ext) => Some (String c stem, ext)
      | None => if Ascii.eqb c "." then Some (EmptyString, s') else None
      end
  end.

(** [filename.rsplit('.', 1)]: one piece when there is no ['.']. *)
Definition rsplit_dot (s : string) : list string :=
  match split_last_dot s with
  | Some (stem, ext) => [stem; ext]
  | None => [s]
  end.

(** [allowed_file].  [lower()] is [fold_case]: a character outside ASCII
    stays outside it or becomes a letter that no allowed extension has,
    so the membership test is the same. *)
Definition allowed_file (filename : string) : bool :=
  has_dot filename
  && match nth_error (rsplit_dot filename) 1 with
     | Some ext => existsb (String.eqb (fold_case ext)) ALLOWED_EXT
     | None => false
     end.

(** The value of a byte, 0 to 255. *)
Definition byte_val (b : Init.Byte.byte) : Z := Z.of_N (Strings.Byte.to_N b).

Definition b64_alphabet : string :=
  "ABCDEFGHIJKLMNOPQRSTUVWXYZabcdefghijklmnopqrstuvwxyz0123456789+/".

(** The character of a 6-bit value. *)
Definition b64_char (i : Z) : ascii :=
  match String.get (Z.to_nat i) b64_alphabet with
  | Some c => c
  | None => "="%char
  end.

(** [base64.b64encode]: three bytes give four characters; a last group of
    one or two bytes is padded with ["="]. *)
Fixpoint b64encode (raw : list Init.Byte.byte) : string :=
  match raw with
  | [] => EmptyString
  | [a] =>
      let n := byte_val a * 65536 in
      String (b64_char (n / 262144))
        (String (b64_char (n / 4096 mod 64)) "==")
  | [a; b] =>
      let n := byte_val a * 65536 + byte_val b * 256 in
      String (b64_char (n / 262144))
        (String (b64_char (n / 4096 mod 64))
           (String (b64_char (n / 64 mod 64)) "="))
  | a :: b :: c :: rest =>
      let n := byte_val a * 65536 + byte_val b * 256 + byte_val c in
      String (b64_char (n / 262144))
        (String (b64_char (n / 4096 mod 64))
           (String (b64_char (n / 64 mod 64))
              (String (b64_char (n mod 64)) (b64encode rest))))
  end.

(** An uploaded file as the routes read it. *)
Record FileStorage : Type := {
  fs_filename : string;
  fs_mimetype : string;
  fs_content : list Init.Byte.byte
}.

(** [storage_file.mimetype or "image/png"]. *)
Definition mime_of (f : FileStorage) : string :=
  if String.eqb (fs_mimetype f) "" then "image/png" else fs_mimetype f.

Definition file_to_dataurl (storage_file : FileStorage) : string :=
  let raw := fs_content storage_file in
  let mime := mime_of storage_file in
  String.append (String.append "data:" (String.append mime ";base64,"))
    (b64encode raw).

(** The 6-bit value of a character of the alphabet. *)
Fixpoint index_of (c : ascii) (s : string) : option Z :=
  match s with
  | EmptyString => None
  | String d s' =>
      if Ascii.eqb c d then Some 0 else option_map Z.succ (index_of c s')
  end.

Definition b64_index (c : ascii) : option Z := index_of c b64_alphabet.

Definition byte_of (z : Z) : option Init.Byte.byte :=
  Strings.Byte.of_N (Z.to_N z).

(** A decoder for what [b64encode] writes.  It is not part of [app.py]:
    it is here to state that the encoding loses nothing. *)
Fixpoint b64decode (s : string) : option (list Init.Byte.byte) :=
  match s with
  | EmptyString => Some []
  | String c1 (String c2 (String c3 (String c4 rest))) =>
      match b64_index c1, b64_index c2 with
      | Some i1, Some i2 =>
          if Ascii.eqb c3 "=" then
            match byte_of (((i1 * 64 + i2) * 4096) / 65536) with
            | Some a => Some [a]
            | None => None
            end
          else
            match b64_index c3 with
            | Some i3 =>
                let n2 := ((i1 * 64 + i2) * 64 + i3) * 64 in
                if Ascii.eqb c4 "=" then
                  match byte_of (n2 / 65536), byte_of (n2 / 256 mod 256) with
                  | Some a, Some b => Some [a; b]
                  | _, _ => None
                  end
                else
                  match b64_index c4 with
                  | Some i4 =>
                      let n := n2 + i4 in
                      match byte_of (n / 65536), byte_of (n / 256 mod 256),
                            byte_of (n mod 256), b64decode rest with
                      | Some a, Some b, Some c, Some l => Some (a :: b :: c :: l)
                      | _, _, _, _ => None
                      end
                  | None => None
                  end
            | None => None
            end
      | _, _ => None
      end
  | _ => None
  end.

Definition set_users (us : list User) (d : Store) : Store :=
  {| users := us; messages := messages d; messages_seq := messages_seq d;
     reactions := reactions d; reactions_seq := reactions_seq d;
     pins := pins d; pins_seq := pins_seq d |}.

(** [set_avatar]: [UPDATE users SET avatar=? WHERE username=?]. *)
Definition set_avatar (username dataurl : option string) (d : Store) : Store :=
  set_users
    (map
       (fun u =>
          if sql_where (text_eq (Some (usr_username u)) username)
          then {| usr_username := usr_username u; usr_avatar := dataurl |}
          else u)
       (users d))
    d.

(** [UPLOAD_LIMIT], which the application sets as [MAX_CONTENT_LENGTH]. *)
Definition UPLOAD_LIMIT : Z := 2 * 1024 * 1024.

(** What a route answers: a redirect, with the message it flashed, or an
    error status. *)
Inductive Response : Type :=
| redirect (endpoint : string) (flashed : option string)
| abort (status : Z).

(** The [/upload_avatar] route behind [login_required]: [session_user] is
    [session["user"]] when the key is there, [content_length] is the
    length of the body of the request and [f] is
    [request.files.get("avatar")].  Reading [request.files] raises
    [RequestEntityTooLarge], which Flask answers with status 413, when
    the body is longer than [MAX_CONTENT_LENGTH].  A [FileStorage] is
    true in a condition when its file name is not empty. *)
Definition upload_avatar (session_user : option string) (content_length : Z)
    (f : option FileStorage) (d : Store) : Store * Response :=
  match session_user with
  | None => (d, redirect "login" None)
  | Some user =>
      if UPLOAD_LIMIT <? content_length then (d, abort 413)
      else
        match f with
        | Some file =>
            if negb (negb (String.eqb (fs_filename file) ""))
               || negb (allowed_file (fs_filename file))
            then (d, redirect "chat" (Some "No avatar or invalid type"))
            else
              let dataurl := file_to_dataurl file in
              (set_avatar (Some user) (Some dataurl) d,
               redirect "chat" (Some "Avatar updated"))
        | None => (d, redirect "chat" (Some "No avatar or invalid type"))
        end
  end.

(* ================================================================== *)
(** * Further predicates of the statements *)

(** What the [UPDATE] of [edit_message] does to a row. *)
Definition edit_row (mid : option Z) (new_text : option string) (m : Message)
    : Message :=
  if sql_where (int_eq (Some (msg_id m)) mid) then set_body new_text m else m.

(** The number of reaction rows of a message with a given emoji. *)
Definition reaction_count (mid : option Z) (emoji : option string) (d : Store)
    : nat :=
  length
    (List.filter
       (fun r =>
          sql_where (int_eq (rc_message_id r) mid)
          && bool_decide (rc_emoji r = emoji))
       (reactions d)).

(** The rows of [messages] are in ascending id order, none above the
    counter. *)
Definition rowid_order (d : Store) : Prop :=
  StronglySorted Z.lt (map msg_id (messages d))
  /\ Forall (fun m => 0 < msg_id m <= messages_seq d) (messages d).

(** At most one reaction row per message, user and emoji. *)
Definition reactions_unique (d : Store) : Prop :=
  forall m u e,
    (length (List.filter (reaction_matches m u e) (reactions d)) <= 1)%nat.




(* ================================================================== *)
(** * Basic facts *)

Section Python.

Lemma truthy_Some (s : string) : truthy (Some s) = true <-> s <> "".
Proof.
  unfold truthy. destruct (String.eqb_spec s ""); simpl; split; congruence.
Qed.

Lemma py_eq_true (a b : option string) : py_eq a b = true <-> a = b.
Proof.
  destruct a as [x|], b as [y|]; simpl; try (split; congruence).
  rewrite String.eqb_eq. split; congruence.
Qed.

Lemma py_eq_false (a b : option string) : py_eq a b = false <-> a <> b.
Proof.
  rewrite <- py_eq_true. destruct (py_eq a b); split; congruence.
Qed.

Lemma dict_get_set_eq (k v : string) (d : dict) :
  dict_get k (dict_set k v d) = Some v.
Proof.
  induction d as [|[k' v'] d IH]; simpl.
  - now rewrite String.eqb_refl.
  - destruct (String.eqb k k') eqn:E; simpl; rewrite ?String.eqb_refl, ?E; auto.
Qed.

Lemma dict_get_set_ne (k k' v : string) (d : dict) :
  k <> k' -> dict_get k (dict_set k' v d) = dict_get k d.
Proof.
  intros Hne. apply String.eqb_neq in Hne.
  induction d as [|[k0 v0] d IH]; simpl.
  - now rewrite Hne.
  - destruct (String.eqb k' k0) eqn:E; simpl.
    + apply String.eqb_eq in E. subst k0. now rewrite Hne.
    + now rewrite IH.
Qed.

Lemma dict_get_pop_eq (k : string) (d : dict) : dict_get k (dict_pop k d) = None.
Proof.
  unfold dict_pop. induction d as [|[k' v'] d IH]; simpl; auto.
  destruct (String.eqb k k') eqn:E; simpl; auto. now rewrite E.
Qed.

Lemma dict_get_pop_ne (k k' : string) (d : dict) :
  k <> k' -> dict_get k (dict_pop k' d) = dict_get k d.
Proof.
  intros Hne. unfold dict_pop.
  induction d as [|[k0 v0] d IH]; simpl; auto.
  destruct (String.eqb k' k0) eqn:E; simpl.
  - apply String.eqb_eq in E. subst k0.
    apply String.eqb_neq in Hne. now rewrite Hne.
  - now rewrite IH.
Qed.

End Python.

Section Ordering.

Context {A : Type} (leb : A -> A -> bool).
Hypothesis leb_total : forall x y, leb x y = false -> leb y x = true.
Hypothesis leb_trans :
  forall x y z, leb x y = true -> leb y z = true -> leb x z = true.

Let R (x y : A) : Prop := leb x y = true.

Lemma insert_by_perm (x : A) (l : list A) :
  Permutation (insert_by leb x l) (x :: l).
Proof using Type.
  induction l as [|y l IH]; simpl; [reflexivity|].
  destruct (leb x y); [reflexivity|].
  rewrite IH. apply perm_swap.
Qed.

Lemma sort_by_perm (l : list A) : Permutation (sort_by leb l) l.
Proof using Type.
  induction l as [|x l IH]; simpl; [reflexivity|].
  rewrite insert_by_perm. now constructor.
Qed.

Lemma sort_by_In (x : A) (l : list A) : In x (sort_by leb l) <-> In x l.
Proof using Type.
  split; apply Permutation_in;
    [apply sort_by_perm | symmetry; apply sort_by_perm].
Qed.

Lemma sort_by_length (l : list A) : length (sort_by leb l) = length l.
Proof using Type. apply Permutation_length, sort_by_perm. Qed.

Lemma insert_by_sorted (x : A) (l : list A) :
  StronglySorted R l -> StronglySorted R (insert_by leb x l).
Proof using leb_total leb_trans.
  induction 1 as [|y l Hs IH Hy]; simpl.
  - repeat constructor.
  - destruct (leb x y) eqn:E.
    + constructor; [now constructor|].
      constructor; [exact E|].
      eapply List.Forall_impl; [|exact Hy].
      intros z Hz. exact (leb_trans _ _ _ E Hz).
    + constructor; [exact IH|].
      rewrite List.Forall_forall. intros z Hz.
      apply (Permutation_in _ (insert_by_perm x l)) in Hz.
      destruct Hz as [<-|Hz]; [now apply leb_total|].
      rewrite List.Forall_forall in Hy. now apply Hy.
Qed.

Lemma sort_by_sorted (l : list A) : StronglySorted R (sort_by leb l).
Proof using leb_total leb_trans.
  induction l as [|x l IH]; simpl; [constructor|].
  now apply insert_by_sorted.
Qed.

(** A row that may come last stays last. *)
Lemma insert_by_snoc (y x : A) (l : list A) :
  leb y x = true -> insert_by leb y (l ++ [x]) = insert_by leb y l ++ [x].
Proof using Type.
  intros Hyx. induction l as [|z l IH]; simpl.
  - now rewrite Hyx.
  - destruct (leb y z); [reflexivity|]. now rewrite IH.
Qed.

Lemma sort_by_snoc (x : A) (l : list A) :
  (forall y, In y l -> leb y x = true) ->
  sort_by leb (l ++ [x]) = sort_by leb l ++ [x].
Proof using Type.
  induction l as [|y l IH]; intros H; simpl; [reflexivity|].
  rewrite IH by (intros z Hz; apply H; now right).
  apply insert_by_snoc, H. now left.
Qed.

End Ordering.

Lemma StronglySorted_weaken {A} (P Q : A -> A -> Prop) (l : list A) :
(forall x y, P x y -> Q x y) -> StronglySorted P l -> StronglySorted Q l.
Proof.
intros HPQ. induction 1 as [|x l Hs IH Hx]; constructor; [exact IH|].
eapply List.Forall_impl; [|exact Hx]. intros y. apply HPQ.
Qed.

Lemma firstn_In {A} (n : nat) (x : A) (l : list A) :
In x (firstn n l) -> In x l.
Proof.
revert l. induction n as [|n IH]; intros [|y l]; simpl; try tauto.
intros [->|H]; [now left|right; now apply IH].
Qed.

Section Sql.

Context {A : Type} (key : A -> Z).

Lemma order_by_asc_In (x : A) (l : list A) :
  In x (order_by_asc key l) <-> In x l.
Proof. apply sort_by_In. Qed.

Lemma order_by_desc_In (x : A) (l : list A) :
  In x (order_by_desc key l) <-> In x l.
Proof. apply sort_by_In. Qed.

Lemma order_by_asc_sorted (l : list A) :
  StronglySorted (fun x y => key x <= key y) (order_by_asc key l).
Proof.
  eapply StronglySorted_weaken;
    [|apply (sort_by_sorted (fun x y => key x <=? key y))].
  - intros x y H. now apply Z.leb_le.
  - intros x y H. apply Z.leb_le. apply Z.leb_gt in H. lia.
  - intros x y z H1 H2. apply Z.leb_le. apply Z.leb_le in H1, H2. lia.
Qed.

Lemma order_by_desc_sorted (l : list A) :
  StronglySorted (fun x y => key y <= key x) (order_by_desc key l).
Proof.
  eapply StronglySorted_weaken;
    [|apply (sort_by_sorted (fun x y => key y <=? key x))].
  - intros x y H. now apply Z.leb_le.
  - intros x y H. apply Z.leb_le. apply Z.leb_gt in H. lia.
  - intros x y z H1 H2. apply Z.leb_le. apply Z.leb_le in H1, H2. lia.
Qed.

Lemma order_by_asc_snoc (x : A) (l : list A) :
  (forall y, In y l -> key y <= key x) ->
  order_by_asc key (l ++ [x]) = order_by_asc key l ++ [x].
Proof.
  intros H. apply sort_by_snoc. intros y Hy. apply Z.leb_le. now apply H.
Qed.

(** Distinct keys make the order strict. *)
Lemma sorted_strict (R : Z -> Z -> Prop) (l : list A) :
  List.NoDup (map key l) ->
  StronglySorted (fun x y => R (key x) (key y)) l ->
  StronglySorted (fun x y => R (key x) (key y) /\ key x <> key y) l.
Proof.
  intros Hnd Hs. induction Hs as [|x l Hs IH Hx]; [constructor|].
  simpl in Hnd. apply NoDup_cons_iff in Hnd. destruct Hnd as [Hnin Hnd].
  constructor; [now apply IH|].
  rewrite List.Forall_forall in *. intros y Hy. split; [now apply Hx|].
  intros E. apply Hnin. rewrite E. now apply in_map.
Qed.

Lemma order_by_asc_strict (l : list A) :
  List.NoDup (map key l) ->
  StronglySorted (fun x y => key x < key y) (order_by_asc key l).
Proof.
  intros Hnd.
  assert (Hnd' : List.NoDup (map key (order_by_asc key l))).
  { eapply Permutation_NoDup; [|exact Hnd].
    apply Permutation_map. symmetry. apply sort_by_perm. }
  eapply StronglySorted_weaken;
    [|apply (sorted_strict Z.le _ Hnd'), order_by_asc_sorted].
  simpl. intros x y [H1 H2]. lia.
Qed.

Lemma order_by_desc_strict (l : list A) :
  List.NoDup (map key l) ->
  StronglySorted (fun x y => key y < key x) (order_by_desc key l).
Proof.
  intros Hnd.
  assert (Hnd' : List.NoDup (map key (order_by_desc key l))).
  { eapply Permutation_NoDup; [|exact Hnd].
    apply Permutation_map. symmetry. apply sort_by_perm. }
  eapply StronglySorted_weaken;
    [|apply (sorted_strict (fun a b => b <= a) _ Hnd'),
        order_by_desc_sorted].
  simpl. intros x y [H1 H2]. lia.
Qed.

Lemma sql_limit_In (n : Z) (x : A) (l : list A) :
  In x (sql_limit n l) -> In x l.
Proof.
  unfold sql_limit. destruct (n <? 0); [auto|]. apply firstn_In.
Qed.

Lemma sql_limit_length (n : Z) (l : list A) :
  0 <= n -> length (sql_limit n l) = Nat.min (Z.to_nat n) (length l).
Proof.
  intros Hn. unfold sql_limit.
  destruct (Z.ltb_spec n 0); [lia|]. apply length_firstn.
Qed.

Lemma sql_limit_all (n : Z) (l : list A) :
  n < 0 \/ Z.of_nat (length l) <= n -> sql_limit n l = l.
Proof.
  intros H. unfold sql_limit. destruct (Z.ltb_spec n 0); [reflexivity|].
  apply firstn_all2. lia.
Qed.

Lemma sql_limit_sorted (R : A -> A -> Prop) (n : Z) (l : list A) :
  StronglySorted R l -> StronglySorted R (sql_limit n l).
Proof.
  intros Hs. unfold sql_limit. destruct (n <? 0); [exact Hs|].
  generalize (Z.to_nat n). clear n. intros n. revert n.
  induction Hs as [|x l Hs IH Hx]; intros [|n]; simpl; try constructor.
  - apply IH.
  - rewrite List.Forall_forall in *. intros y Hy. apply Hx.
    eapply firstn_In; eauto.
Qed.

(** What [LIMIT] cuts off an ordered result comes after all it keeps. *)
Lemma sql_limit_cut (R : A -> A -> Prop) (n : Z) (x : A) (l : list A) :
  StronglySorted R l -> In x l ->
  In x (sql_limit n l)
  \/ (0 <= n /\ length (sql_limit n l) = Z.to_nat n
      /\ forall y, In y (sql_limit n l) -> R y x).
Proof.
  intros Hs Hx. unfold sql_limit. destruct (Z.ltb_spec n 0); [now left|].
  rewrite <- (firstn_skipn (Z.to_nat n) l) in Hx, Hs.
  apply in_app_or in Hx. destruct Hx as [Hx|Hx]; [now left|].
  right. split; [assumption|]. split.
  - apply firstn_length_le.
    destruct (Nat.le_gt_cases (Z.to_nat n) (length l)) as [|Hlt]; [assumption|].
    rewrite skipn_all2 in Hx by lia. destruct Hx.
  - intros y Hy. revert Hs Hx Hy.
    generalize (firstn (Z.to_nat n) l) (skipn (Z.to_nat n) l).
    intros l1 l2 Hs Hx Hy. induction l1 as [|z l1 IH]; [destruct Hy|].
    simpl in Hs. apply StronglySorted_inv in Hs. destruct Hs as [Hs Hz].
    destruct Hy as [<-|Hy]; [|now apply IH].
    rewrite List.Forall_forall in Hz. apply Hz, in_or_app. now right.
Qed.

Lemma next_rowid_gt_seq (seq : Z) (ids : list Z) : seq < next_rowid seq ids.
Proof. unfold next_rowid. lia. Qed.

Lemma next_rowid_gt_ids (seq : Z) (ids : list Z) (i : Z) :
  In i ids -> i < next_rowid seq ids.
Proof.
  unfold next_rowid. intros Hi.
  enough (i <= foldr Z.max 0 ids) by lia.
  induction ids as [|j ids IH]; [destruct Hi|].
  simpl. destruct Hi as [->|Hi]; [lia|]. specialize (IH Hi). lia.
Qed.

Lemma NoDup_map_filter (f : A -> bool) (l : list A) :
  List.NoDup (map key l) -> List.NoDup (map key (List.filter f l)).
Proof.
  induction l as [|x l IH]; simpl; [auto|].
  intros H. apply NoDup_cons_iff in H. destruct H as [Hx Hnd].
  destruct (f x); simpl; [|now apply IH].
  constructor; [|now apply IH].
  intros Hin. apply Hx. apply in_map_iff in Hin.
  destruct Hin as (y & Hy1 & Hy2). apply filter_In in Hy2.
  apply in_map_iff. exists y. tauto.
Qed.

Lemma NoDup_map_snoc (x : A) (l : list A) :
  List.NoDup (map key l) -> (forall y, In y l -> key y < key x) ->
  List.NoDup (map key (l ++ [x])).
Proof.
  intros Hnd Hlt. rewrite map_app. simpl.
  apply List.NoDup_app; [exact Hnd|repeat constructor; simpl; tauto|].
  intros i Hi [<-|[]]. apply List.in_map_iff in Hi.
  destruct Hi as (y & Hy1 & Hy2). apply Hlt in Hy2. lia.
Qed.

End Sql.

(* ================================================================== *)
(** * The message store *)

Section StoreFacts.

Lemma int_eq_true (a : Z) (mid : option Z) :
  sql_where (int_eq (Some a) mid) = true <-> mid = Some a.
Proof.
  destruct mid as [b|]; simpl; [|split; discriminate].
  destruct (Z.eqb_spec a b); split; congruence.
Qed.

Lemma int_eq_sym_true (a : Z) (mid : option Z) :
  sql_where (int_eq mid (Some a)) = true <-> mid = Some a.
Proof.
  destruct mid as [b|]; simpl; [|split; discriminate].
  destruct (Z.eqb_spec b a); split; congruence.
Qed.

Lemma with_db_same (st : State) : with_db (db st) st = st.
Proof. now destruct st. Qed.

Lemma fetchone_filter_Some {A} (f : A -> bool) (l : list A) (x : A) :
  fetchone (List.filter f l) = Some x -> In x l /\ f x = true.
Proof.
  unfold fetchone. intros H.
  assert (Hin : In x (List.filter f l)).
  { destruct (List.filter f l); simpl in H; [discriminate|].
    injection H as ->. now left. }
  now apply filter_In in Hin.
Qed.

Lemma fetchone_filter_None {A} (f : A -> bool) (l : list A) :
  fetchone (List.filter f l) = None <-> List.filter f l = [].
Proof.
  unfold fetchone. destruct (List.filter f l); simpl; split; congruence.
Qed.

Lemma filter_nil_iff {A} (f : A -> bool) (l : list A) :
  List.filter f l = [] <-> forall x, In x l -> f x = false.
Proof.
  induction l as [|y l IH]; simpl; [tauto|].
  destruct (f y) eqn:E; split.
  - discriminate.
  - intros H. specialize (H y (or_introl eq_refl)). congruence.
  - intros H x [<-|Hx]; [exact E|]. now apply IH.
  - intros H. apply IH. intros x Hx. apply H. now right.
Qed.

Lemma filter_all {A} (f : A -> bool) (l : list A) :
  (forall x, In x l -> f x = true) -> List.filter f l = l.
Proof.
  induction l as [|y l IH]; simpl; intros H; [reflexivity|].
  rewrite (H y (or_introl eq_refl)). f_equal. apply IH.
  intros x Hx. apply H. now right.
Qed.

Lemma select_message_Some (mid : option Z) (d : Store) (m : Message) :
  select_message mid d = Some m -> In m (messages d) /\ mid = Some (msg_id m).
Proof.
  unfold select_message. intros H. apply fetchone_filter_Some in H.
  now rewrite int_eq_true in H.
Qed.

Lemma select_message_None (mid : option Z) (d : Store) :
  select_message mid d = None <->
  forall m, In m (messages d) -> mid <> Some (msg_id m).
Proof.
  unfold select_message. rewrite fetchone_filter_None, filter_nil_iff.
  split; intros H m Hm; specialize (H m Hm).
  - intros E. apply int_eq_true in E. congruence.
  - destruct (sql_where _) eqn:E; [|reflexivity].
    apply int_eq_true in E. contradiction.
Qed.

(** With a primary key on [id], a stored row is the one its id selects. *)
Lemma select_message_stored (d : Store) (m : Message) :
  primary_keys d -> In m (messages d) ->
  select_message (Some (msg_id m)) d = Some m.
Proof.
  intros (Hnd & _) Hin. unfold select_message.
  induction (messages d) as [|x l IH]; [destruct Hin|].
  simpl in Hnd. apply List.NoDup_cons_iff in Hnd. destruct Hnd as [Hx Hnd].
  cbn [List.filter].
  destruct (sql_where (int_eq (Some (msg_id x)) (Some (msg_id m)))) eqn:E.
  - apply int_eq_true in E. injection E as E.
    destruct Hin as [->|Hin]; [reflexivity|].
    exfalso. apply Hx. rewrite <- E. now apply in_map.
  - destruct Hin as [->|Hin]; [|now apply IH].
    assert (E' : sql_where (int_eq (Some (msg_id m)) (Some (msg_id m))) = true)
      by now apply int_eq_true.
    congruence.
Qed.

(** [persist_message] always finds the row it has just inserted. *)
Lemma persist_message_row (room sender receiver text image : option string)
    (reply_to : option Z) (ts : Z) (d : Store) :
  let mid := next_rowid (messages_seq d) (map msg_id (messages d)) in
  let row :=
    {| msg_id := mid; msg_room := room; msg_sender := sender;
       msg_receiver := receiver; msg_message := text; msg_image := image;
       msg_reply_to := reply_to; msg_timestamp := ts |} in
  persist_message room sender receiver text image reply_to ts d
  = (set_messages (messages d ++ [row]) mid d, Some row).
Proof.
  intros mid row. unfold persist_message. fold mid. fold row. f_equal.
  unfold select_message. cbn [messages set_messages].
  rewrite List.filter_app.
  replace (List.filter _ (messages d)) with (@nil Message).
  - simpl. now rewrite Z.eqb_refl.
  - symmetry. apply filter_nil_iff. intros m Hm.
    destruct (sql_where _) eqn:E; [|reflexivity].
    apply int_eq_true in E. injection E as E.
    pose proof (next_rowid_gt_ids (messages_seq d) (map msg_id (messages d))
                  (msg_id m) (in_map _ _ _ Hm)) as Hlt.
    fold mid in Hlt. lia.
Qed.

End StoreFacts.

(* ================================================================== *)
(** * Presence *)

Section Presence.

(** A later identification of the same user wins. *)
Lemma set_online_lookup (u c : string) (st : State) :
  u <> "" -> lookup_connection u (set_online u c st) = Some c.
Proof.
  intros Hu. unfold lookup_connection, set_online, on_join_room, text_data.
  cbn [get d_username d_room get_or].
  apply truthy_Some in Hu. rewrite Hu. cbn [negb].
  rewrite persist_message_row. cbn [fst with_db user_to_sid].
  apply dict_get_set_eq.
Qed.

Lemma set_online_sid (u c : string) (st : State) :
  u <> "" -> dict_get c (sid_to_user (set_online u c st)) = Some u.
Proof.
  intros Hu. unfold set_online, on_join_room, text_data.
  cbn [get d_username d_room get_or].
  apply truthy_Some in Hu. rewrite Hu. cbn [negb].
  rewrite persist_message_row. cbn [fst with_db sid_to_user].
  apply dict_get_set_eq.
Qed.

Lemma set_online_other_sid (u c c' : string) (st : State) :
  u <> "" -> c' <> c ->
  dict_get c' (sid_to_user (set_online u c st)) = dict_get c' (sid_to_user st).
Proof.
  intros Hu Hc. unfold set_online, on_join_room, text_data.
  cbn [get d_username d_room get_or].
  apply truthy_Some in Hu. rewrite Hu. cbn [negb].
  rewrite persist_message_row. cbn [fst with_db sid_to_user].
  now apply dict_get_set_ne.
Qed.

(** The disconnect of any connection that once identified as [u] ends
    the presence of [u], whichever connection [u] is on now. *)
Lemma set_offline_drops_user (u c : string) (st : State) :
  u <> "" -> dict_get c (sid_to_user st) = Some u ->
  lookup_connection u (set_offline c st) = None.
Proof.
  intros Hu Hc. unfold lookup_connection, set_offline, on_disconnect.
  rewrite Hc. apply truthy_Some in Hu. rewrite Hu.
  cbn [fst user_to_sid]. apply dict_get_pop_eq.
Qed.

Lemma stale_disconnect (u c1 c2 : string) (st : State) :
  u <> "" -> c1 <> c2 ->
  let st2 := set_online u c2 (set_online u c1 st) in
  lookup_connection u st2 = Some c2
  /\ lookup_connection u (set_offline c1 st2) = None.
Proof.
  intros Hu Hc st2. split; [now apply set_online_lookup|].
  apply set_offline_drops_user; [exact Hu|].
  unfold st2. rewrite set_online_other_sid by assumption.
  now apply set_online_sid.
Qed.

(** C1, at the input where the code departs from it.  "alice"
    identifies on connection "c1", then on "c2": she is looked up on
    "c2".  Then the superseded "c1" disconnects: [on_disconnect] pops
    the entry of "alice" from [user_to_sid] without comparing it with
    the disconnecting sid, so the lookup gives [None], not "c2", while
    [sid_to_user] still maps "c2" to "alice". *)
Theorem stale_disconnect_removes_newer_mapping :
  let st2 := set_online "alice" "c2" (set_online "alice" "c1" initial_state) in
  lookup_connection "alice" st2 = Some "c2"
  /\ lookup_connection "alice" (set_offline "c1" st2) = None
  /\ dict_get "c2" (sid_to_user (set_offline "c1" st2)) = Some "alice".
Proof. vm_compute. repeat split. Qed.

End Presence.

(* ================================================================== *)
(** * Events on a message that is not stored *)

Section NotFound.

Lemma edit_message_not_found (mid : option Z) (u t : option string) (d : Store) :
  select_message mid d = None -> edit_message mid u t d = (d, None).
Proof. intros H. unfold edit_message. now rewrite H. Qed.

Lemma delete_message_not_found (mid : option Z) (u : option string) (d : Store) :
  select_message mid d = None -> delete_message mid u d = (d, false).
Proof. intros H. unfold delete_message. now rewrite H. Qed.

Lemma pin_message_select (mid : option Z) (room : option string) (d : Store) :
  snd (pin_message mid room d) = select_message mid d.
Proof. reflexivity. Qed.

(** A toggle always changes the number of reaction rows. *)
Lemma toggle_reaction_changes (mid : option Z) (u e : option string) (d : Store) :
  length (reactions (fst (toggle_reaction mid u e d))) <> length (reactions d).
Proof.
  unfold toggle_reaction.
  destruct (fetchone _) as [r|] eqn:E; cbn [fst reactions set_reactions].
  - apply fetchone_filter_Some in E. destruct E as [Hin _].
    induction (reactions d) as [|x l IH]; [destruct Hin|].
    cbn [List.filter]. destruct (Z.eqb_spec (rc_id x) (rc_id r)) as [Heq|Hne].
    + cbn [negb]. pose proof (List.filter_length_le
        (fun r0 => negb (rc_id r0 =? rc_id r)) l). simpl. lia.
    + destruct Hin as [->|Hin]; [congruence|].
      cbn [negb]. simpl. specialize (IH Hin). lia.
  - rewrite length_app. simpl. lia.
Qed.

(** C2, the claim as stated fails: in the empty store message 7 does not
    exist, yet a react on it inserts a reaction row and broadcasts a
    count of one, and a pin on it inserts a pin row.  And the id 2^63,
    which no row can have, is not an integer that [sqlite3] binds: the
    four operations raise [OverflowError] on it. *)
Lemma react_and_pin_on_missing_message_are_recorded :
  let data := id_data 7 (val "bob") (val "+1") absent in
  select_message (Some 7) (db initial_state) = None
  /\ length (reactions (db (fst (on_react data "c1" initial_state)))) = 1%nat
  /\ snd (on_react data "c1" initial_state)
     = [emit "reactions_update"
          (reaction_counts (Some 7) {[ Some "+1" := 1%nat ]}) None]
  /\ length (pins (db (fst (on_pin_message data "c1" initial_state)))) = 1%nat
  /\ sqlite_integer (Some (2 ^ 63)) = false.
Proof. vm_compute. repeat split. Qed.

End NotFound.

(* ================================================================== *)
(** * Authorization of edit and delete *)

Section Authorization.

Lemma primary_keys_lobby_state : primary_keys (db lobby_state).
Proof.
  vm_compute. repeat split; repeat constructor; simpl; intuition discriminate.
Qed.

(** C3.  A requester who is not the sender of a stored message gets
    [None] from [edit_message] and [False] from [delete_message], the
    store is the same afterwards, and the handlers, which take the
    requester from [sid_to_user], leave the state as it is and emit
    nothing. *)
Theorem unauthorized_edit_delete_silent_noop
    (st : State) (M : Message) (U text : option string) :
  primary_keys (db st) ->
  In M (messages (db st)) ->
  U <> msg_sender M ->
  edit_message (Some (msg_id M)) U text (db st) = (db st, None)
  /\ delete_message (Some (msg_id M)) U (db st) = (db st, false)
  /\ forall sid data,
       dict_get sid (sid_to_user st) = U ->
       get (d_id data) = Some (msg_id M) ->
       on_edit_message data sid st = (st, [])
       /\ on_delete_message data sid st = (st, []).
Proof.
  intros Hpk Hin Hne.
  pose proof (select_message_stored _ _ Hpk Hin) as Hsel.
  assert (Hpy : py_eq (msg_sender M) U = false)
    by (apply py_eq_false; congruence).
  assert (He : forall t, edit_message (Some (msg_id M)) U t (db st) = (db st, None)).
  { intros t. unfold edit_message. now rewrite Hsel, Hpy. }
  assert (Hd : delete_message (Some (msg_id M)) U (db st) = (db st, false)).
  { unfold delete_message. now rewrite Hsel, Hpy. }
  split; [apply He|]. split; [exact Hd|].
  intros sid data Hsid Hid. split.
  - unfold on_edit_message. rewrite Hid, Hsid, He. now rewrite with_db_same.
  - unfold on_delete_message. rewrite Hid, Hsid, Hd. now rewrite with_db_same.
Qed.

Lemma unauthorized_witness :
  edit_message (Some 1) (Some "bob") (Some "hacked") (db lobby_state)
  = (db lobby_state, None)
  /\ delete_message (Some 1) (Some "bob") (db lobby_state)
     = (db lobby_state, false)
  /\ on_delete_message (id_data 1 absent absent absent) "c2" lobby_state
     = (lobby_state, []).
Proof.
  destruct (unauthorized_edit_delete_silent_noop lobby_state hello_row
              (Some "bob") (Some "hacked") primary_keys_lobby_state)
    as (He & Hd & Hh).
  - vm_compute. now left.
  - discriminate.
  - split; [exact He|]. split; [exact Hd|].
    now apply (Hh "c2" (id_data 1 absent absent absent)).
Defined.

End Authorization.

(* ================================================================== *)
(** * Reactions *)

Section Reactions.

Lemma reaction_matches_true (m : Z) (u e : string) (r : Reaction) :
  reaction_matches m u e r = true <->
  rc_message_id r = Some m /\ rc_username r = Some u /\ rc_emoji r = Some e.
Proof.
  unfold reaction_matches.
  destruct (rc_message_id r) as [m'|], (rc_username r) as [u'|],
    (rc_emoji r) as [e'|]; simpl;
    try (split; [discriminate|intros (? & ? & ?); discriminate]).
  - destruct (Z.eqb_spec m' m), (String.eqb_spec u' u), (String.eqb_spec e' e);
      simpl; split; try discriminate; try (intros (? & ? & ?); congruence).
    subst. auto.
  - destruct (m' =? m), (String.eqb u' u); simpl;
      split; try discriminate; intros (? & ? & ?); discriminate.
  - destruct (m' =? m), (String.eqb e' e); simpl;
      split; try discriminate; intros (? & ? & ?); discriminate.
  - destruct (m' =? m); simpl;
      split; try discriminate; intros (? & ? & ?); discriminate.
  - destruct (String.eqb u' u), (String.eqb e' e); simpl;
      split; try discriminate; intros (? & ? & ?); discriminate.
  - destruct (String.eqb u' u); simpl;
      split; try discriminate; intros (? & ? & ?); discriminate.
  - destruct (String.eqb e' e); simpl;
      split; try discriminate; intros (? & ? & ?); discriminate.
Qed.



End Reactions.

(* ================================================================== *)
(** * Delete *)

Section Delete.

Lemma get_pinned_In (room : option string) (d : Store) (m : Message) :
  In m (get_pinned room d) ->
  In m (messages d)
  /\ exists p, In p (pins d) /\ pin_message_id p = Some (msg_id m)
               /\ sql_where (text_eq (pin_room p) room) = true.
Proof.
  unfold get_pinned. intros H. apply sql_limit_In in H.
  apply in_flat_map in H. destruct H as (p & Hp & Hm).
  apply order_by_desc_In, filter_In in Hp. apply filter_In in Hm.
  destruct Hp as [Hp Hroom], Hm as [Hm Hid].
  split; [exact Hm|]. exists p. apply int_eq_true in Hid. auto.
Qed.

Lemma primary_keys_pinned_store : primary_keys pinned_store.
Proof.
  vm_compute. repeat split; repeat constructor; simpl; intuition discriminate.
Qed.

(** C6.  The sender's delete of a stored message returns [True]; the row
    and every reaction row on it are gone in the store it returns, so
    [reactions_summary] of the id is empty; the pins are left as they
    are, and [get_pinned], a join with [messages], is defined on the new
    store and lists no row with the deleted id. *)
Theorem authorized_delete_removes_message_and_reactions
    (d : Store) (M : Message) :
  primary_keys d ->
  In M (messages d) ->
  let '(d', ok) := delete_message (Some (msg_id M)) (msg_sender M) d in
  ok = true
  /\ (forall m, In m (messages d') <-> In m (messages d) /\ msg_id m <> msg_id M)
  /\ select_message (Some (msg_id M)) d' = None
  /\ (forall r, In r (reactions d') <->
                In r (reactions d) /\ rc_message_id r <> Some (msg_id M))
  /\ reactions_summary (Some (msg_id M)) d' = ∅
  /\ pins d' = pins d
  /\ forall room m, In m (get_pinned room d') ->
                    In m (messages d) /\ msg_id m <> msg_id M.
Proof.
  intros Hpk Hin.
  pose proof (select_message_stored _ _ Hpk Hin) as Hsel.
  unfold delete_message. rewrite Hsel.
  assert (Hpy : py_eq (msg_sender M) (msg_sender M) = true)
    by now apply py_eq_true.
  rewrite Hpy. cbn [negb].
  cbn [messages reactions pins set_messages set_reactions reactions_seq].
  assert (Hmsgs : forall m,
    In m (List.filter
            (fun m0 => negb (sql_where (int_eq (Some (msg_id m0)) (Some (msg_id M)))))
            (messages d))
    <-> In m (messages d) /\ msg_id m <> msg_id M).
  { intros m. rewrite filter_In, negb_true_iff.
    destruct (sql_where _) eqn:E.
    - apply int_eq_true in E. injection E as E. intuition congruence.
    - assert (msg_id m <> msg_id M).
      { intros E'. rewrite E' in E.
        assert (E2 : sql_where (int_eq (Some (msg_id M)) (Some (msg_id M))) = true)
          by now apply int_eq_true.
        congruence. }
      tauto. }
  split; [reflexivity|]. split; [exact Hmsgs|]. split.
  { apply select_message_None. cbn [messages set_reactions set_messages].
    intros m Hm E. apply Hmsgs in Hm. injection E as E. intuition congruence. }
  split.
  { intros r. rewrite filter_In, negb_true_iff.
    destruct (sql_where _) eqn:E.
    - apply int_eq_sym_true in E. intuition congruence.
    - assert (rc_message_id r <> Some (msg_id M)).
      { intros E'. apply int_eq_sym_true in E'. congruence. }
      tauto. }
  split.
  { unfold reactions_summary. cbn [reactions set_reactions].
    replace (List.filter _ (List.filter _ (reactions d))) with (@nil Reaction);
      [reflexivity|].
    symmetry. apply filter_nil_iff. intros r Hr.
    apply filter_In in Hr. destruct Hr as [_ Hr].
    now apply negb_true_iff in Hr. }
  split; [reflexivity|].
  intros room m Hm. apply get_pinned_In in Hm. destruct Hm as [Hm _].
  cbn [messages set_reactions set_messages] in Hm. now apply Hmsgs.
Qed.

Lemma authorized_delete_witness :
  let '(d', ok) := delete_message (Some 1) (Some "alice") pinned_store in
  ok = true
  /\ select_message (Some 1) d' = None
  /\ reactions_summary (Some 1) d' = ∅
  /\ get_pinned (Some "Lobby") pinned_store = [hello_row]
  /\ get_pinned (Some "Lobby") d' = [].
Proof.
  pose proof (authorized_delete_removes_message_and_reactions pinned_store
                hello_row primary_keys_pinned_store) as H.
  change (msg_id hello_row) with 1 in H.
  change (msg_sender hello_row) with (Some "alice") in H.
  destruct (delete_message (Some 1) (Some "alice") pinned_store) as [d' ok] eqn:E.
  destruct H as (H1 & H2 & H3 & H4 & H5 & H6 & H7); [vm_compute; now left|].
  split; [exact H1|]. split; [exact H3|]. split; [exact H5|].
  split; [reflexivity|].
  replace d' with (fst (delete_message (Some 1) (Some "alice") pinned_store))
    by now rewrite E.
  reflexivity.
Defined.

End Delete.

(* ================================================================== *)
(** * Invariants of the store *)

Section Invariants.

Lemma persist_message_primary_keys
    (room sender receiver text image : option string) (reply_to : option Z)
    (ts : Z) (d : Store) :
  primary_keys d ->
  primary_keys (fst (persist_message room sender receiver text image reply_to ts d)).
Proof.
  intros (Hm & Hr & Hp). rewrite persist_message_row.
  cbn [fst]. split; [|split; assumption].
  cbn [messages set_messages]. apply NoDup_map_snoc; [exact Hm|].
  intros y Hy. simpl. apply next_rowid_gt_ids. now apply in_map.
Qed.

Lemma edit_message_primary_keys (mid : option Z) (u t : option string) (d : Store) :
  primary_keys d -> primary_keys (fst (edit_message mid u t d)).
Proof.
  intros Hpk. unfold edit_message.
  destruct (select_message mid d); [|exact Hpk].
  destruct (negb _); [exact Hpk|].
  destruct Hpk as (Hm & Hr & Hp). split; [|split; assumption].
  cbn [fst messages set_messages]. rewrite map_map.
  erewrite map_ext; [exact Hm|].
  intros x. now destruct (sql_where _).
Qed.

Lemma delete_message_primary_keys (mid : option Z) (u : option string) (d : Store) :
  primary_keys d -> primary_keys (fst (delete_message mid u d)).
Proof.
  intros Hpk. unfold delete_message.
  destruct (select_message mid d); [|exact Hpk].
  destruct (negb _); [exact Hpk|].
  destruct Hpk as (Hm & Hr & Hp).
  split; [|split]; cbn [fst messages reactions pins set_messages set_reactions].
  - now apply NoDup_map_filter.
  - now apply NoDup_map_filter.
  - exact Hp.
Qed.

Lemma toggle_reaction_primary_keys (mid : option Z) (u e : option string)
    (d : Store) :
  primary_keys d -> primary_keys (fst (toggle_reaction mid u e d)).
Proof.
  intros (Hm & Hr & Hp). unfold toggle_reaction.
  destruct (fetchone _); (split; [|split]);
    cbn [fst messages reactions pins set_reactions]; try assumption.
  - now apply NoDup_map_filter.
  - apply NoDup_map_snoc; [exact Hr|].
    intros y Hy. simpl. apply next_rowid_gt_ids. now apply in_map.
Qed.

Lemma pin_message_primary_keys (mid : option Z) (room : option string) (d : Store) :
  primary_keys d -> primary_keys (fst (pin_message mid room d)).
Proof.
  intros (Hm & Hr & Hp). unfold pin_message.
  split; [|split]; cbn [fst messages reactions pins set_pins]; try assumption.
  apply NoDup_map_snoc; [exact Hp|].
  intros y Hy. simpl. apply next_rowid_gt_ids. now apply in_map.
Qed.

(** Every handler keeps the ids of each table distinct. *)
Lemma handle_primary_keys (e : Event) (sid : string) (now : Z) (st : State) :
  primary_keys (db st) -> primary_keys (db (fst (handle e sid now st))).
Proof.
  intros Hpk. destruct e; cbn [handle]; try exact Hpk.
  - unfold on_join_room. destruct (get (d_username data)); [|exact Hpk].
    destruct (negb _); [exact Hpk|].
    destruct (persist_message _ _ _ _ _ _ _ _) as [d2 m] eqn:E.
    cbn [fst db with_db]. change d2 with (fst (d2, m)). rewrite <- E.
    now apply persist_message_primary_keys.
  - unfold on_send_message. destruct (_ || _); [exact Hpk|].
    destruct (persist_message _ _ _ _ _ _ _ _) as [d2 m] eqn:E.
    assert (Hd2 : primary_keys d2).
    { change d2 with (fst (d2, m)). rewrite <- E.
      now apply persist_message_primary_keys. }
    now destruct m.
  - unfold on_edit_message.
    destruct (edit_message _ _ _ _) as [d2 m] eqn:E.
    assert (Hd2 : primary_keys d2).
    { change d2 with (fst (d2, m)). rewrite <- E.
      now apply edit_message_primary_keys. }
    now destruct m.
  - unfold on_delete_message.
    destruct (delete_message _ _ _) as [d2 ok] eqn:E.
    assert (Hd2 : primary_keys d2).
    { change d2 with (fst (d2, ok)). rewrite <- E.
      now apply delete_message_primary_keys. }
    now destruct ok.
  - unfold on_react.
    destruct (toggle_reaction _ _ _ _) as [d2 ok] eqn:E.
    cbn [fst db with_db]. change d2 with (fst (d2, ok)). rewrite <- E.
    now apply toggle_reaction_primary_keys.
  - unfold on_pin_message.
    destruct (pin_message _ _ _) as [d2 m] eqn:E.
    assert (Hd2 : primary_keys d2).
    { change d2 with (fst (d2, m)). rewrite <- E.
      now apply pin_message_primary_keys. }
    now destruct m.
  - unfold on_send_dm. destruct (_ || _); [exact Hpk|].
    destruct (persist_message _ _ _ _ _ _ _ _) as [d2 m] eqn:E.
    assert (Hd2 : primary_keys d2).
    { change d2 with (fst (d2, m)). rewrite <- E.
      now apply persist_message_primary_keys. }
    now destruct m.
  - unfold on_disconnect. destruct (dict_get _ _); [|exact Hpk].
    now destruct (truthy _).
Qed.

Lemma run_cons (e : Event) (sid : string) (now : Z)
    (evs : list (Event * string * Z)) (st : State) :
  fst (run ((e, sid, now) :: evs) st) = fst (run evs (fst (handle e sid now st))).
Proof.
  change (run ((e, sid, now) :: evs) st)
    with (let '(st1, out1) := handle e sid now st in
          let '(st2, out2) := run evs st1 in (st2, out1 ++ out2)).
  destruct (handle e sid now st) as [st1 out1].
  cbn [fst]. now destruct (run evs st1).
Qed.

(** In every state the broker can reach from the empty database, the ids
    of each table are distinct. *)
Lemma run_primary_keys (evs : list (Event * string * Z)) (st : State) :
  primary_keys (db st) -> primary_keys (db (fst (run evs st))).
Proof.
  revert st. induction evs as [|[[e sid] now] evs IH]; intros st Hpk.
  - exact Hpk.
  - rewrite run_cons. apply IH. now apply handle_primary_keys.
Qed.

Lemma primary_keys_initial : primary_keys (db initial_state).
Proof. repeat split; constructor. Qed.

Corollary reachable_primary_keys (evs : list (Event * string * Z)) :
  primary_keys (db (fst (run evs initial_state))).
Proof. apply run_primary_keys, primary_keys_initial. Qed.

(** The counter of [messages] never goes down, whatever the event: an id
    once given stays below every id given later, also after a delete. *)
Lemma handle_messages_seq (e : Event) (sid : string) (now : Z) (st : State) :
  messages_seq (db st) <= messages_seq (db (fst (handle e sid now st))).
Proof.
  destruct e; cbn [handle]; try reflexivity.
  - unfold on_join_room. destruct (get (d_username data)); [|reflexivity].
    destruct (negb _); [reflexivity|].
    rewrite persist_message_row. cbn [fst db with_db messages_seq set_messages].
    pose proof (next_rowid_gt_seq (messages_seq (db st))
                  (map msg_id (messages (db st)))). lia.
  - unfold on_send_message. destruct (_ || _); [reflexivity|].
    rewrite persist_message_row. cbn [fst db with_db messages_seq set_messages].
    pose proof (next_rowid_gt_seq (messages_seq (db st))
                  (map msg_id (messages (db st)))). lia.
  - unfold on_edit_message, edit_message.
    destruct (select_message _ _); [|reflexivity].
    destruct (negb _); [reflexivity|].
    now destruct (select_message _ _).
  - unfold on_delete_message, delete_message.
    destruct (select_message _ _); [|reflexivity].
    now destruct (negb _).
  - unfold on_react, toggle_reaction. now destruct (fetchone _).
  - unfold on_pin_message, pin_message. now destruct (select_message _ _).
  - unfold on_send_dm. destruct (_ || _); [reflexivity|].
    rewrite persist_message_row. cbn [fst db with_db messages_seq set_messages].
    pose proof (next_rowid_gt_seq (messages_seq (db st))
                  (map msg_id (messages (db st)))). lia.
  - unfold on_disconnect. destruct (dict_get _ _); [|reflexivity].
    now destruct (truthy _).
Qed.

Lemma handle_ids_assigned (e : Event) (sid : string) (now : Z) (st : State) :
  ids_assigned (db st) -> ids_assigned (db (fst (handle e sid now st))).
Proof.
  unfold ids_assigned. intros Hid.
  assert (Hpersist : forall room sender receiver text image reply_to,
    Forall (fun m => msg_id m <= messages_seq
                       (fst (persist_message room sender receiver text image
                               reply_to now (db st))))
      (messages (fst (persist_message room sender receiver text image
                        reply_to now (db st))))).
  { intros. rewrite persist_message_row.
    cbn [fst messages messages_seq set_messages].
    apply Forall_app. split.
    - eapply List.Forall_impl; [|exact Hid]. intros m Hm. simpl in Hm.
      pose proof (next_rowid_gt_seq (messages_seq (db st))
                    (map msg_id (messages (db st)))). lia.
    - repeat constructor. simpl. lia. }
  destruct e; cbn [handle]; try exact Hid.
  - unfold on_join_room. destruct (get (d_username data)); [|exact Hid].
    destruct (negb _); [exact Hid|].
    destruct (persist_message _ _ _ _ _ _ _ _) as [d2 m] eqn:E.
    cbn [fst db with_db]. change d2 with (fst (d2, m)). rewrite <- E.
    apply Hpersist.
  - unfold on_send_message. destruct (_ || _); [exact Hid|].
    destruct (persist_message _ _ _ _ _ _ _ _) as [d2 m] eqn:E.
    assert (Hd2 : Forall (fun m => msg_id m <= messages_seq d2) (messages d2)).
    { change d2 with (fst (d2, m)). rewrite <- E. apply Hpersist. }
    now destruct m.
  - unfold on_edit_message, edit_message.
    destruct (select_message _ _); [|exact Hid].
    destruct (negb _); [exact Hid|].
    match goal with
    | |- context [select_message ?a ?b] => destruct (select_message a b)
    end; cbn [fst db with_db messages messages_seq set_messages];
      (apply Forall_map; eapply List.Forall_impl; [|exact Hid];
       intros x Hx; simpl in Hx; now destruct (sql_where _)).
  - unfold on_delete_message, delete_message.
    destruct (select_message _ _); [|exact Hid].
    destruct (negb _); [exact Hid|].
    cbn [fst db with_db messages messages_seq set_messages set_reactions].
    rewrite List.Forall_forall in *. intros x Hx.
    apply filter_In in Hx. now apply Hid.
  - unfold on_react, toggle_reaction. now destruct (fetchone _).
  - unfold on_pin_message, pin_message. now destruct (select_message _ _).
  - unfold on_send_dm. destruct (_ || _); [exact Hid|].
    destruct (persist_message _ _ _ _ _ _ _ _) as [d2 m] eqn:E.
    assert (Hd2 : Forall (fun m => msg_id m <= messages_seq d2) (messages d2)).
    { change d2 with (fst (d2, m)). rewrite <- E. apply Hpersist. }
    now destruct m.
  - unfold on_disconnect. destruct (dict_get _ _); [|exact Hid].
    now destruct (truthy _).
Qed.

End Invariants.

(* ================================================================== *)
(** * Order of the messages of a room *)

Section Ordering_of_sends.


Lemma room_filter_true (room : string) (m : Message) :
  sql_where (sql_and (text_eq (msg_room m) (Some room))
               (sql_is_null (msg_receiver m))) = true
  <-> is_room_row room m.
Proof.
  unfold is_room_row.
  destruct (msg_room m) as [r|], (msg_receiver m) as [x|]; simpl;
    try (split; [discriminate|intros [? ?]; discriminate]).
  - destruct (String.eqb r room); split; try discriminate;
      intros [? ?]; discriminate.
  - destruct (String.eqb_spec r room) as [->|Hne]; simpl; split; intros H.
    + now split.
    + reflexivity.
    + discriminate H.
    + destruct H as [H _]. congruence.
Qed.

Lemma load_room_messages_unlimited (room : option string) (d : Store) :
  load_room_messages room (-1) d
  = order_by_asc msg_id
      (List.filter
         (fun m => sql_where (sql_and (text_eq (msg_room m) room)
                                (sql_is_null (msg_receiver m))))
         (messages d)).
Proof. reflexivity. Qed.

Lemma room_count_eq (room : string) (d : Store) :
  room_count room d = length (load_room_messages (Some room) (-1) d).
Proof.
  rewrite load_room_messages_unlimited. unfold room_count, order_by_asc.
  rewrite sort_by_length. f_equal. apply filter_ext. intros m.
  destruct (msg_room m) as [r|], (msg_receiver m) as [x|]; simpl;
    try reflexivity.
  - now destruct (String.eqb r room).
  - now destruct (String.eqb r room).
Qed.





End Ordering_of_sends.

(* ================================================================== *)
(** * Room and receiver of a stored row *)

Section Exclusivity.

(** Every handler keeps the invariant, and every row it inserts has it,
    unless the event is a [join_room] whose [room] key is null. *)
Lemma handle_room_xor_receiver (e : Event) (sid : string) (now : Z) (st : State) :
  match e with
  | ev_join_room data => d_room data <> null
  | _ => True
  end ->
  Forall room_xor_receiver (messages (db st)) ->
  Forall room_xor_receiver (messages (db (fst (handle e sid now st)))).
Proof.
  intros He Hinv.
  assert (Hpersist : forall room sender receiver text image reply_to,
    (room <> None /\ receiver = None) \/ (room = None /\ receiver <> None) ->
    Forall room_xor_receiver
      (messages (fst (persist_message room sender receiver text image
                        reply_to now (db st))))).
  { intros room sender receiver text image reply_to Hx.
    rewrite persist_message_row. cbn [fst messages set_messages].
    apply Forall_app. split; [exact Hinv|].
    constructor; [exact Hx|constructor]. }
  destruct e; cbn [handle]; try exact Hinv.
  - unfold on_join_room. destruct (get (d_username data)); [|exact Hinv].
    destruct (negb _); [exact Hinv|].
    destruct (persist_message _ _ _ _ _ _ _ _) as [d2 m] eqn:E.
    cbn [fst db with_db]. change d2 with (fst (d2, m)). rewrite <- E.
    apply Hpersist. left. split; [|reflexivity].
    destruct (d_room data); simpl; congruence.
  - unfold on_send_message.
    destruct (negb (truthy (get (d_username data)))); [exact Hinv|].
    destruct (truthy (get (d_room data))) eqn:Hr; [|exact Hinv].
    cbn [negb orb].
    destruct (persist_message _ _ _ _ _ _ _ _) as [d2 m] eqn:E.
    assert (Hd2 : Forall room_xor_receiver (messages d2)).
    { change d2 with (fst (d2, m)). rewrite <- E.
      apply Hpersist. left. split; [|reflexivity].
      destruct (get (d_room data)); [discriminate|discriminate Hr]. }
    now destruct m.
  - unfold on_edit_message, edit_message.
    destruct (select_message _ _); [|exact Hinv].
    destruct (negb _); [exact Hinv|].
    match goal with
    | |- context [select_message ?a ?b] => destruct (select_message a b)
    end; cbn [fst db with_db messages set_messages];
      (apply Forall_map; eapply List.Forall_impl; [|exact Hinv];
       intros x Hx; now destruct (sql_where _)).
  - unfold on_delete_message, delete_message.
    destruct (select_message _ _); [|exact Hinv].
    destruct (negb _); [exact Hinv|].
    cbn [fst db with_db messages set_messages set_reactions].
    rewrite List.Forall_forall in *. intros x Hx.
    apply filter_In in Hx. now apply Hinv.
  - unfold on_react, toggle_reaction. now destruct (fetchone _).
  - unfold on_pin_message, pin_message. now destruct (select_message _ _).
  - unfold on_send_dm.
    destruct (negb (truthy (get (d_username data)))); [exact Hinv|].
    destruct (truthy (get (d_to data))) eqn:Ht; [|exact Hinv].
    cbn [negb orb].
    destruct (persist_message _ _ _ _ _ _ _ _) as [d2 m] eqn:E.
    assert (Hd2 : Forall room_xor_receiver (messages d2)).
    { change d2 with (fst (d2, m)). rewrite <- E.
      apply Hpersist. right. split; [reflexivity|].
      destruct (get (d_to data)); [discriminate|discriminate Ht]. }
    now destruct m.
  - unfold on_disconnect. destruct (dict_get _ _); [|exact Hinv].
    now destruct (truthy _).
Qed.

Lemma startup_room_xor_receiver (now : Z) (st : State) :
  Forall room_xor_receiver (messages (db st)) ->
  Forall room_xor_receiver (messages (db (startup now st))).
Proof.
  intros Hinv. unfold startup. destruct (_ =? 0); [|exact Hinv].
  rewrite persist_message_row. cbn [fst db with_db messages set_messages].
  apply Forall_app. split; [exact Hinv|].
  constructor; [|constructor]. left. split; [discriminate|reflexivity].
Qed.

(** C8, at the input where the code departs from it.  A [join_room] event
    whose payload is [{"username": "alice", "room": null}] passes the
    only guard of [on_join_room], the one on the username, and
    [persist_message] stores the system message with neither a room nor
    a receiver. *)
Theorem join_with_null_room_stores_neither_room_nor_receiver :
  let data := text_data "alice" null absent absent in
  messages (db (fst (on_join_room data "c1" 100 initial_state)))
  = [{| msg_id := 1; msg_room := None; msg_sender := Some "System";
        msg_receiver := None; msg_message := Some "alice joined None";
        msg_image := None; msg_reply_to := None; msg_timestamp := 100 |}]
  /\ ~ Forall room_xor_receiver
         (messages (db (fst (on_join_room data "c1" 100 initial_state)))).
Proof.
  split; [reflexivity|].
  intros H. vm_compute in H. inversion H as [|m l Hm _]; subst.
  destruct Hm as [[Hm _]|[_ Hm]]; now apply Hm.
Qed.

End Exclusivity.

(* ================================================================== *)
(** * Direct messages *)

Section DirectMessages.













End DirectMessages.

(* ================================================================== *)
(** * The cap of the room history *)

Section RoomHistory.

Lemma StronglySorted_app_inv {A} (R : A -> A -> Prop) (l1 l2 : list A) :
  StronglySorted R (l1 ++ l2) ->
  StronglySorted R l1 /\ StronglySorted R l2
  /\ forall x y, In x l1 -> In y l2 -> R x y.
Proof.
  induction l1 as [|z l1 IH]; simpl; intros Hs.
  - repeat split; [constructor|exact Hs|intros x y []].
  - apply StronglySorted_inv in Hs. destruct Hs as [Hs Hz].
    destruct (IH Hs) as (H1 & H2 & H3). rewrite List.Forall_forall in Hz.
    repeat split; try assumption.
    + constructor; [exact H1|]. rewrite List.Forall_forall.
      intros x Hx. apply Hz, in_or_app. now left.
    + intros x y [<-|Hx] Hy; [|now apply H3].
      apply Hz, in_or_app. now right.
Qed.

Lemma load_room_messages_In (room : string) (limit : Z) (d : Store) (m : Message) :
  In m (load_room_messages (Some room) limit d) ->
  In m (messages d) /\ is_room_row room m.
Proof.
  unfold load_room_messages. intros H.
  apply sql_limit_In, order_by_asc_In, filter_In in H.
  now rewrite room_filter_true in H.
Qed.

Lemma load_room_messages_all_In (room : string) (d : Store) (m : Message) :
  In m (load_room_messages (Some room) (-1) d) <->
  In m (messages d) /\ is_room_row room m.
Proof.
  rewrite load_room_messages_unlimited, order_by_asc_In, filter_In.
  now rewrite room_filter_true.
Qed.

Lemma load_room_messages_strict (room : option string) (limit : Z) (d : Store) :
  primary_keys d ->
  StronglySorted (fun x y => msg_id x < msg_id y)
    (load_room_messages room limit d).
Proof.
  intros (Hm & _). unfold load_room_messages.
  now apply sql_limit_sorted, order_by_asc_strict, NoDup_map_filter.
Qed.

(** C10.  When a room holds more rows than the limit, the result of
    [load_room_messages] has exactly [limit] rows of the room, in
    strictly ascending id order; every row of the room it leaves out has
    an id above all the rows it returns; and the row of the room with the
    largest id, the most recent one, is among those left out. *)
Theorem load_room_messages_keeps_the_oldest
    (d : Store) (room : string) (limit : Z) :
  primary_keys d ->
  0 <= limit < Z.of_nat (room_count room d) ->
  let res := load_room_messages (Some room) limit d in
  length res = Z.to_nat limit
  /\ StronglySorted (fun x y => msg_id x < msg_id y) res
  /\ (forall m, In m res -> In m (messages d) /\ is_room_row room m)
  /\ (forall m, In m (messages d) -> is_room_row room m -> ~ In m res ->
                forall r, In r res -> msg_id r < msg_id m)
  /\ exists newest,
       In newest (messages d) /\ is_room_row room newest
       /\ (forall m, In m (messages d) -> is_room_row room m ->
                     msg_id m <= msg_id newest)
       /\ ~ In newest res.
Proof.
  intros Hpk Hlimit res.
  set (all := load_room_messages (Some room) (-1) d).
  assert (Hres : res = sql_limit limit all) by reflexivity.
  assert (Hall : StronglySorted (fun x y => msg_id x < msg_id y) all)
    by now apply load_room_messages_strict.
  assert (Hlen : length all = room_count room d)
    by (symmetry; apply room_count_eq).
  assert (Hreslen : length res = Z.to_nat limit).
  { rewrite Hres, sql_limit_length by lia. lia. }
  split; [exact Hreslen|].
  split; [now apply load_room_messages_strict|].
  split; [intros m; apply load_room_messages_In|].
  split.
  { intros m Hm Hrow Hnot r Hr.
    assert (Hin : In m all) by (apply load_room_messages_all_In; auto).
    destruct (sql_limit_cut (fun x y => msg_id x < msg_id y) limit m all Hall Hin)
      as [Hkept|(_ & _ & Hcut)].
    - contradiction.
    - now apply Hcut. }
  assert (Hsplit : all = res ++ skipn (Z.to_nat limit) all).
  { rewrite Hres. unfold sql_limit. destruct (Z.ltb_spec limit 0); [lia|].
    symmetry. apply firstn_skipn. }
  destruct (exists_last (l := skipn (Z.to_nat limit) all)) as (rest & newest & Hrest).
  { intros E. apply (f_equal (@length Message)) in E.
    rewrite length_skipn in E. simpl in E. lia. }
  rewrite Hrest, app_assoc in Hsplit.
  assert (Hmax : forall x, In x (res ++ rest) -> msg_id x < msg_id newest).
  { rewrite Hsplit in Hall. apply StronglySorted_app_inv in Hall.
    destruct Hall as (_ & _ & Hall). intros x Hx. apply Hall; [exact Hx|].
    now left. }
  assert (Hnew : In newest all).
  { rewrite Hsplit. apply in_or_app. right. now left. }
  exists newest. apply load_room_messages_all_In in Hnew.
  destruct Hnew as [Hnew1 Hnew2].
  split; [exact Hnew1|]. split; [exact Hnew2|]. split.
  - intros m Hm Hrow.
    assert (Hin : In m all) by (apply load_room_messages_all_In; auto).
    rewrite Hsplit in Hin. apply in_app_or in Hin.
    destruct Hin as [Hin|[<-|[]]]; [|lia].
    apply Hmax in Hin. lia.
  - intros Hin. assert (msg_id newest < msg_id newest); [|lia].
    apply Hmax, in_or_app. now left.
Qed.

Lemma load_room_messages_cap_witness :
  map msg_message (load_room_messages (Some "Lobby") 2 (db lobby_state))
  = [Some "hello"; Some "alice joined Lobby"]
  /\ room_count "Lobby" (db lobby_state) = 3%nat.
Proof.
  destruct (load_room_messages_keeps_the_oldest (db lobby_state) "Lobby" 2
              primary_keys_lobby_state) as (Hlen & _).
  - vm_compute. split; [discriminate|reflexivity].
  - split; reflexivity.
Defined.

End RoomHistory.

(* ================================================================== *)
(** * Search *)

Section Search.

Lemma same_char_lower (c d : Z) :
  same_char c d = (lower_char c =? lower_char d).
Proof.
  unfold same_char, lower_char.
  destruct (Z.leb_spec 65 c), (Z.leb_spec c 90), (Z.leb_spec 65 d),
    (Z.leb_spec d 90), (Z.ltb_spec c 128), (Z.ltb_spec d 128),
    (Z.eqb_spec c d); cbn [andb orb];
    try lia;
    match goal with
    | |- true = (?x =? ?y) => symmetry; apply Z.eqb_eq; lia
    | |- false = (?x =? ?y) => symmetry; apply Z.eqb_neq; lia
    | |- (?x =? ?y) = (?x =? ?y) => reflexivity
    | |- (?x =? ?y) = (?u =? ?v) =>
        destruct (Z.eqb_spec x y), (Z.eqb_spec u v); (reflexivity || lia)
    end.
Qed.

Lemma prefix_chars_spec (q s : list Z) :
  prefix_chars q s = true <->
  exists post, map lower_char s = map lower_char q ++ post.
Proof.
  revert s. induction q as [|c q IH]; intros s; cbn [prefix_chars map app].
  - split; [intros _; now exists (map lower_char s)|reflexivity].
  - destruct s as [|d s]; cbn [map].
    + split; [discriminate|intros [post H]; discriminate H].
    + rewrite andb_true_iff, same_char_lower, Z.eqb_eq, IH. split.
      * intros [Hc [post Hp]]. exists post. now rewrite Hc, Hp.
      * intros [post H]. injection H as Hc H. split; [now symmetry|].
        now exists post.
Qed.

(** [contains_chars] is the search for a run of characters, case folded. *)
Lemma contains_chars_spec (q s : list Z) :
  contains_chars q s = true <-> occurs_in q s.
Proof.
  unfold occurs_in. induction s as [|d s IH].
  - cbn [contains_chars]. rewrite orb_false_r, prefix_chars_spec. split.
    + intros [post H]. now exists [], post.
    + intros (pre & post & H). destruct pre; [now exists post|discriminate H].
  - cbn [contains_chars]. rewrite orb_true_iff, prefix_chars_spec, IH. split.
    + intros [[post H]|(pre & post & H)].
      * now exists [], post.
      * exists (lower_char d :: pre), post. cbn [map app]. now rewrite H.
    + intros (pre & post & H). destruct pre as [|c pre].
      * left. now exists post.
      * right. cbn [map app] in H. injection H as _ H. now exists pre, post.
Qed.

Lemma like_chars_percent (s : list Z) : like_chars [37] s = true.
Proof. induction s as [|c s IH]; [reflexivity|]. cbn in *. exact IH. Qed.

Lemma like_chars_prefix (q s : list Z) :
  Forall (fun c => c <> 37 /\ c <> 95) q ->
  like_chars (q ++ [37]) s = prefix_chars q s.
Proof.
  revert s. induction q as [|c q IH]; intros s Hq.
  - cbn [app]. rewrite like_chars_percent. reflexivity.
  - inversion Hq as [|? ? [Hc1 Hc2] Hq']; subst.
    cbn [app like_chars].
    apply Z.eqb_neq in Hc1, Hc2. rewrite Hc1, Hc2.
    destruct s as [|d s]; [reflexivity|].
    cbn [prefix_chars]. now rewrite IH.
Qed.

Lemma like_chars_star (p s : list Z) :
  like_chars (37 :: p) s
  = like_chars p s
    || match s with
       | [] => false
       | _ :: s' => like_chars (37 :: p) s'
       end.
Proof. destruct s; reflexivity. Qed.

Lemma like_chars_contains (q s : list Z) :
  Forall (fun c => c <> 37 /\ c <> 95) q ->
  like_chars (37 :: q ++ [37]) s = contains_chars q s.
Proof.
  intros Hq. induction s as [|d s IH].
  - rewrite like_chars_star, like_chars_prefix by exact Hq. reflexivity.
  - rewrite like_chars_star, like_chars_prefix by exact Hq.
    cbn [contains_chars]. now rewrite IH.
Qed.

Lemma utf8_fix_ge (v : Z) : 128 <= utf8_fix v.
Proof.
  unfold utf8_fix. destruct (Z.ltb_spec v 128); cbn [orb]; [lia|].
  destruct (_ || _); lia.
Qed.

Lemma plain_query_cons (c : ascii) (q : string) :
  forallb plain_char (list_ascii_of_string (String c q)) = true ->
  (char_val c <> 0 /\ char_val c <> 37 /\ char_val c <> 95)
  /\ forallb plain_char (list_ascii_of_string q) = true.
Proof.
  cbn [list_ascii_of_string forallb]. unfold plain_char at 1.
  rewrite !andb_true_iff, !negb_true_iff, !Z.eqb_neq. tauto.
Qed.

Lemma c_string_plain (q tail : string) :
  forallb plain_char (list_ascii_of_string q) = true ->
  c_string (String.append q tail) = String.append q (c_string tail).
Proof.
  induction q as [|c q IH]; intros Hq; [reflexivity|].
  apply plain_query_cons in Hq. destruct Hq as [(Hc & _) Hq].
  change (String.append (String c q) tail)
    with (String c (String.append q tail)).
  change (String.append (String c q) (c_string tail))
    with (String c (String.append q (c_string tail))).
  cbn [c_string]. apply Z.eqb_neq in Hc. rewrite Hc. now rewrite IH.
Qed.

Lemma utf8_chars_from_percent (pending : option Z) (q : string) :
  utf8_chars_from pending (String.append q "%")
  = utf8_chars_from pending q ++ [37].
Proof.
  revert pending. induction q as [|c q IH]; intros pending.
  - destruct pending; reflexivity.
  - change (String.append (String c q) "%")
      with (String c (String.append q "%")).
    cbn [utf8_chars_from].
    destruct pending as [v|].
    + destruct (utf8_continues (char_val c)); [apply IH|].
      destruct (char_val c <? 192); cbn [app]; now rewrite IH.
    + destruct (char_val c <? 192); cbn [app]; now rewrite IH.
Qed.

Lemma utf8_chars_from_plain (pending : option Z) (q : string) :
  forallb plain_char (list_ascii_of_string q) = true ->
  Forall (fun c => c <> 37 /\ c <> 95) (utf8_chars_from pending q).
Proof.
  revert pending. induction q as [|c q IH]; intros pending Hq.
  - destruct pending as [v|]; cbn [utf8_chars_from]; [|constructor].
    constructor; [|constructor]. pose proof (utf8_fix_ge v). lia.
  - apply plain_query_cons in Hq. destruct Hq as [(_ & Hc1 & Hc2) Hq].
    cbn [utf8_chars_from].
    destruct pending as [v|].
    + destruct (utf8_continues (char_val c)); [now apply IH|].
      pose proof (utf8_fix_ge v).
      destruct (char_val c <? 192).
      * constructor; [lia|]. constructor; [tauto|]. now apply IH.
      * constructor; [lia|]. now apply IH.
    + destruct (char_val c <? 192).
      * constructor; [tauto|]. now apply IH.
      * now apply IH.
Qed.

Lemma append_empty (q : string) : String.append q "" = q.
Proof.
  induction q as [|c q IH]; [reflexivity|].
  change (String.append (String c q) "") with (String c (String.append q "")).
  now rewrite IH.
Qed.

Lemma append_length (a b : string) :
  String.length (String.append a b) = (String.length a + String.length b)%nat.
Proof.
  induction a as [|c a IH]; [reflexivity|].
  change (String.append (String c a) b) with (String c (String.append a b)).
  cbn [String.length]. now rewrite IH.
Qed.

(** The pattern of a plain query is [%], the characters of the query,
    [%]. *)
Lemma sql_chars_pattern (q : string) :
  forallb plain_char (list_ascii_of_string q) = true ->
  sql_chars (String.append "%" (String.append q "%"))
  = 37 :: sql_chars q ++ [37]
  /\ Forall (fun c => c <> 37 /\ c <> 95) (sql_chars q).
Proof.
  intros Hq. unfold sql_chars.
  pose proof (c_string_plain q "%" Hq) as H1.
  pose proof (c_string_plain q "" Hq) as H2.
  change (c_string "%") with "%" in H1.
  change (c_string "") with "" in H2.
  rewrite append_empty in H2.
  change (String.append "%" (String.append q "%"))
    with (String "%" (String.append q "%")).
  change (c_string (String "%" (String.append q "%")))
    with (String "%" (c_string (String.append q "%"))).
  rewrite H1, H2. split.
  - change (utf8_chars (String "%" (String.append q "%")))
      with (37 :: utf8_chars_from None (String.append q "%")).
    now rewrite utf8_chars_from_percent.
  - now apply utf8_chars_from_plain.
Qed.

Lemma like_contains (q s : string) :
  forallb plain_char (list_ascii_of_string q) = true ->
  like (String.append "%" (String.append q "%")) s
  = contains_chars (sql_chars q) (sql_chars s).
Proof.
  intros Hq. unfold like.
  destruct (sql_chars_pattern q Hq) as [-> Hplain].
  now apply like_chars_contains.
Qed.

Lemma plain_query_accepted (q : string) :
  plain_query q = true ->
  forallb plain_char (list_ascii_of_string q) = true
  /\ like_refused (String.append "%" (String.append q "%")) = false.
Proof.
  unfold plain_query, like_refused. rewrite andb_true_iff.
  intros [Hq Hlen]. split; [exact Hq|].
  apply Z.leb_le in Hlen. apply Z.ltb_ge.
  change (String.append "%" (String.append q "%"))
    with (String "%" (String.append q "%")).
  cbn [String.length]. rewrite append_length. cbn [String.length]. lia.
Qed.

Lemma search_where_true (room q : string) (m : Message) :
  forallb plain_char (list_ascii_of_string q) = true ->
  sql_where
    (sql_and (text_eq (msg_room m) (Some room))
       (sql_like (msg_message m)
          (String.append "%" (String.append (py_str (Some q)) "%")))) = true
  <-> msg_room m = Some room
      /\ exists body, msg_message m = Some body
                      /\ occurs_in (sql_chars q) (sql_chars body).
Proof.
  intros Hq. cbn [py_str].
  destruct (msg_room m) as [r|], (msg_message m) as [body|];
    cbn [text_eq sql_eq sql_like sql_and sql_where].
  - rewrite like_contains by exact Hq.
    pose proof (contains_chars_spec (sql_chars q) (sql_chars body)) as Hs.
    destruct (String.eqb_spec r room) as [->|Hne],
      (contains_chars (sql_chars q) (sql_chars body)) eqn:E;
      split; try discriminate.
    + intros _. split; [reflexivity|]. exists body. split; [reflexivity|].
      now apply Hs.
    + reflexivity.
    + intros [_ (b & Hb & Hc)]. injection Hb as <-. apply Hs in Hc.
      discriminate Hc.
    + intros [Hr _]. congruence.
    + intros [Hr _]. congruence.
  - destruct (String.eqb r room); split; try discriminate;
      intros [_ (b & Hb & _)]; discriminate Hb.
  - destruct (like _ body);
      (split; [discriminate|intros [Hr _]; discriminate Hr]).
  - split; [discriminate|intros [Hr _]; discriminate Hr].
Qed.

(** C9, the claim as stated fails, in five ways.  [_] is a wildcard of
    [LIKE]: the search for "_" in the Lobby returns the message "hello",
    which does not contain "_".  [LIKE] folds the case of the letters
    below 128 only: the search for "é" does not return the message "É",
    which is the same text when the case is ignored.  [LIKE] reads a text
    up to its first NUL: the search for "z" does not return the message
    "a", NUL, "z", and the search for "o", NUL, "z" returns "hello".  And
    a query of 49,999 bytes makes a pattern that SQLite refuses as soon
    as the room has a row. *)
Lemma search_underscore_matches_any_character :
  (In hello_row (search_room (Some "Lobby") (Some "_") (db lobby_state))
   /\ msg_message hello_row = Some "hello"
   /\ substring_ci "_" "hello" = false)
  /\ (Exists (fun m => msg_room m = Some "Lobby"
                       /\ msg_message m = Some upper_e_acute)
        (messages (lobby_with upper_e_acute))
      /\ substring_ci lower_e_acute upper_e_acute = true
      /\ search_room (Some "Lobby") (Some lower_e_acute)
           (lobby_with upper_e_acute) = [])
  /\ (Exists (fun m => msg_room m = Some "Lobby"
                       /\ msg_message m = Some a_nul_z)
        (messages (lobby_with a_nul_z))
      /\ substring_ci "z" a_nul_z = true
      /\ search_room (Some "Lobby") (Some "z") (lobby_with a_nul_z) = [])
  /\ (In hello_row (search_room (Some "Lobby") (Some o_nul_z) (db lobby_state))
      /\ substring_ci o_nul_z "hello" = false)
  /\ search_refused (Some "Lobby") (Some long_query) (db lobby_state) = true.
Proof.
  split; [split; [vm_compute; tauto|split; reflexivity]|].
  split.
  { split; [|split; vm_compute; reflexivity].
    apply Exists_cons_tl, Exists_cons_tl, Exists_cons_tl, Exists_cons_hd.
    split; reflexivity. }
  split.
  { split; [|split; vm_compute; reflexivity].
    apply Exists_cons_tl, Exists_cons_tl, Exists_cons_tl, Exists_cons_hd.
    split; reflexivity. }
  split; [split; [vm_compute; tauto|vm_compute; reflexivity]|].
  vm_compute. reflexivity.
Qed.

(** C9, amended.  For a query that has no [%], no [_] and no NUL and is at
    most 49,998 bytes long, the [SELECT] of [search_room] is accepted and
    it returns rows of the room only, hence no direct message, each with
    a body in which the query occurs, where both are read as [LIKE] reads
    them (in UTF-8 characters, the body up to its first NUL) and the case
    of the characters below 128 is folded; the result is in strictly
    descending id order and has at most 200 rows; and a row of the room
    in whose body the query occurs is left out only when 200 rows with
    larger ids are returned. *)
Theorem search_room_without_wildcards (d : Store) (room q : string) :
  primary_keys d ->
  plain_query q = true ->
  let res := search_room (Some room) (Some q) d in
  search_refused (Some room) (Some q) d = false
  /\ (forall m, In m res ->
        In m (messages d) /\ msg_room m = Some room
        /\ exists body, msg_message m = Some body
                        /\ occurs_in (sql_chars q) (sql_chars body))
  /\ StronglySorted (fun x y => msg_id y < msg_id x) res
  /\ (length res <= 200)%nat
  /\ forall m body,
       In m (messages d) -> msg_room m = Some room ->
       msg_message m = Some body ->
       occurs_in (sql_chars q) (sql_chars body) ->
       In m res
       \/ (length res = 200%nat /\ forall r, In r res -> msg_id m < msg_id r).
Proof.
  intros (Hm & _) Hq res. unfold search_room in res.
  apply plain_query_accepted in Hq. destruct Hq as [Hq Hacc].
  split.
  { unfold search_refused. cbn [py_str]. now rewrite Hacc. }
  split.
  { intros m Hin. subst res.
    apply sql_limit_In, order_by_desc_In, filter_In in Hin.
    destruct Hin as [Hin Hw]. apply search_where_true in Hw; [|exact Hq].
    tauto. }
  split.
  { subst res. now apply sql_limit_sorted, order_by_desc_strict, NoDup_map_filter. }
  split.
  { subst res. rewrite sql_limit_length by lia. lia. }
  intros m body Hin Hroom Hbody Hc.
  match goal with
  | res := sql_limit 200 ?l |- _ =>
      destruct (sql_limit_cut (fun x y => msg_id y < msg_id x) 200 m l)
        as [Hkept|(_ & Hlen & Hcut)]
  end.
  - now apply order_by_desc_strict, NoDup_map_filter.
  - apply order_by_desc_In, filter_In. split; [exact Hin|].
    apply search_where_true; [exact Hq|]. split; [exact Hroom|]. now exists body.
  - now left.
  - right. split; [exact Hlen|exact Hcut].
Qed.

Lemma search_room_witness :
  map msg_message (search_room (Some "Lobby") (Some "JOINED") (db lobby_state))
  = [Some "bob joined Lobby"; Some "alice joined Lobby"].
Proof.
  destruct (search_room_without_wildcards (db lobby_state) "Lobby" "JOINED"
              primary_keys_lobby_state eq_refl) as (_ & _ & _ & _ & _).
  reflexivity.
Defined.

End Search.

(* ================================================================== *)
(** * File names of uploads *)

Section Uploads.

Lemma split_last_dot_None (s : string) :
  split_last_dot s = None <-> has_dot s = false.
Proof.
  induction s as [|c s IH]; simpl; [tauto|].
  destruct (split_last_dot s) as [[stem ext]|].
  - split; [discriminate|]. intros H. apply orb_false_iff in H.
    destruct H as [_ H]. apply IH in H. discriminate H.
  - destruct (Ascii.eqb c "."); simpl; [split; discriminate|].
    split; intros _; [now apply IH|reflexivity].
Qed.

Lemma split_last_dot_Some (s stem ext : string) :
  split_last_dot s = Some (stem, ext) <->
  s = String.append stem (String "." ext) /\ has_dot ext = false.
Proof.
  split.
  - revert stem. induction s as [|c s IH]; intros stem; simpl; [discriminate|].
    destruct (split_last_dot s) as [[stem' ext']|] eqn:E.
    + intros H. injection H as <- <-.
      destruct (IH stem' eq_refl) as [-> Hext]. now split.
    + destruct (Ascii.eqb_spec c "."); [|discriminate].
      intros H. injection H as <- <-. subst c.
      split; [reflexivity|]. now apply split_last_dot_None.
  - intros [-> Hext]. induction stem as [|c stem IH]; simpl.
    + apply split_last_dot_None in Hext. now rewrite Hext.
    + now rewrite IH.
Qed.

(** X1.  [allowed_file] accepts a name exactly when it has a ['.'] and the
    text after its last ['.'], with upper-case ASCII letters lowered, is
    one of png, jpg, jpeg, gif and webp. *)
Theorem allowed_file_iff (filename : string) :
  allowed_file filename = true <->
  exists stem ext,
    filename = String.append stem (String "." ext)
    /\ has_dot ext = false
    /\ In (fold_case ext) ALLOWED_EXT.
Proof.
  unfold allowed_file, rsplit_dot.
  destruct (split_last_dot filename) as [[stem ext]|] eqn:E.
  - apply split_last_dot_Some in E. destruct E as [-> Hext].
    assert (Hdot : has_dot (String.append stem (String "." ext)) = true).
    { clear. induction stem as [|c stem IH]; simpl; [reflexivity|].
      rewrite IH. apply orb_true_r. }
    rewrite Hdot. cbn [andb nth_error].
    split.
    + intros H. apply existsb_exists in H. destruct H as (x & Hx & Heq).
      apply String.eqb_eq in Heq. subst x. now exists stem, ext.
    + intros (stem' & ext' & Heq & Hext' & Hin).
      assert (Hsame : Some (stem, ext) = Some (stem', ext')).
      { rewrite <- (proj2 (split_last_dot_Some _ stem ext) (conj eq_refl Hext)).
        rewrite Heq. now apply split_last_dot_Some. }
      injection Hsame as -> ->.
      apply existsb_exists. exists (fold_case ext'). split; [exact Hin|].
      apply String.eqb_refl.
  - apply split_last_dot_None in E. rewrite E. cbn [andb].
    split; [discriminate|].
    intros (stem & ext & -> & _ & _). exfalso.
    assert (Hdot : has_dot (String.append stem (String "." ext)) = true).
    { clear. induction stem as [|c stem IH]; simpl; [reflexivity|].
      rewrite IH. apply orb_true_r. }
    congruence.
Qed.

End Uploads.

(* ================================================================== *)
(** * Avatars *)

Section Avatars.

Lemma filter_map_commute {A} (p : A -> bool) (f : A -> A) (l : list A) :
  (forall x, p (f x) = p x) ->
  List.filter p (map f l) = map f (List.filter p l).
Proof.
  intros H. induction l as [|x l IH]; simpl; [reflexivity|].
  rewrite H. destruct (p x); simpl; now rewrite IH.
Qed.

Lemma fetchone_map {A} (f : A -> A) (l : list A) :
  fetchone (map f l) = option_map f (fetchone l).
Proof. now destruct l. Qed.

Lemma username_eq_true (u : User) (name : string) :
  sql_where (text_eq (Some (usr_username u)) (Some name)) = true
  <-> usr_username u = name.
Proof.
  simpl. destruct (String.eqb_spec (usr_username u) name); split; congruence.
Qed.

Lemma get_user_set_avatar (name who : string) (url : option string) (d : Store) :
  get_user (Some who) (set_avatar (Some name) url d)
  = option_map
      (fun u =>
         if sql_where (text_eq (Some (usr_username u)) (Some name))
         then {| usr_username := usr_username u; usr_avatar := url |}
         else u)
      (get_user (Some who) d).
Proof.
  unfold get_user, set_avatar. cbn [users set_users].
  rewrite filter_map_commute, fetchone_map; [reflexivity|].
  intros u. now destruct (sql_where (text_eq (Some (usr_username u)) (Some name))).
Qed.

(** X2.  After [set_avatar] for a user, the avatar looked up for that
    user is the new one when the user is registered and still [None]
    when not (the update matches no row); the avatar of every other user,
    the user names and all messages, reactions and pins are as before. *)
Theorem set_avatar_lookup (name : string) (url : option string) (d : Store) :
  avatar_of (Some name) (set_avatar (Some name) url d)
  = match get_user (Some name) d with
    | Some _ => url
    | None => None
    end
  /\ (forall other, other <> name ->
        avatar_of (Some other) (set_avatar (Some name) url d)
        = avatar_of (Some other) d)
  /\ map usr_username (users (set_avatar (Some name) url d))
     = map usr_username (users d)
  /\ messages (set_avatar (Some name) url d) = messages d
  /\ reactions (set_avatar (Some name) url d) = reactions d
  /\ pins (set_avatar (Some name) url d) = pins d.
Proof.
  split; [|split; [|split; [|repeat split]]].
  - unfold avatar_of. rewrite get_user_set_avatar.
    destruct (get_user (Some name) d) as [u|] eqn:E; [|reflexivity].
    unfold get_user in E. apply fetchone_filter_Some in E.
    destruct E as [_ E]. cbn [option_map]. now rewrite E.
  - intros other Hne. unfold avatar_of. rewrite get_user_set_avatar.
    destruct (get_user (Some other) d) as [u|] eqn:E; [|reflexivity].
    unfold get_user in E. apply fetchone_filter_Some in E.
    destruct E as [_ E]. apply username_eq_true in E. cbn [option_map].
    destruct (sql_where _) eqn:E'; [|reflexivity].
    apply username_eq_true in E'. congruence.
  - unfold set_avatar. cbn [users set_users]. rewrite map_map.
    apply map_ext. intros u. now destruct (sql_where _).
Qed.



End Avatars.

(* ================================================================== *)
(** * The list of rooms *)

Section Rooms.

Lemma distinct_In (x : string) (l : list string) : In x (distinct l) <-> In x l.
Proof.
  induction l as [|y l IH]; simpl; [tauto|].
  rewrite filter_In, IH, negb_true_iff, String.eqb_neq.
  destruct (String.eqb_spec y x) as [->|Hne]; [tauto|]. tauto.
Qed.

Lemma NoDup_filter_list {A} (f : A -> bool) (l : list A) :
  List.NoDup l -> List.NoDup (List.filter f l).
Proof.
  induction 1 as [|x l Hx Hnd IH]; simpl; [constructor|].
  destruct (f x); [|exact IH]. constructor; [|exact IH].
  intros Hin. apply filter_In in Hin. tauto.
Qed.

Lemma NoDup_firstn {A} (n : nat) (l : list A) :
  List.NoDup l -> List.NoDup (firstn n l).
Proof.
  intros Hnd. revert n. induction Hnd as [|x l Hx Hnd IH]; intros [|n]; simpl;
    try constructor.
  - intros Hin. apply Hx. eapply firstn_In; eauto.
  - apply IH.
Qed.

Lemma distinct_NoDup (l : list string) : List.NoDup (distinct l).
Proof.
  induction l as [|x l IH]; simpl; constructor.
  - intros Hin. apply filter_In in Hin. destruct Hin as [_ Hin].
    now rewrite String.eqb_refl in Hin.
  - now apply NoDup_filter_list.
Qed.

(** X4.  The room list that [on_fetch_initial] and [on_join_room] send
    always contains "Lobby", names no room twice, never contains the
    empty name, has at most 101 entries, and every entry other than
    "Lobby" is the room of a stored message. *)
Theorem room_list_wellformed (d : Store) :
  In "Lobby" (room_list d)
  /\ List.NoDup (room_list d)
  /\ ~ In "" (room_list d)
  /\ (length (room_list d) <= 101)%nat
  /\ forall r, In r (room_list d) ->
               r = "Lobby" \/ exists m, In m (messages d) /\ msg_room m = Some r.
Proof.
  unfold room_list.
  set (names := sql_limit 100 _).
  set (rooms := List.filter _ names).
  assert (Hnd : List.NoDup rooms).
  { apply NoDup_filter_list. unfold names, sql_limit. cbn [Z.ltb Z.compare].
    apply NoDup_firstn, distinct_NoDup. }
  assert (Hempty : ~ In "" rooms).
  { intros Hin. apply filter_In in Hin. destruct Hin as [_ Hin]. discriminate. }
  assert (Hlen : (length rooms <= 100)%nat).
  { etransitivity; [apply List.filter_length_le|].
    unfold names. rewrite sql_limit_length by lia.
    apply Nat.le_min_l. }
  assert (Hfrom : forall r, In r rooms ->
            exists m, In m (messages d) /\ msg_room m = Some r).
  { intros r Hin. apply filter_In in Hin. destruct Hin as [Hin _].
    apply sql_limit_In, distinct_In, in_flat_map in Hin.
    destruct Hin as (m & Hm & Hr).
    apply order_by_desc_In, filter_In in Hm. destruct Hm as [Hm _].
    exists m. split; [exact Hm|].
    destruct (msg_room m) as [r'|]; [|destruct Hr].
    destruct Hr as [->|[]]. reflexivity. }
  destruct (existsb (String.eqb "Lobby") rooms) eqn:E.
  - apply existsb_exists in E. destruct E as (x & Hx & Heq).
    apply String.eqb_eq in Heq. subst x.
    repeat split; try assumption; [lia|]. intros r Hr. right. now apply Hfrom.
  - assert (Hno : ~ In "Lobby" rooms).
    { intros Hin.
      assert (existsb (String.eqb "Lobby") rooms = true); [|congruence].
      apply existsb_exists. exists "Lobby". split; [exact Hin|reflexivity]. }
    split; [now left|]. split; [now constructor|]. split.
    { intros [H|H]; [discriminate H|contradiction]. }
    split; [simpl; lia|].
    intros r [<-|Hr]; [now left|right; now apply Hfrom].
Qed.

End Rooms.

(* ================================================================== *)
(** * The sender's edit *)

Section Edit.

Lemma edit_row_id (mid : option Z) (text : option string) (m : Message) :
  msg_id (edit_row mid text m) = msg_id m.
Proof. unfold edit_row. now destruct (sql_where _). Qed.

Lemma select_message_edited (mid mid' : option Z) (text : option string)
    (seq : Z) (d : Store) :
  select_message mid (set_messages (map (edit_row mid' text) (messages d)) seq d)
  = option_map (edit_row mid' text) (select_message mid d).
Proof.
  unfold select_message. cbn [messages set_messages].
  rewrite filter_map_commute, fetchone_map; [reflexivity|].
  intros m. now rewrite edit_row_id.
Qed.

Lemma edit_message_by_sender (d : Store) (M : Message) (text : option string) :
  primary_keys d -> In M (messages d) ->
  edit_message (Some (msg_id M)) (msg_sender M) text d
  = (set_messages (map (edit_row (Some (msg_id M)) text) (messages d))
       (messages_seq d) d,
     Some (set_body text M)).
Proof.
  intros Hpk Hin. unfold edit_message.
  rewrite (select_message_stored _ _ Hpk Hin).
  rewrite (proj2 (py_eq_true _ _) eq_refl). cbn [negb].
  fold (edit_row (Some (msg_id M)) text).
  rewrite select_message_edited, (select_message_stored _ _ Hpk Hin).
  cbn [option_map]. unfold edit_row.
  now rewrite (proj2 (int_eq_true (msg_id M) (Some (msg_id M))) eq_refl).
Qed.

(** X5.  The sender's edit of a stored message returns the row with the
    new body and nothing else changed; the store then holds that row in
    place of the old one, every other message, the counter, the
    reactions and the pins as before; and [on_edit_message], from a
    connection identified as the sender, broadcasts the new row to every
    connection.  A missing [message] key sets the body to null. *)
Theorem sender_edit_replaces_body
    (st : State) (M : Message) (text : option string) :
  primary_keys (db st) ->
  In M (messages (db st)) ->
  let '(d', r) := edit_message (Some (msg_id M)) (msg_sender M) text (db st) in
  r = Some (set_body text M)
  /\ select_message (Some (msg_id M)) d' = Some (set_body text M)
  /\ map msg_id (messages d') = map msg_id (messages (db st))
  /\ (forall m, In m (messages (db st)) -> msg_id m <> msg_id M ->
                In m (messages d'))
  /\ (forall m', In m' (messages d') ->
                 m' = set_body text M \/ In m' (messages (db st)))
  /\ messages_seq d' = messages_seq (db st)
  /\ reactions d' = reactions (db st)
  /\ pins d' = pins (db st)
  /\ forall sid data,
       dict_get sid (sid_to_user st) = msg_sender M ->
       get (d_id data) = Some (msg_id M) ->
       get (d_message data) = text ->
       on_edit_message data sid st
       = (with_db d' st,
          [emit "update_message" (one_row (Some (set_body text M))) None]).
Proof.
  intros Hpk Hin. rewrite (edit_message_by_sender _ _ text Hpk Hin).
  split; [reflexivity|]. split.
  { rewrite select_message_edited, (select_message_stored _ _ Hpk Hin).
    cbn [option_map]. unfold edit_row.
    now rewrite (proj2 (int_eq_true (msg_id M) (Some (msg_id M))) eq_refl). }
  cbn [messages set_messages messages_seq reactions pins].
  split.
  { rewrite map_map. apply map_ext. intros m. apply edit_row_id. }
  split.
  { intros m Hm Hne. apply in_map_iff. exists m. split; [|exact Hm].
    unfold edit_row. destruct (sql_where _) eqn:E; [|reflexivity].
    apply int_eq_true in E. congruence. }
  split.
  { intros m' Hm'. apply in_map_iff in Hm'. destruct Hm' as (m & <- & Hm).
    unfold edit_row. destruct (sql_where _) eqn:E; [|now right].
    left. apply int_eq_true in E. injection E as E.
    pose proof (select_message_stored _ _ Hpk Hm) as H1.
    rewrite <- E, (select_message_stored _ _ Hpk Hin) in H1. congruence. }
  repeat (split; [reflexivity|]).
  intros sid data Hsid Hid Htext. unfold on_edit_message.
  rewrite Hid, Hsid, Htext, (edit_message_by_sender _ _ text Hpk Hin).
  reflexivity.
Qed.

Lemma sender_edit_witness :
  on_edit_message (id_data 1 absent absent (val "hello, all")) "c1" lobby_state
  = (with_db
       (fst (edit_message (Some 1) (Some "alice") (Some "hello, all")
               (db lobby_state)))
       lobby_state,
     [emit "update_message"
        (one_row (Some (set_body (Some "hello, all") hello_row))) None]).
Proof.
  pose proof (sender_edit_replaces_body lobby_state hello_row
                (Some "hello, all") primary_keys_lobby_state) as H.
  change (msg_id hello_row) with 1 in H.
  change (msg_sender hello_row) with (Some "alice") in H.
  destruct (edit_message (Some 1) (Some "alice") (Some "hello, all")
              (db lobby_state)) as [d' r].
  destruct H as (_ & _ & _ & _ & _ & _ & _ & _ & H); [vm_compute; now left|].
  apply H; reflexivity.
Defined.

Lemma insert_by_map {A} (leb : A -> A -> bool) (f : A -> A) (x : A) (l : list A) :
  (forall a b, leb (f a) (f b) = leb a b) ->
  insert_by leb (f x) (map f l) = map f (insert_by leb x l).
Proof.
  intros H. induction l as [|y l IH]; simpl; [reflexivity|].
  rewrite H. destruct (leb x y); simpl; [reflexivity|]. now rewrite IH.
Qed.

Lemma sort_by_map {A} (leb : A -> A -> bool) (f : A -> A) (l : list A) :
  (forall a b, leb (f a) (f b) = leb a b) ->
  sort_by leb (map f l) = map f (sort_by leb l).
Proof.
  intros H. induction l as [|x l IH]; simpl; [reflexivity|].
  rewrite IH. now apply insert_by_map.
Qed.

Lemma sql_limit_map {A} (f : A -> A) (n : Z) (l : list A) :
  sql_limit n (map f l) = map f (sql_limit n l).
Proof.
  unfold sql_limit. destruct (n <? 0); [reflexivity|]. apply firstn_map.
Qed.

(** X6.  An edit leaves the histories in place: after the sender's edit
    of a stored message, [load_room_messages] and [load_dm_history]
    return, for every room, pair and limit, the rows they returned
    before, in the same order, with the edited row's body replaced. *)
Theorem sender_edit_keeps_history_order
    (d : Store) (M : Message) (text : option string) :
  primary_keys d ->
  In M (messages d) ->
  let d' := fst (edit_message (Some (msg_id M)) (msg_sender M) text d) in
  (forall room limit,
     load_room_messages room limit d'
     = map (edit_row (Some (msg_id M)) text) (load_room_messages room limit d))
  /\ (forall user other limit,
        load_dm_history user other limit d'
        = map (edit_row (Some (msg_id M)) text)
            (load_dm_history user other limit d)).
Proof.
  intros Hpk Hin. rewrite (edit_message_by_sender _ _ text Hpk Hin).
  cbn [fst].
  assert (Hkeep : forall m,
    msg_room (edit_row (Some (msg_id M)) text m) = msg_room m
    /\ msg_sender (edit_row (Some (msg_id M)) text m) = msg_sender m
    /\ msg_receiver (edit_row (Some (msg_id M)) text m) = msg_receiver m).
  { intros m. unfold edit_row. now destruct (sql_where _). }
  split.
  - intros room limit. unfold load_room_messages, order_by_asc.
    cbn [messages set_messages].
    rewrite filter_map_commute, sort_by_map, sql_limit_map; [reflexivity| |].
    + intros a b. now rewrite !edit_row_id.
    + intros m. destruct (Hkeep m) as (-> & _ & ->). reflexivity.
  - intros user other limit. unfold load_dm_history, order_by_asc.
    cbn [messages set_messages].
    rewrite filter_map_commute, sort_by_map, sql_limit_map; [reflexivity| |].
    + intros a b. now rewrite !edit_row_id.
    + intros m. destruct (Hkeep m) as (_ & -> & ->). reflexivity.
Qed.

Lemma sender_edit_keeps_history_order_witness :
  map msg_message
    (load_room_messages (Some "Lobby") 500
       (fst (edit_message (Some 1) (Some "alice") (Some "hello, all")
               (db lobby_state))))
  = [Some "hello, all"; Some "alice joined Lobby"; Some "bob joined Lobby"].
Proof.
  destruct (sender_edit_keeps_history_order (db lobby_state) hello_row
              (Some "hello, all") primary_keys_lobby_state) as [H _].
  - vm_compute. now left.
  - reflexivity.
Defined.

End Edit.

(* ================================================================== *)
(** * Pins *)

Section Pins.

Lemma filter_by_id_stored (d : Store) (M : Message) :
  primary_keys d -> In M (messages d) ->
  List.filter (fun m => sql_where (int_eq (Some (msg_id m)) (Some (msg_id M))))
    (messages d)
  = [M].
Proof.
  intros (Hnd & _) Hin. induction (messages d) as [|x l IH]; [destruct Hin|].
  simpl in Hnd. apply List.NoDup_cons_iff in Hnd. destruct Hnd as [Hx Hnd].
  cbn [List.filter].
  destruct (sql_where (int_eq (Some (msg_id x)) (Some (msg_id M)))) eqn:E.
  - apply int_eq_true in E. injection E as E.
    destruct Hin as [->|Hin].
    + f_equal. apply filter_nil_iff. intros y Hy.
      destruct (sql_where _) eqn:E'; [|reflexivity].
      apply int_eq_true in E'. injection E' as E'.
      exfalso. apply Hx. rewrite E'. now apply in_map.
    + exfalso. apply Hx. rewrite <- E. now apply in_map.
  - destruct Hin as [->|Hin]; [|now apply IH].
    rewrite (proj2 (int_eq_true (msg_id M) (Some (msg_id M))) eq_refl) in E.
    discriminate E.
Qed.

Lemma order_by_desc_snoc {A} (key : A -> Z) (x : A) (l : list A) :
  (forall y, In y l -> key y < key x) ->
  order_by_desc key (l ++ [x]) = x :: order_by_desc key l.
Proof.
  intros H. unfold order_by_desc, sort_by. rewrite foldr_app. cbn [foldr insert_by].
  induction l as [|y l IH]; [reflexivity|].
  cbn [foldr]. rewrite IH by (intros z Hz; apply H; now right).
  cbn [insert_by].
  assert (Hy : key y < key x) by (apply H; now left).
  destruct (Z.leb_spec (key x) (key y)); [lia|reflexivity].
Qed.

(** X7.  A pin of a stored message, whatever its own room or receiver,
    returns the message; [get_pinned] of the room of the pin then lists
    it first, followed by what it listed before, cut at 50 rows; the
    pinned lists of the other rooms, the messages and the reactions are
    as before; and [on_pin_message] broadcasts the message and then that
    new list to every connection. *)
Theorem pin_lists_message_first (st : State) (M : Message) (R : string) :
  primary_keys (db st) ->
  In M (messages (db st)) ->
  let '(d', r) := pin_message (Some (msg_id M)) (Some R) (db st) in
  r = Some M
  /\ messages d' = messages (db st)
  /\ reactions d' = reactions (db st)
  /\ (exists older,
        get_pinned (Some R) d' = firstn 50 (M :: older)
        /\ get_pinned (Some R) (db st) = firstn 50 older)
  /\ (forall room, room <> Some R ->
        get_pinned room d' = get_pinned room (db st))
  /\ forall sid data,
       get (d_id data) = Some (msg_id M) ->
       get_or (d_room data) "Lobby" = Some R ->
       on_pin_message data sid st
       = (with_db d' st,
          [emit "pinned_message" (one_row (Some M)) None;
           emit "pinned_list" (rows (get_pinned (Some R) d')) None]).
Proof.
  intros Hpk Hin.
  destruct (pin_message (Some (msg_id M)) (Some R) (db st)) as [d' r] eqn:E.
  unfold pin_message in E. injection E as Hd' Hr.
  set (pid := next_rowid (pins_seq (db st)) (map pin_id (pins (db st)))) in *.
  set (p := {| pin_id := pid; pin_message_id := Some (msg_id M);
               pin_room := Some R |}) in *.
  assert (Hmsgs : messages d' = messages (db st)) by now subst d'.
  assert (Hr' : r = Some M).
  { subst r. unfold select_message. cbn [messages set_pins].
    rewrite (filter_by_id_stored _ _ Hpk Hin). reflexivity. }
  assert (Hpins : pins d' = pins (db st) ++ [p]) by now subst d'.
  assert (Hlt : forall y, In y (pins (db st)) -> pin_id y < pin_id p).
  { intros y Hy. apply next_rowid_gt_ids. now apply in_map. }
  split; [exact Hr'|]. split; [exact Hmsgs|]. split; [now subst d'|].
  split; [|split].
  - eexists. split; [|reflexivity].
    unfold get_pinned at 1. rewrite Hpins, Hmsgs, List.filter_app.
    cbn [List.filter pin_room p]. cbn [text_eq sql_eq sql_where].
    rewrite String.eqb_refl, order_by_desc_snoc.
    + cbn [flat_map pin_message_id p].
      rewrite (filter_by_id_stored _ _ Hpk Hin). reflexivity.
    + intros y Hy. apply filter_In in Hy. destruct Hy as [Hy _].
      now apply Hlt.
  - intros room Hroom. unfold get_pinned.
    rewrite Hpins, Hmsgs, List.filter_app.
    replace (List.filter _ [p]) with (@nil Pin); [now rewrite app_nil_r|].
    cbn [List.filter pin_room p].
    destruct room as [r0|]; [|reflexivity]. cbn [text_eq sql_eq sql_where].
    destruct (String.eqb_spec R r0); [congruence|reflexivity].
  - intros sid data Hid Hroom. unfold on_pin_message.
    rewrite Hid, Hroom. unfold pin_message. fold pid. fold p.
    rewrite Hr, Hd', Hr'. reflexivity.
Qed.

Lemma pin_lists_message_first_witness :
  map msg_id (get_pinned (Some "Lobby")
                (fst (pin_message (Some 3) (Some "Lobby") pinned_store)))
  = [3; 1]
  /\ get_pinned (Some "Games")
       (fst (pin_message (Some 3) (Some "Lobby") pinned_store)) = [].
Proof.
  pose proof (pin_lists_message_first (with_db pinned_store initial_state)
                {| msg_id := 3; msg_room := Some "Lobby";
                   msg_sender := Some "System"; msg_receiver := None;
                   msg_message := Some "bob joined Lobby"; msg_image := None;
                   msg_reply_to := None; msg_timestamp := 102 |}
                "Lobby" primary_keys_pinned_store) as H.
  cbn [msg_id db with_db] in H.
  destruct (pin_message (Some 3) (Some "Lobby") pinned_store) as [d' r] eqn:E.
  destruct H as (_ & _ & _ & _ & Hother & _).
  - vm_compute. tauto.
  - replace d' with (fst (pin_message (Some 3) (Some "Lobby") pinned_store))
      by now rewrite E.
    split; reflexivity.
Defined.

End Pins.

(* ================================================================== *)
(** * Reaction counts *)

Section ReactionCounts.

Lemma filter_andb {A} (a b : A -> bool) (l : list A) :
  List.filter (fun x => a x && b x) l = List.filter b (List.filter a l).
Proof.
  induction l as [|x l IH]; simpl; [reflexivity|].
  destruct (a x); simpl; [|exact IH]. destruct (b x); now rewrite IH.
Qed.

Lemma summary_lookup (mid e : _) (d : Store) :
  reactions_summary mid d !! e
  = match reaction_count mid e d with
    | O => None
    | S n => Some (S n)
    end.
Proof.
  unfold reactions_summary, reaction_count. rewrite filter_andb.
  induction (List.filter _ (reactions d)) as [|r l IH]; [reflexivity|].
  cbn [foldr List.filter]. destruct (decide (rc_emoji r = e)) as [Heq|Hne].
  - rewrite bool_decide_eq_true_2 by exact Heq. subst e.
    rewrite lookup_insert_eq, IH. cbn [length].
    now destruct (length _).
  - rewrite bool_decide_eq_false_2 by exact Hne.
    rewrite lookup_insert_ne by exact Hne. exact IH.
Qed.

(** X8.  [reactions_summary] maps an emoji to the number of reaction rows
    the message has with it: an emoji with no row is not a key, so no
    count is zero. *)
Theorem reactions_summary_counts_rows (mid : option Z) (d : Store) :
  forall e,
    (reaction_count mid e d = 0%nat -> reactions_summary mid d !! e = None)
    /\ (reaction_count mid e d <> 0%nat ->
        reactions_summary mid d !! e = Some (reaction_count mid e d))
    /\ (forall n, reactions_summary mid d !! e = Some n ->
                  n = reaction_count mid e d /\ (0 < n)%nat).
Proof.
  intros e. rewrite summary_lookup.
  destruct (reaction_count mid e d) as [|n].
  - split; [reflexivity|]. split; [congruence|]. intros k Hk. discriminate Hk.
  - split; [discriminate|]. split; [reflexivity|].
    intros k Hk. injection Hk as <-. split; [reflexivity|lia].
Qed.

(** Deleting the row with one id from a table with distinct ids. *)
Lemma filter_delete_by_id (q : Reaction -> bool) (r0 : Reaction)
    (l : list Reaction) :
  List.NoDup (map rc_id l) -> In r0 l ->
  length (List.filter q (List.filter (fun r => negb (rc_id r =? rc_id r0)) l))
  = (length (List.filter q l) - (if q r0 then 1 else 0))%nat.
Proof.
  induction l as [|x l IH]; intros Hnd Hin; [destruct Hin|].
  simpl in Hnd. apply List.NoDup_cons_iff in Hnd. destruct Hnd as [Hx Hnd].
  cbn [List.filter]. destruct (Z.eqb_spec (rc_id x) (rc_id r0)) as [Heq|Hne].
  - assert (x = r0).
    { destruct Hin as [H|H]; [exact H|]. exfalso. apply Hx.
      rewrite Heq. now apply in_map. }
    subst x. cbn [negb].
    replace (List.filter (fun r => negb (rc_id r =? rc_id r0)) l) with l.
    + destruct (q r0); simpl; lia.
    + symmetry. apply filter_all. intros y Hy.
      apply negb_true_iff, Z.eqb_neq. intros E. apply Hx. rewrite <- E.
      now apply in_map.
  - destruct Hin as [->|Hin]; [congruence|]. cbn [negb List.filter].
    specialize (IH Hnd Hin).
    destruct (q x); simpl; [|exact IH]. rewrite IH.
    destruct (q r0) eqn:E; [|lia].
    assert (In r0 (List.filter q l)) by (apply filter_In; auto).
    destruct (List.filter q l); [contradiction|simpl; lia].
Qed.

(** X9.  When the reaction of a user is stored, [toggle_reaction] returns
    [False] and deletes one row: the count of that emoji on that message
    goes down by one, every other count and the messages stay as they
    are. *)
Theorem toggle_reaction_removes_stored
    (d : Store) (m : Z) (u e : string) (i : Z) :
  primary_keys d ->
  In {| rc_id := i; rc_message_id := Some m; rc_username := Some u;
        rc_emoji := Some e |} (reactions d) ->
  let '(d', present) := toggle_reaction (Some m) (Some u) (Some e) d in
  present = false
  /\ S (length (reactions d')) = length (reactions d)
  /\ S (reaction_count (Some m) (Some e) d') = reaction_count (Some m) (Some e) d
  /\ (forall mid' e', mid' <> Some m \/ e' <> Some e ->
        reaction_count mid' e' d' = reaction_count mid' e' d)
  /\ messages d' = messages d.
Proof.
  intros (_ & Hnd & _) Hin. unfold toggle_reaction.
  fold (reaction_matches m u e).
  destruct (fetchone (List.filter (reaction_matches m u e) (reactions d)))
    as [r0|] eqn:E.
  - apply fetchone_filter_Some in E. destruct E as [Hr0 Hmatch].
    apply reaction_matches_true in Hmatch. destruct Hmatch as (Hm & _ & He).
    cbn [reactions set_reactions messages].
    assert (Hall : forall q,
      length (List.filter q
                (List.filter (fun r => negb (rc_id r =? rc_id r0)) (reactions d)))
      = (length (List.filter q (reactions d)) - (if q r0 then 1 else 0))%nat)
      by (intros q; now apply filter_delete_by_id).
    assert (Hpos : forall q, q r0 = true ->
      (0 < length (List.filter q (reactions d)))%nat).
    { intros q Hq. assert (In r0 (List.filter q (reactions d)))
        by (apply filter_In; auto).
      destruct (List.filter q (reactions d)); [contradiction|simpl; lia]. }
    split; [reflexivity|]. split; [|split; [|split; [|reflexivity]]].
    + specialize (Hall (fun _ => true)). specialize (Hpos (fun _ => true) eq_refl).
      rewrite filter_all in Hpos by reflexivity.
      rewrite (filter_all (fun _ => true) (List.filter _ _)) in Hall
        by reflexivity.
      rewrite (filter_all (fun _ => true) (reactions d)) in Hall by reflexivity.
      cbv beta iota in Hall. lia.
    + unfold reaction_count. cbn [reactions set_reactions]. rewrite Hall.
      assert (Hq : sql_where (int_eq (rc_message_id r0) (Some m))
                   && bool_decide (rc_emoji r0 = Some e) = true).
      { rewrite Hm, (proj2 (int_eq_true m (Some m)) eq_refl).
        now rewrite bool_decide_eq_true_2. }
      rewrite Hq.
      pose proof (Hpos (fun r => sql_where (int_eq (rc_message_id r) (Some m))
                                 && bool_decide (rc_emoji r = Some e)) Hq).
      lia.
    + intros mid' e' Hother. unfold reaction_count.
      cbn [reactions set_reactions]. rewrite Hall.
      assert (Hq : sql_where (int_eq (rc_message_id r0) mid')
                   && bool_decide (rc_emoji r0 = e') = false).
      { destruct (sql_where (int_eq (rc_message_id r0) mid')) eqn:E1;
          [|reflexivity].
        rewrite Hm in E1. apply int_eq_true in E1.
        destruct Hother as [H|H]; [congruence|].
        rewrite bool_decide_eq_false_2; [reflexivity|congruence]. }
      rewrite Hq. lia.
  - exfalso. apply fetchone_filter_None in E.
    rewrite filter_nil_iff in E.
    specialize (E _ Hin).
    assert (reaction_matches m u e
              {| rc_id := i; rc_message_id := Some m; rc_username := Some u;
                 rc_emoji := Some e |} = true)
      by (apply reaction_matches_true; auto).
    congruence.
Qed.

Lemma primary_keys_reacted_store : primary_keys reacted_store.
Proof.
  vm_compute. repeat split; repeat constructor; simpl; intuition discriminate.
Qed.

Lemma toggle_reaction_removes_stored_witness :
  snd (toggle_reaction (Some 1) (Some "alice") (Some "+1") reacted_store) = false
  /\ reaction_count (Some 1) (Some "+1") reacted_store = 1%nat
  /\ reaction_count (Some 1) (Some "+1")
       (fst (toggle_reaction (Some 1) (Some "alice") (Some "+1") reacted_store))
     = 0%nat.
Proof.
  pose proof (toggle_reaction_removes_stored reacted_store 1 "alice" "+1" 1
                primary_keys_reacted_store) as H.
  destruct (toggle_reaction (Some 1) (Some "alice") (Some "+1") reacted_store)
    as [d' present] eqn:E.
  destruct H as (H1 & _ & H3 & _); [vm_compute; now left|].
  cbn [fst snd]. split; [exact H1|]. split; [reflexivity|].
  assert (Hc : reaction_count (Some 1) (Some "+1") reacted_store = 1%nat)
    by reflexivity.
  rewrite Hc in H3. now injection H3.
Defined.

End ReactionCounts.

(* ================================================================== *)
(** * Edit, delete, pin and react on a message that is not stored *)

Section NotFoundRecorded.

Lemma reaction_count_app (mid : option Z) (e : option string) (d : Store)
    (row : Reaction) (seq : Z) :
  reaction_count mid e (set_reactions (reactions d ++ [row]) seq d)
  = (reaction_count mid e d
     + (if sql_where (int_eq (rc_message_id row) mid)
           && bool_decide (rc_emoji row = e)
        then 1 else 0))%nat.
Proof.
  unfold reaction_count. cbn [reactions set_reactions].
  rewrite List.filter_app, length_app. cbn [List.filter].
  now destruct (_ && _).
Qed.

Lemma reaction_where_true (mid : option Z) (u e : option string) (r : Reaction) :
  reaction_where mid u e r = true ->
  sql_where (int_eq (rc_message_id r) mid) = true /\ rc_emoji r = e.
Proof.
  unfold reaction_where.
  destruct (rc_message_id r) as [a|], mid as [b|], (rc_username r) as [c|],
    u as [c'|], (rc_emoji r) as [x|], e as [y|];
    cbn [int_eq text_eq sql_eq sql_and sql_where];
    repeat match goal with
           | |- context [?i =? ?j] => destruct (i =? j)
           | |- context [String.eqb ?i ?j] => destruct (String.eqb_spec i j)
           end;
    try discriminate; intros _; split; [reflexivity|congruence].
Qed.

(** C2, amended.  On a message id that is not stored and that SQLite can
    hold (from -2^63 to 2^63-1): an edit and a delete leave the whole
    state as it is, return [None] and [False] and emit nothing.  A pin
    returns [None] and emits nothing, and the state after it is the state
    before with one pin row appended: a fresh id, the message id and the
    room of the event.  A react does what it does on any id.  When no
    reaction row has the id, the user and the emoji of the event, it
    returns [True], the state after it is the state before with that row
    appended under a fresh id, and the counts it broadcasts to everyone
    give the emoji one more than the rows the id had with it, so 1 after
    a first react, and every other emoji what it had.  When such a row is
    stored, it returns [False], the state after it is the state before
    without the first such row, the counts of that state are broadcast to
    everyone, and, the ids of the reaction rows being distinct, the count
    of the emoji is one less than before. *)
Theorem not_found_edit_delete_noop_pin_react_recorded
    (st : State) (sid : string) (data : Data) :
  sqlite_integer (get (d_id data)) = true ->
  sqlite_integer (get (d_message_id data)) = true ->
  select_message (get (d_id data)) (db st) = None ->
  select_message (get (d_message_id data)) (db st) = None ->
  let id := get (d_id data) in
  let mid := get (d_message_id data) in
  let u := get (d_username data) in
  let e := get (d_emoji data) in
  let room := get_or (d_room data) "Lobby" in
  (forall u t, edit_message id u t (db st) = (db st, None))
  /\ (forall u, delete_message id u (db st) = (db st, false))
  /\ on_edit_message data sid st = (st, [])
  /\ on_delete_message data sid st = (st, [])
  /\ (let pid := next_rowid (pins_seq (db st)) (map pin_id (pins (db st))) in
      let d1 :=
        set_pins
          (pins (db st)
           ++ [{| pin_id := pid; pin_message_id := id; pin_room := room |}])
          pid (db st) in
      pin_message id room (db st) = (d1, None)
      /\ on_pin_message data sid st = (with_db d1 st, []))
  /\ (List.filter (reaction_where mid u e) (reactions (db st)) = [] ->
      let rid :=
        next_rowid (reactions_seq (db st)) (map rc_id (reactions (db st))) in
      let d1 :=
        set_reactions
          (reactions (db st)
           ++ [{| rc_id := rid; rc_message_id := mid; rc_username := u;
                  rc_emoji := e |}])
          rid (db st) in
      toggle_reaction mid u e (db st) = (d1, true)
      /\ on_react data sid st
         = (with_db d1 st,
            [emit "reactions_update"
               (reaction_counts mid (reactions_summary mid d1)) None])
      /\ (mid <> None ->
          reactions_summary mid d1 !! e
          = Some (S (reaction_count mid e (db st))))
      /\ (forall e', e' <> e ->
            reactions_summary mid d1 !! e' = reactions_summary mid (db st) !! e'))
  /\ (forall r0 rest,
        List.filter (reaction_where mid u e) (reactions (db st)) = r0 :: rest ->
        let d1 :=
          set_reactions
            (List.filter (fun r => negb (rc_id r =? rc_id r0)) (reactions (db st)))
            (reactions_seq (db st)) (db st) in
        toggle_reaction mid u e (db st) = (d1, false)
        /\ on_react data sid st
           = (with_db d1 st,
              [emit "reactions_update"
                 (reaction_counts mid (reactions_summary mid d1)) None])
        /\ (primary_keys (db st) ->
            S (reaction_count mid e d1) = reaction_count mid e (db st))).
Proof.
  intros _ _ Hid Hmid id mid u e room.
  split; [intros u0 t; now apply edit_message_not_found|].
  split; [intros u0; now apply delete_message_not_found|].
  split.
  { unfold on_edit_message. rewrite edit_message_not_found by exact Hid.
    now rewrite with_db_same. }
  split.
  { unfold on_delete_message. rewrite delete_message_not_found by exact Hid.
    now rewrite with_db_same. }
  split.
  { intros pid d1.
    assert (Hpin : pin_message id room (db st) = (d1, None)).
    { unfold pin_message. fold pid. fold d1. f_equal.
      change (select_message id d1) with (select_message id (db st)).
      exact Hid. }
    split; [exact Hpin|].
    unfold on_pin_message. fold id. fold room. now rewrite Hpin. }
  split.
  { intros Hnone rid d1.
    assert (Htog : toggle_reaction mid u e (db st) = (d1, true)).
    { unfold toggle_reaction. fold (reaction_where mid u e).
      now rewrite Hnone. }
    split; [exact Htog|]. split.
    { unfold on_react. fold mid. fold u. fold e. now rewrite Htog. }
    split.
    - intros Hsome. rewrite summary_lookup. unfold d1.
      rewrite reaction_count_app. cbn [rc_message_id rc_emoji].
      destruct mid as [z|]; [|congruence].
      cbn [int_eq sql_eq sql_where]. rewrite Z.eqb_refl.
      rewrite bool_decide_eq_true_2 by reflexivity. cbn [andb].
      now rewrite Nat.add_1_r.
    - intros e' Hne. rewrite !summary_lookup. unfold d1.
      rewrite reaction_count_app. cbn [rc_message_id rc_emoji].
      rewrite bool_decide_eq_false_2 by congruence.
      rewrite andb_false_r. now rewrite Nat.add_0_r. }
  intros r0 rest Hsome d1.
  assert (Htog : toggle_reaction mid u e (db st) = (d1, false)).
  { unfold toggle_reaction. fold (reaction_where mid u e).
    now rewrite Hsome. }
  split; [exact Htog|]. split.
  { unfold on_react. fold mid. fold u. fold e. now rewrite Htog. }
  intros (_ & Hnd & _).
  assert (Hr0 : In r0 (reactions (db st)) /\ reaction_where mid u e r0 = true).
  { apply filter_In. rewrite Hsome. now left. }
  destruct Hr0 as [Hin Hw].
  unfold reaction_count, d1. cbn [reactions set_reactions].
  rewrite (filter_delete_by_id _ r0 (reactions (db st)) Hnd Hin).
  assert (Hq : sql_where (int_eq (rc_message_id r0) mid)
               && bool_decide (rc_emoji r0 = e) = true).
  { apply reaction_where_true in Hw. destruct Hw as [-> He].
    now apply bool_decide_eq_true_2. }
  rewrite Hq.
  assert (Hpos : In r0 (List.filter
                   (fun r => sql_where (int_eq (rc_message_id r) mid)
                             && bool_decide (rc_emoji r = e))
                   (reactions (db st))))
    by (apply filter_In; split; [exact Hin|exact Hq]).
  assert (Hlen : forall (l : list Reaction) x, In x l -> (0 < length l)%nat)
    by (intros [|y l] x Hx; [destruct Hx|simpl; lia]).
  apply Hlen in Hpos. cbv beta in *. lia.
Qed.

Lemma not_found_witness :
  let data := id_data 7 (val "bob") (val "+1") (val "edited") in
  on_edit_message data "c1" busy_state = (busy_state, [])
  /\ on_delete_message data "c1" busy_state = (busy_state, [])
  /\ map pin_message_id (pins (db (fst (on_pin_message data "c1" busy_state))))
     = [Some 1; Some 7]
  /\ snd (on_pin_message data "c1" busy_state) = []
  /\ map rc_message_id (reactions (db (fst (on_react data "c1" busy_state))))
     = [Some 1; Some 7]
  /\ snd (on_react data "c1" busy_state)
     = [emit "reactions_update"
          (reaction_counts (Some 7) {[ Some "+1" := 1%nat ]}) None].
Proof.
  pose proof (not_found_edit_delete_noop_pin_react_recorded busy_state "c1"
                (id_data 7 (val "bob") (val "+1") (val "edited"))
                eq_refl eq_refl eq_refl eq_refl)
    as (_ & _ & He & Hd & Hp & Hr & _).
  cbv zeta in *. destruct Hp as [_ Hp].
  destruct (Hr eq_refl) as (_ & Hr' & _).
  split; [exact He|]. split; [exact Hd|].
  rewrite Hp, Hr'. vm_compute. repeat split.
Defined.

End NotFoundRecorded.

(* ================================================================== *)
(** * One reaction per user, emoji and message *)

Section ReactionsUnique.

Lemma filter_filter_length {A} (p q : A -> bool) (l : list A) :
  (length (List.filter q (List.filter p l)) <= length (List.filter q l))%nat.
Proof.
  induction l as [|x l IH]; simpl; [lia|].
  destruct (p x); simpl; destruct (q x); simpl; lia.
Qed.

Lemma sql_and_true (a b : option bool) :
  sql_where (sql_and a b) = true <-> a = Some true /\ b = Some true.
Proof.
  destruct a as [[|]|], b as [[|]|]; simpl; split; try discriminate; auto;
    intros [? ?]; discriminate.
Qed.


Lemma sql_eq_null {A} (eqb : A -> A -> bool) (a : option A) :
  sql_eq eqb a None = None.
Proof. now destruct a. Qed.

Lemma toggle_reaction_unique (mid : option Z) (u e : option string) (d : Store) :
  reactions_unique d -> reactions_unique (fst (toggle_reaction mid u e d)).
Proof.
  intros Huniq m0 u0 e0. unfold toggle_reaction.
  destruct (fetchone _) as [r0|] eqn:E; cbn [fst reactions set_reactions].
  - etransitivity; [apply filter_filter_length|apply Huniq].
  - rewrite List.filter_app, length_app. cbn [List.filter].
    destruct (reaction_matches m0 u0 e0 _) eqn:Hrow; cbn [length];
      [|specialize (Huniq m0 u0 e0); lia].
    apply reaction_matches_true in Hrow. cbn in Hrow.
    destruct Hrow as (-> & -> & ->).
    apply fetchone_filter_None in E. fold (reaction_matches m0 u0 e0) in E.
    rewrite E. simpl. lia.
Qed.

Lemma handle_reactions_unique (ev : Event) (sid : string) (now : Z) (st : State) :
  reactions_unique (db st) ->
  reactions_unique (db (fst (handle ev sid now st))).
Proof.
  intros Huniq. destruct ev; cbn [handle]; try exact Huniq.
  - unfold on_join_room. destruct (get (d_username data)); [|exact Huniq].
    destruct (negb _); [exact Huniq|]. now rewrite persist_message_row.
  - unfold on_send_message. destruct (_ || _); [exact Huniq|].
    now rewrite persist_message_row.
  - unfold on_edit_message, edit_message.
    destruct (select_message _ _); [|exact Huniq].
    destruct (negb _); [exact Huniq|].
    now destruct (select_message _ _).
  - unfold on_delete_message, delete_message.
    destruct (select_message _ _); [|exact Huniq].
    destruct (negb _); [exact Huniq|].
    cbn [fst db with_db]. intros m0 u0 e0.
    cbn [reactions set_reactions set_messages].
    etransitivity; [apply filter_filter_length|apply Huniq].
  - unfold on_react.
    destruct (toggle_reaction _ _ _ _) as [d1 ok] eqn:E.
    cbn [fst db with_db]. change d1 with (fst (d1, ok)). rewrite <- E.
    now apply toggle_reaction_unique.
  - unfold on_pin_message, pin_message. now destruct (select_message _ _).
  - unfold on_send_dm. destruct (_ || _); [exact Huniq|].
    now rewrite persist_message_row.
  - unfold on_disconnect. destruct (dict_get _ _); [|exact Huniq].
    now destruct (truthy _).
Qed.

(** X10.  Whatever events the broker has handled since the empty
    database, no message holds two reaction rows of the same user with
    the same emoji: a react either adds the one row or removes it. *)
Theorem reachable_reactions_unique (evs : list (Event * string * Z)) :
  reactions_unique (db (fst (run evs initial_state))).
Proof.
  assert (H : forall st, reactions_unique (db st) ->
                         reactions_unique (db (fst (run evs st)))).
  { induction evs as [|[[ev sid] now] evs IH]; intros st Hst; [exact Hst|].
    rewrite run_cons. apply IH. now apply handle_reactions_unique. }
  apply H. intros m u e. simpl. lia.
Qed.



End ReactionsUnique.

(* ================================================================== *)
(** * Who receives what *)

Section FanOut.



Lemma dict_keys_pop (k : string) (d : dict) : ~ In k (dict_keys (dict_pop k d)).
Proof.
  unfold dict_keys, dict_pop. intros Hin. apply in_map_iff in Hin.
  destruct Hin as ([k' v] & Hk & Hin). simpl in Hk. subst k'.
  apply filter_In in Hin. destruct Hin as [_ Hin]. simpl in Hin.
  now rewrite String.eqb_refl in Hin.
Qed.

(** X13.  A disconnect always emits exactly one event, the [user_list]
    broadcast built from the presence map it leaves, and never touches
    the database.  For a connection that never identified the state is
    unchanged.  For one that identified as [u], the list no longer names
    [u], the connection is forgotten, and the connection recorded for
    every other user is as before. *)
Theorem disconnect_broadcasts_presence_once (sid : string) (st : State) :
  let '(st', out) := on_disconnect sid st in
  out = [emit "user_list" (user_list (presence_list st')) None]
  /\ db st' = db st
  /\ (dict_get sid (sid_to_user st) = None -> st' = st)
  /\ forall u,
       dict_get sid (sid_to_user st) = Some u -> u <> "" ->
       ~ In u (map fst (presence_list st'))
       /\ dict_get sid (sid_to_user st') = None
       /\ forall other, other <> u ->
            lookup_connection other st' = lookup_connection other st.
Proof.
  unfold on_disconnect.
  destruct (dict_get sid (sid_to_user st)) as [u|] eqn:Hsid.
  - destruct (truthy (Some u)) eqn:Hu.
    + split; [reflexivity|]. split; [reflexivity|]. split; [discriminate|].
      intros u' Hu' _. injection Hu' as <-.
      unfold presence_list, lookup_connection. cbn [user_to_sid sid_to_user].
      rewrite map_map. cbn [fst]. rewrite map_id.
      split; [apply dict_keys_pop|]. split; [apply dict_get_pop_eq|].
      intros other Hother. now apply dict_get_pop_ne.
    + split; [reflexivity|]. split; [reflexivity|]. split; [discriminate|].
      intros u' Hu' Hne. injection Hu' as <-.
      apply truthy_Some in Hne. congruence.
  - split; [reflexivity|]. split; [reflexivity|]. split; [reflexivity|].
    intros u Hu. discriminate Hu.
Qed.

End FanOut.

(* ================================================================== *)
(** * Joining a room *)

Section Join.

Lemma dict_keys_set (k v : string) (d : dict) : In k (dict_keys (dict_set k v d)).
Proof.
  unfold dict_keys. induction d as [|[k' v'] d IH]; simpl; [now left|].
  destruct (String.eqb k k'); simpl; [now left|now right].
Qed.

(** X14.  A join with a non-empty username emits four events in this
    order: to the joining connection the history of the room as stored
    before the join, then to the room the system message
    "<username> joined <room>" it has just stored, then to everyone the
    presence list, which names the user, and the room list.  The history
    sent does not contain the join message; a history loaded afterwards
    ends with it when the room had fewer than 500 rows. *)
Theorem join_sends_history_then_announces
    (data : Data) (sid : string) (now : Z) (st : State) (name : string) :
  get (d_username data) = Some name ->
  name <> "" ->
  let room := get_or (d_room data) "Lobby" in
  let '(st', out) := on_join_room data sid now st in
  exists sys,
    out = [emit "load_room_messages"
             (rows (load_room_messages room 500 (db st))) (Some sid);
           emit "new_message_room" (one_row (Some sys)) room;
           emit "user_list" (user_list (presence_list st')) None;
           emit "rooms_list" (room_names (room_list (db st'))) None]
    /\ messages (db st') = messages (db st) ++ [sys]
    /\ msg_sender sys = Some "System"
    /\ msg_message sys
       = Some (String.append name (String.append " joined " (py_str room)))
    /\ msg_room sys = room
    /\ msg_receiver sys = None
    /\ ~ In sys (load_room_messages room 500 (db st))
    /\ In name (map fst (presence_list st'))
    /\ lookup_connection name st' = Some sid
    /\ forall r, room = Some r -> (room_count r (db st) < 500)%nat ->
         load_room_messages room 500 (db st')
         = load_room_messages room 500 (db st) ++ [sys].
Proof.
  intros Hname Hne room. unfold on_join_room. rewrite Hname.
  rewrite (proj2 (truthy_Some name) Hne). cbn [negb]. fold room.
  cbn [db]. rewrite persist_message_row.
  set (mid := next_rowid (messages_seq (db st)) (map msg_id (messages (db st)))).
  set (sys := {| msg_id := mid |}).
  assert (Hlt : forall m, In m (messages (db st)) -> msg_id m < mid).
  { intros m Hm. apply next_rowid_gt_ids. now apply in_map. }
  exists sys. split; [reflexivity|]. split; [reflexivity|].
  repeat (split; [reflexivity|]).
  split.
  { intros Hin. unfold load_room_messages in Hin.
    apply sql_limit_In, order_by_asc_In, filter_In in Hin.
    destruct Hin as [Hin _]. apply Hlt in Hin. simpl in Hin. lia. }
  split.
  { unfold presence_list. cbn [user_to_sid with_db].
    rewrite map_map. cbn [fst]. rewrite map_id. apply dict_keys_set. }
  split.
  { unfold lookup_connection. cbn [user_to_sid with_db]. apply dict_get_set_eq. }
  intros r Hr Hcount. rewrite Hr in *.
  unfold load_room_messages at 1. cbn [db with_db messages set_messages].
  rewrite List.filter_app. cbn [List.filter].
  assert (Hrow : is_room_row r sys) by (split; [exact Hr|reflexivity]).
  apply room_filter_true in Hrow. rewrite Hrow.
  rewrite order_by_asc_snoc.
  - fold (load_room_messages (Some r) (-1) (db st)).
    rewrite <- load_room_messages_unlimited.
    rewrite room_count_eq in Hcount.
    rewrite sql_limit_all by (rewrite length_app; simpl; lia).
    f_equal. unfold load_room_messages at 2.
    rewrite <- load_room_messages_unlimited.
    symmetry. apply sql_limit_all. lia.
  - intros y Hy. apply filter_In in Hy. destruct Hy as [Hy _].
    apply Hlt in Hy. simpl. lia.
Qed.

Lemma join_sends_history_then_announces_witness :
  let out :=
    snd (on_join_room (text_data "carol" (val "Lobby") absent absent)
           "c3" 400 lobby_state) in
  map ev_name out
  = ["load_room_messages"; "new_message_room"; "user_list"; "rooms_list"]
  /\ map ev_to out = [Some "c3"; Some "Lobby"; None; None].
Proof.
  pose proof (join_sends_history_then_announces
                (text_data "carol" (val "Lobby") absent absent)
                "c3" 400 lobby_state "carol" eq_refl) as H.
  destruct (on_join_room (text_data "carol" (val "Lobby") absent absent)
              "c3" 400 lobby_state) as [st' out] eqn:E.
  destruct H as (sys & Hout & _); [discriminate|].
  cbn [snd]. rewrite Hout. split; reflexivity.
Defined.

End Join.

(* ================================================================== *)
(** * Missing keys and dropped events *)

Section MissingKeys.

(** X15.  A query whose key is missing or null selects nothing, because
    no row compares equal to NULL: without a room, [load_room_messages],
    [search_room] and [get_pinned] return no row; without one of the two
    users, [load_dm_history] returns none; without a message id,
    [reactions_summary] is empty and no message is selected, so an edit,
    a delete or a pin of it does nothing to the messages. *)
Theorem null_key_selects_nothing (d : Store) :
  (forall limit, load_room_messages None limit d = [])
  /\ (forall q, search_room None q d = [])
  /\ get_pinned None d = []
  /\ (forall other limit,
        load_dm_history None other limit d = []
        /\ load_dm_history other None limit d = [])
  /\ reactions_summary None d = ∅
  /\ select_message None d = None
  /\ (forall u t, edit_message None u t d = (d, None))
  /\ (forall u, delete_message None u d = (d, false)).
Proof.
  assert (Hlimit : forall A (n : Z), sql_limit n (@nil A) = []).
  { intros A n. unfold sql_limit. destruct (n <? 0); [reflexivity|].
    apply firstn_nil. }
  assert (Hsel : select_message None d = None).
  { apply select_message_None. intros m _. discriminate. }
  split; [|split; [|split; [|split; [|split; [|split; [|split]]]]]].
  - intros limit. unfold load_room_messages.
    replace (List.filter _ (messages d)) with (@nil Message); [apply Hlimit|].
    symmetry. apply filter_nil_iff. intros m _.
    destruct (msg_room m), (msg_receiver m); reflexivity.
  - intros q. unfold search_room.
    replace (List.filter _ (messages d)) with (@nil Message); [apply Hlimit|].
    symmetry. apply filter_nil_iff. intros m _.
    destruct (sql_where _) eqn:E; [|reflexivity].
    apply sql_and_true in E. destruct E as [E _].
    unfold text_eq in E. rewrite sql_eq_null in E. discriminate E.
  - unfold get_pinned.
    replace (List.filter _ (pins d)) with (@nil Pin); [reflexivity|].
    symmetry. apply filter_nil_iff. intros p _.
    now destruct (pin_room p).
  - intros other limit. unfold load_dm_history.
    split;
      (replace (List.filter _ (messages d)) with (@nil Message);
       [apply Hlimit|]);
      symmetry; apply filter_nil_iff; intros m _;
      destruct (msg_sender m) as [s|], (msg_receiver m) as [r|],
        other as [o|]; cbn;
      repeat match goal with
             | |- context [String.eqb ?x ?y] => destruct (String.eqb x y); cbn
             end; reflexivity.
  - unfold reactions_summary.
    replace (List.filter _ (reactions d)) with (@nil Reaction); [reflexivity|].
    symmetry. apply filter_nil_iff. intros r _.
    now destruct (rc_message_id r).
  - exact Hsel.
  - intros u t. now apply edit_message_not_found.
  - intros u. now apply delete_message_not_found.
Qed.

(** X16.  An event without a usable name is dropped whole: a join or a
    room message whose username is missing, null or empty, a room
    message whose room is, and a direct message whose sender or
    recipient is, change nothing in the state and emit nothing. *)
Theorem events_without_names_are_dropped
    (data : Data) (sid : string) (now : Z) (st : State) :
  (truthy (get (d_username data)) = false ->
   on_join_room data sid now st = (st, [])
   /\ on_send_message data sid now st = (st, [])
   /\ on_send_dm data sid now st = (st, []))
  /\ (truthy (get (d_room data)) = false ->
      on_send_message data sid now st = (st, []))
  /\ (truthy (get (d_to data)) = false ->
      on_send_dm data sid now st = (st, [])).
Proof.
  split; [|split].
  - intros Hu. unfold on_join_room, on_send_message, on_send_dm.
    rewrite Hu. cbn [negb orb].
    now destruct (get (d_username data)).
  - intros Hr. unfold on_send_message. rewrite Hr.
    cbn [negb]. now rewrite orb_true_r.
  - intros Ht. unfold on_send_dm. rewrite Ht.
    cbn [negb]. now rewrite orb_true_r.
Qed.

End MissingKeys.

(* ================================================================== *)
(** * The order of the stored rows *)

Section RowidOrder.

Lemma sort_by_sorted_id {A} (leb : A -> A -> bool) (l : list A) :
  StronglySorted (fun x y => leb x y = true) l -> sort_by leb l = l.
Proof.
  induction 1 as [|x l Hs IH Hx]; [reflexivity|].
  cbn [sort_by foldr]. fold (sort_by leb l). rewrite IH.
  destruct l as [|y l]; [reflexivity|]. cbn [insert_by].
  apply Forall_inv in Hx. now rewrite Hx.
Qed.

Lemma StronglySorted_filter {A} (R : A -> A -> Prop) (f : A -> bool) (l : list A) :
  StronglySorted R l -> StronglySorted R (List.filter f l).
Proof.
  induction 1 as [|x l Hs IH Hx]; simpl; [constructor|].
  destruct (f x); [|exact IH]. constructor; [exact IH|].
  rewrite List.Forall_forall in *. intros y Hy. apply filter_In in Hy.
  now apply Hx.
Qed.

Lemma StronglySorted_map_iff {A} (key : A -> Z) (l : list A) :
  StronglySorted Z.lt (map key l)
  <-> StronglySorted (fun x y => key x < key y) l.
Proof.
  induction l as [|x l IH]; simpl; split; intros H; try constructor;
    apply StronglySorted_inv in H; destruct H as [Hs Hx].
  - now apply IH.
  - rewrite List.Forall_forall in *. intros y Hy. apply Hx. now apply in_map.
  - now apply IH.
  - rewrite List.Forall_forall in *. intros k Hk. apply in_map_iff in Hk.
    destruct Hk as (y & <- & Hy). now apply Hx.
Qed.

Lemma StronglySorted_snoc {A} (R : A -> A -> Prop) (l : list A) (x : A) :
  StronglySorted R l -> (forall y, In y l -> R y x) ->
  StronglySorted R (l ++ [x]).
Proof.
  induction 1 as [|z l Hs IH Hz]; intros Hx; simpl.
  - repeat constructor.
  - constructor; [apply IH; intros y Hy; apply Hx; now right|].
    rewrite List.Forall_forall in *. intros y Hy. apply in_app_or in Hy.
    destruct Hy as [Hy|[<-|[]]]; [now apply Hz|apply Hx; now left].
Qed.

Lemma next_rowid_positive (seq : Z) (ids : list Z) : 0 < next_rowid seq ids.
Proof.
  unfold next_rowid. enough (0 <= foldr Z.max 0 ids) by lia.
  induction ids as [|i ids IH]; simpl; lia.
Qed.

Lemma persist_message_rowid_order
    (room sender receiver text image : option string) (reply_to : option Z)
    (ts : Z) (d : Store) :
  rowid_order d ->
  rowid_order
    (fst (persist_message room sender receiver text image reply_to ts d)).
Proof.
  intros [Hs Hf]. rewrite persist_message_row. cbn [fst].
  unfold rowid_order. cbn [messages messages_seq set_messages].
  set (mid := next_rowid (messages_seq d) (map msg_id (messages d))).
  assert (Hlt : forall m, In m (messages d) -> msg_id m < mid).
  { intros m Hm. apply next_rowid_gt_ids. now apply in_map. }
  split.
  - apply StronglySorted_map_iff, StronglySorted_snoc.
    + now apply StronglySorted_map_iff.
    + intros y Hy. simpl. now apply Hlt.
  - apply Forall_app. split.
    + rewrite List.Forall_forall in *. intros m Hm.
      specialize (Hf m Hm). specialize (Hlt m Hm). lia.
    + repeat constructor; simpl; [apply next_rowid_positive|lia].
Qed.

Lemma handle_rowid_order (ev : Event) (sid : string) (now : Z) (st : State) :
  rowid_order (db st) -> rowid_order (db (fst (handle ev sid now st))).
Proof.
  intros Hinv. destruct ev; cbn [handle]; try exact Hinv.
  - unfold on_join_room. destruct (get (d_username data)); [|exact Hinv].
    destruct (negb _); [exact Hinv|].
    destruct (persist_message _ _ _ _ _ _ _ _) as [d2 m] eqn:E.
    cbn [fst db with_db]. change d2 with (fst (d2, m)). rewrite <- E.
    now apply persist_message_rowid_order.
  - unfold on_send_message. destruct (_ || _); [exact Hinv|].
    destruct (persist_message _ _ _ _ _ _ _ _) as [d2 m] eqn:E.
    assert (Hd2 : rowid_order d2).
    { change d2 with (fst (d2, m)). rewrite <- E.
      now apply persist_message_rowid_order. }
    now destruct m.
  - unfold on_edit_message, edit_message.
    destruct (select_message _ _); [|exact Hinv].
    destruct (negb _); [exact Hinv|].
    assert (Hd2 : rowid_order
      (set_messages
         (map (edit_row (get (d_id data)) (get (d_message data)))
            (messages (db st)))
         (messages_seq (db st)) (db st))).
    { destruct Hinv as [Hs Hf]. split; cbn [messages messages_seq set_messages].
      - rewrite map_map. erewrite map_ext; [exact Hs|].
        intros x. apply edit_row_id.
      - apply Forall_map. eapply List.Forall_impl; [|exact Hf].
        intros x Hx. cbn beta. now rewrite edit_row_id. }
    unfold edit_row in Hd2.
    match goal with
    | |- context [select_message ?a ?b] => destruct (select_message a b)
    end; exact Hd2.
  - unfold on_delete_message, delete_message.
    destruct (select_message _ _); [|exact Hinv].
    destruct (negb _); [exact Hinv|].
    destruct Hinv as [Hs Hf].
    split; cbn [fst db with_db messages messages_seq set_messages set_reactions].
    + apply StronglySorted_map_iff, StronglySorted_filter.
      now apply StronglySorted_map_iff.
    + rewrite List.Forall_forall in *. intros x Hx.
      apply filter_In in Hx. now apply Hf.
  - unfold on_react, toggle_reaction. now destruct (fetchone _).
  - unfold on_pin_message, pin_message. now destruct (select_message _ _).
  - unfold on_send_dm. destruct (_ || _); [exact Hinv|].
    destruct (persist_message _ _ _ _ _ _ _ _) as [d2 m] eqn:E.
    assert (Hd2 : rowid_order d2).
    { change d2 with (fst (d2, m)). rewrite <- E.
      now apply persist_message_rowid_order. }
    now destruct m.
  - unfold on_disconnect. destruct (dict_get _ _); [|exact Hinv].
    now destruct (truthy _).
Qed.

Lemma run_rowid_order (evs : list (Event * string * Z)) (st : State) :
  rowid_order (db st) -> rowid_order (db (fst (run evs st))).
Proof.
  revert st. induction evs as [|[[ev sid] now] evs IH]; intros st Hst;
    [exact Hst|].
  rewrite run_cons. apply IH. now apply handle_rowid_order.
Qed.

Lemma rowid_order_initial : rowid_order (db initial_state).
Proof. split; constructor. Qed.

(** X17.  Whatever events the broker has handled since the empty
    database, the message table holds its rows in strictly ascending id
    order, every id is positive and none is above the counter; so the
    [ORDER BY id ASC] of the two history queries changes nothing: they
    return the selected rows in the order they were stored, cut at the
    limit. *)
Theorem reachable_rows_in_id_order (evs : list (Event * string * Z)) :
  let d := db (fst (run evs initial_state)) in
  rowid_order d
  /\ (forall room limit,
        load_room_messages room limit d
        = sql_limit limit
            (List.filter
               (fun m =>
                  sql_where
                    (sql_and (text_eq (msg_room m) room)
                       (sql_is_null (msg_receiver m))))
               (messages d)))
  /\ forall user other limit,
       load_dm_history user other limit d
       = sql_limit limit (List.filter (dm_where user other) (messages d)).
Proof.
  intros d.
  assert (Hinv : rowid_order d).
  { subst d. apply run_rowid_order, rowid_order_initial. }
  split; [exact Hinv|].
  assert (Hsort : forall f,
    order_by_asc msg_id (List.filter f (messages d)) = List.filter f (messages d)).
  { intros f. apply sort_by_sorted_id, StronglySorted_filter.
    destruct Hinv as [Hs _]. apply (StronglySorted_map_iff msg_id) in Hs.
    eapply StronglySorted_weaken; [|exact Hs].
    intros x y Hxy. apply Z.leb_le. simpl in Hxy. lia. }
  split.
  - intros room limit. unfold load_room_messages. now rewrite Hsort.
  - intros user other limit. unfold load_dm_history.
    fold (dm_where user other). now rewrite Hsort.
Qed.

End RowidOrder.

(* ================================================================== *)
(** * What events do to stored messages *)

Section StoredMessages.

Lemma set_body_same (m : Message) : set_body (msg_message m) m = m.
Proof. now destruct m. Qed.

(** X18.  Whatever the event, a message of the new store is either a
    message of the old store with at most its body changed (same id,
    room, sender, receiver, image, reply and timestamp), or a new row
    whose id is above every id of the old store. *)
Theorem events_change_only_the_body
    (ev : Event) (sid : string) (now : Z) (st : State) (m' : Message) :
  In m' (messages (db (fst (handle ev sid now st)))) ->
  (exists m, In m (messages (db st)) /\ m' = set_body (msg_message m') m)
  \/ (forall m, In m (messages (db st)) -> msg_id m < msg_id m').
Proof.
  assert (Hold : In m' (messages (db st)) ->
    (exists m, In m (messages (db st)) /\ m' = set_body (msg_message m') m)
    \/ (forall m, In m (messages (db st)) -> msg_id m < msg_id m')).
  { intros H. left. exists m'. split; [exact H|]. symmetry. apply set_body_same. }
  assert (Hpersist : forall room sender receiver text image reply_to,
    In m' (messages (fst (persist_message room sender receiver text image
                            reply_to now (db st)))) ->
    (exists m, In m (messages (db st)) /\ m' = set_body (msg_message m') m)
    \/ (forall m, In m (messages (db st)) -> msg_id m < msg_id m')).
  { intros room sender receiver text image reply_to H.
    rewrite persist_message_row in H. cbn [fst messages set_messages] in H.
    apply in_app_or in H. destruct H as [H|[<-|[]]]; [now apply Hold|].
    right. intros m Hm. simpl. apply next_rowid_gt_ids. now apply in_map. }
  destruct ev; cbn [handle]; try exact Hold.
  - unfold on_join_room. destruct (get (d_username data)); [|exact Hold].
    destruct (negb _); [exact Hold|].
    destruct (persist_message _ _ _ _ _ _ _ _) as [d2 m] eqn:E.
    cbn [fst db with_db]. change d2 with (fst (d2, m)). rewrite <- E.
    apply Hpersist.
  - unfold on_send_message. destruct (_ || _); [exact Hold|].
    destruct (persist_message _ _ _ _ _ _ _ _) as [d2 m] eqn:E.
    assert (Hd2 : d2 = fst (persist_message (get (d_room data))
                              (get (d_username data)) None
                              (get_or (d_message data) "") (get (d_image data))
                              (get (d_reply_to data)) now (db st)))
      by now rewrite E.
    destruct m; cbn [fst db with_db]; rewrite Hd2; apply Hpersist.
  - unfold on_edit_message, edit_message.
    destruct (select_message _ _); [|exact Hold].
    destruct (negb _); [exact Hold|].
    intros H.
    assert (Hin : In m' (map (edit_row (get (d_id data)) (get (d_message data)))
                           (messages (db st)))).
    { unfold edit_row.
      match goal with
      | H : context [select_message ?a ?b] |- _ => destruct (select_message a b)
      end; exact H. }
    apply in_map_iff in Hin. destruct Hin as (m0 & <- & Hm0).
    left. exists m0. split; [exact Hm0|].
    unfold edit_row. destruct (sql_where _); [reflexivity|].
    symmetry. apply set_body_same.
  - unfold on_delete_message, delete_message.
    destruct (select_message _ _); [|exact Hold].
    destruct (negb _); [exact Hold|].
    cbn [fst db with_db messages set_messages set_reactions].
    intros H. apply filter_In in H. now apply Hold.
  - unfold on_react, toggle_reaction. destruct (fetchone _); exact Hold.
  - unfold on_pin_message, pin_message.
    destruct (select_message _ _); exact Hold.
  - unfold on_send_dm. destruct (_ || _); [exact Hold|].
    destruct (persist_message _ _ _ _ _ _ _ _) as [d2 m] eqn:E.
    assert (Hd2 : d2 = fst (persist_message None (get (d_username data))
                              (get (d_to data))
                              (get_or (d_message data) "") (get (d_image data))
                              (get (d_reply_to data)) now (db st)))
      by now rewrite E.
    destruct m; cbn [fst db with_db]; rewrite Hd2; apply Hpersist.
  - unfold on_disconnect. destruct (dict_get _ _); [|exact Hold].
    destruct (truthy _); exact Hold.
Qed.

Lemma events_change_only_the_body_witness :
  exists m,
    In m (messages (db lobby_state))
    /\ set_body (Some "hello, all") hello_row = set_body (Some "hello, all") m.
Proof.
  destruct (events_change_only_the_body
              (ev_edit_message (id_data 1 absent absent (val "hello, all")))
              "c1" 500 lobby_state (set_body (Some "hello, all") hello_row))
    as [(m & Hm & Heq)|Hnew].
  - vm_compute. now left.
  - exists m. split; [exact Hm|exact Heq].
  - exfalso. specialize (Hnew hello_row). cbn in Hnew.
    assert (1 < 1); [|lia]. apply Hnew. vm_compute. now left.
Defined.

(** X19.  The check of [on_delete_message] is against the username of
    the connection's last join: after a connection joins under the name
    of the sender of a stored message, its delete of that message goes
    through, the message is gone and its id is broadcast to every
    connection. *)
Theorem joined_as_sender_can_delete
    (st : State) (M : Message) (name : string)
    (jdata ddata : Data) (sid : string) (now : Z) :
  primary_keys (db st) ->
  In M (messages (db st)) ->
  msg_sender M = Some name ->
  name <> "" ->
  get (d_username jdata) = Some name ->
  get (d_id ddata) = Some (msg_id M) ->
  let st1 := fst (on_join_room jdata sid now st) in
  let '(st2, out) := on_delete_message ddata sid st1 in
  out = [emit "delete_message" (deleted_id (Some (msg_id M))) None]
  /\ select_message (Some (msg_id M)) (db st2) = None
  /\ forall m, In m (messages (db st2)) ->
               In m (messages (db st1)) /\ msg_id m <> msg_id M.
Proof.
  intros Hpk Hin Hsender Hne Hj Hd st1.
  assert (Hpk1 : primary_keys (db st1))
    by apply (handle_primary_keys (ev_join_room jdata) sid now st Hpk).
  assert (Hst1 : messages (db st1) = messages (db st) ++
            [{| msg_id := next_rowid (messages_seq (db st))
                            (map msg_id (messages (db st)));
                msg_room := get_or (d_room jdata) "Lobby";
                msg_sender := Some "System"; msg_receiver := None;
                msg_message :=
                  Some (String.append name
                          (String.append " joined "
                             (py_str (get_or (d_room jdata) "Lobby"))));
                msg_image := None; msg_reply_to := None;
                msg_timestamp := now |}]
            /\ dict_get sid (sid_to_user st1) = Some name).
  { unfold st1, on_join_room. rewrite Hj.
    rewrite (proj2 (truthy_Some name) Hne). cbn [negb db].
    rewrite persist_message_row. cbn [fst db with_db messages set_messages
                                        sid_to_user].
    split; [reflexivity|apply dict_get_set_eq]. }
  destruct Hst1 as [Hmsgs1 Hsid1].
  assert (Hin1 : In M (messages (db st1)))
    by (rewrite Hmsgs1; apply in_or_app; now left).
  unfold on_delete_message. rewrite Hd, Hsid1. unfold delete_message.
  rewrite (select_message_stored _ _ Hpk1 Hin1), Hsender.
  rewrite (proj2 (py_eq_true _ _) eq_refl). cbn [negb].
  cbn [db with_db messages set_messages set_reactions].
  assert (Hgone : forall m,
    In m (List.filter
            (fun m0 => negb (sql_where (int_eq (Some (msg_id m0))
                                          (Some (msg_id M)))))
            (messages (db st1))) ->
    In m (messages (db st1)) /\ msg_id m <> msg_id M).
  { intros m Hm. apply filter_In in Hm. destruct Hm as [Hm Hid].
    split; [exact Hm|]. intros E. rewrite E in Hid.
    rewrite (proj2 (int_eq_true (msg_id M) (Some (msg_id M))) eq_refl) in Hid.
    discriminate Hid. }
  split; [reflexivity|]. split; [|exact Hgone].
  apply select_message_None. cbn [messages set_messages set_reactions].
  intros m Hm E. apply Hgone in Hm. injection E as E. destruct Hm. congruence.
Qed.

Lemma joined_as_sender_can_delete_witness :
  snd (on_delete_message (id_data 1 absent absent absent) "c9"
         (fst (on_join_room (text_data "alice" absent absent absent)
                 "c9" 600 lobby_state)))
  = [emit "delete_message" (deleted_id (Some 1)) None].
Proof.
  pose proof (joined_as_sender_can_delete lobby_state hello_row "alice"
                (text_data "alice" absent absent absent)
                (id_data 1 absent absent absent) "c9" 600
                primary_keys_lobby_state) as H.
  cbv zeta in H.
  destruct (on_delete_message (id_data 1 absent absent absent) "c9"
              (fst (on_join_room (text_data "alice" absent absent absent)
                      "c9" 600 lobby_state))) as [st2 out].
  destruct H as [H _]; try reflexivity; try discriminate.
  - vm_compute. now left.
  - exact H.
Defined.

End StoredMessages.

(* ================================================================== *)
(** * Sending, searching, deleting, asking *)

Section Composition.



Lemma filter_comm {A} (f g : A -> bool) (l : list A) :
  List.filter f (List.filter g l) = List.filter g (List.filter f l).
Proof.
  induction l as [|x l IH]; simpl; [reflexivity|].
  destruct (f x) eqn:Ef, (g x) eqn:Eg; simpl; rewrite ?Ef, ?Eg, IH; reflexivity.
Qed.

(** X21.  After the sender's delete of a stored message, in a store whose
    rows are in id order, the histories are the ones from before with
    that row taken out and the order of the others kept; under a limit,
    the row that comes after the cut moves in. *)
Theorem delete_takes_row_out_of_histories (d : Store) (M : Message) :
  primary_keys d ->
  rowid_order d ->
  In M (messages d) ->
  let d' := fst (delete_message (Some (msg_id M)) (msg_sender M) d) in
  let others := fun m : Message => negb (msg_id m =? msg_id M) in
  (forall room limit,
     load_room_messages room limit d'
     = sql_limit limit (List.filter others (load_room_messages room (-1) d)))
  /\ forall user other limit,
       load_dm_history user other limit d'
       = sql_limit limit
           (List.filter others (load_dm_history user other (-1) d)).
Proof.
  intros Hpk [Hs _] Hin d' others.
  assert (Hd' : messages d' = List.filter others (messages d)).
  { unfold d', delete_message.
    rewrite (select_message_stored _ _ Hpk Hin).
    rewrite (proj2 (py_eq_true _ _) eq_refl). cbn [negb fst].
    cbn [messages set_messages set_reactions].
    apply filter_ext. intros m. unfold others. cbn.
    now destruct (msg_id m =? msg_id M). }
  apply (StronglySorted_map_iff msg_id) in Hs.
  assert (Hsort : forall f l,
    StronglySorted (fun x y : Message => msg_id x < msg_id y) l ->
    order_by_asc msg_id (List.filter f l) = List.filter f l).
  { intros f l Hl. apply sort_by_sorted_id, StronglySorted_filter.
    eapply StronglySorted_weaken; [|exact Hl].
    intros x y Hxy. apply Z.leb_le. simpl in Hxy. lia. }
  split.
  - intros room limit. unfold load_room_messages.
    rewrite Hd', (sql_limit_all (-1)) by (left; lia).
    rewrite !Hsort by (try apply StronglySorted_filter; exact Hs).
    now rewrite filter_comm.
  - intros user other limit. unfold load_dm_history.
    rewrite Hd', (sql_limit_all (-1)) by (left; lia).
    rewrite !Hsort by (try apply StronglySorted_filter; exact Hs).
    now rewrite filter_comm.
Qed.

Lemma rowid_order_lobby_state : rowid_order (db lobby_state).
Proof. apply run_rowid_order, rowid_order_initial. Qed.

Lemma delete_takes_row_out_of_histories_witness :
  map msg_message
    (load_room_messages (Some "Lobby") 2
       (fst (delete_message (Some 1) (Some "alice") (db lobby_state))))
  = [Some "alice joined Lobby"; Some "bob joined Lobby"]
  /\ map msg_message (load_room_messages (Some "Lobby") 2 (db lobby_state))
     = [Some "hello"; Some "alice joined Lobby"].
Proof.
  destruct (delete_takes_row_out_of_histories (db lobby_state) hello_row
              primary_keys_lobby_state rowid_order_lobby_state) as [H _].
  - vm_compute. now left.
  - split; reflexivity.
Defined.


End Composition.

(* ================================================================== *)
(** * Data URLs *)

Section DataUrl.

Lemma byte_val_range (b : Init.Byte.byte) : 0 <= byte_val b < 256.
Proof.
  unfold byte_val. pose proof (Strings.Byte.to_N_bounded b). lia.
Qed.

Lemma byte_of_val (b : Init.Byte.byte) : byte_of (byte_val b) = Some b.
Proof.
  unfold byte_of, byte_val. rewrite N2Z.id. apply Strings.Byte.of_to_N.
Qed.

Lemma b64_char_index (i : Z) :
  0 <= i < 64 ->
  b64_index (b64_char i) = Some i /\ Ascii.eqb (b64_char i) "=" = false.
Proof.
  intros Hi.
  assert (Hall : forallb
            (fun k =>
               match b64_index (b64_char (Z.of_nat k)) with
               | Some j => (j =? Z.of_nat k) && negb (Ascii.eqb (b64_char (Z.of_nat k)) "=")
               | None => false
               end)
            (seq 0 64) = true) by (vm_compute; reflexivity).
  rewrite forallb_forall in Hall.
  specialize (Hall (Z.to_nat i)).
  rewrite Z2Nat.id in Hall by lia.
  assert (Hin : In (Z.to_nat i) (seq 0 64)) by (apply in_seq; lia).
  specialize (Hall Hin).
  destruct (b64_index (b64_char i)) as [j|]; [|discriminate Hall].
  apply andb_true_iff in Hall. destruct Hall as [Hj Hne].
  apply Z.eqb_eq in Hj. apply negb_true_iff in Hne. now subst j.
Qed.

Lemma b64_block3 (a b c : Z) :
  0 <= a < 256 -> 0 <= b < 256 -> 0 <= c < 256 ->
  let n := a * 65536 + b * 256 + c in
  let i1 := n / 262144 in
  let i2 := n / 4096 mod 64 in
  let i3 := n / 64 mod 64 in
  let i4 := n mod 64 in
  let n' := ((i1 * 64 + i2) * 64 + i3) * 64 + i4 in
  0 <= i1 < 64 /\ 0 <= i2 < 64 /\ 0 <= i3 < 64 /\ 0 <= i4 < 64
  /\ n' / 65536 = a /\ n' / 256 mod 256 = b /\ n' mod 256 = c.
Proof.
  intros Ha Hb Hc n i1 i2 i3 i4 n'. subst n i1 i2 i3 i4 n'.
  Z.to_euclidean_division_equations. lia.
Qed.

Lemma b64_block2 (a b : Z) :
  0 <= a < 256 -> 0 <= b < 256 ->
  let n := a * 65536 + b * 256 in
  let i1 := n / 262144 in
  let i2 := n / 4096 mod 64 in
  let i3 := n / 64 mod 64 in
  let n' := ((i1 * 64 + i2) * 64 + i3) * 64 in
  0 <= i1 < 64 /\ 0 <= i2 < 64 /\ 0 <= i3 < 64
  /\ n' / 65536 = a /\ n' / 256 mod 256 = b.
Proof.
  intros Ha Hb n i1 i2 i3 n'. subst n i1 i2 i3 n'.
  Z.to_euclidean_division_equations. lia.
Qed.

Lemma b64_block1 (a : Z) :
  0 <= a < 256 ->
  let n := a * 65536 in
  let i1 := n / 262144 in
  let i2 := n / 4096 mod 64 in
  0 <= i1 < 64 /\ 0 <= i2 < 64 /\ ((i1 * 64 + i2) * 4096) / 65536 = a.
Proof.
  intros Ha n i1 i2. subst n i1 i2.
  Z.to_euclidean_division_equations. lia.
Qed.

Lemma b64decode_encode_bounded (n : nat) (raw : list Init.Byte.byte) :
  (length raw <= n)%nat -> b64decode (b64encode raw) = Some raw.
Proof.
  revert raw. induction n as [|n IH]; intros raw Hlen.
  - destruct raw; [reflexivity|simpl in Hlen; lia].
  - destruct raw as [|a [|b [|c rest]]]; [reflexivity| | |].
    + cbn [b64encode b64decode].
      destruct (b64_block1 (byte_val a) (byte_val_range a)) as (H1 & H2 & Ha).
      rewrite (proj1 (b64_char_index _ H1)), (proj1 (b64_char_index _ H2)).
      change (Ascii.eqb "=" "=") with true. cbv iota.
      rewrite Ha, byte_of_val. reflexivity.
    + cbn [b64encode b64decode].
      destruct (b64_block2 (byte_val a) (byte_val b)
                  (byte_val_range a) (byte_val_range b))
        as (H1 & H2 & H3 & Ha & Hb).
      rewrite (proj1 (b64_char_index _ H1)), (proj1 (b64_char_index _ H2)).
      rewrite (proj2 (b64_char_index _ H3)), (proj1 (b64_char_index _ H3)).
      change (Ascii.eqb "=" "=") with true. cbv iota zeta.
      rewrite Ha, Hb, !byte_of_val. reflexivity.
    + cbn [b64encode b64decode].
      destruct (b64_block3 (byte_val a) (byte_val b) (byte_val c)
                  (byte_val_range a) (byte_val_range b) (byte_val_range c))
        as (H1 & H2 & H3 & H4 & Ha & Hb & Hc).
      rewrite (proj1 (b64_char_index _ H1)), (proj1 (b64_char_index _ H2)).
      rewrite (proj2 (b64_char_index _ H3)), (proj1 (b64_char_index _ H3)).
      rewrite (proj2 (b64_char_index _ H4)), (proj1 (b64_char_index _ H4)).
      cbv iota zeta. rewrite Ha, Hb, Hc, !byte_of_val.
      rewrite IH by (simpl in Hlen; lia). reflexivity.
Qed.

Lemma b64encode_length (n : nat) (raw : list Init.Byte.byte) :
  (length raw <= n)%nat ->
  String.length (b64encode raw) = (4 * ((length raw + 2) / 3))%nat.
Proof.
  revert raw. induction n as [|n IH]; intros raw Hlen.
  - destruct raw; [reflexivity|simpl in Hlen; lia].
  - destruct raw as [|a [|b [|c rest]]]; try reflexivity.
    cbn [b64encode String.length length].
    rewrite IH by (simpl in Hlen; lia).
    replace (S (S (S (length rest))) + 2)%nat with (length rest + 2 + 1 * 3)%nat
      by lia.
    rewrite Nat.div_add by lia. lia.
Qed.

Lemma append_inj_l (p s t : string) :
  String.append p s = String.append p t -> s = t.
Proof.
  induction p as [|c p IH]; simpl; [auto|].
  intros H. injection H as H. now apply IH.
Qed.

(** X23.  The data URL of an upload is "data:", the mime type of the
    file, or "image/png" when it has none, ";base64," and the base64 text
    of the content, four characters for every three bytes, the last group
    padded.  The text loses nothing: it decodes to the content, so two
    files of one mime type with the same URL have the same content. *)
Theorem file_to_dataurl_keeps_content (f : FileStorage) :
  file_to_dataurl f
  = String.append
      (String.append "data:" (String.append (mime_of f) ";base64,"))
      (b64encode (fs_content f))
  /\ (fs_mimetype f = "" -> mime_of f = "image/png")
  /\ String.length (b64encode (fs_content f))
     = (4 * ((length (fs_content f) + 2) / 3))%nat
  /\ b64decode (b64encode (fs_content f)) = Some (fs_content f)
  /\ forall g,
       mime_of g = mime_of f ->
       file_to_dataurl g = file_to_dataurl f ->
       fs_content g = fs_content f.
Proof.
  split; [reflexivity|]. split.
  { intros H. unfold mime_of. now rewrite H. }
  split; [now apply (b64encode_length (length (fs_content f)))|].
  split; [now apply (b64decode_encode_bounded (length (fs_content f)))|].
  intros g Hmime Hurl. unfold file_to_dataurl in Hurl.
  rewrite Hmime in Hurl. apply append_inj_l in Hurl.
  apply (f_equal b64decode) in Hurl.
  rewrite (b64decode_encode_bounded (length (fs_content g))) in Hurl by lia.
  rewrite (b64decode_encode_bounded (length (fs_content f))) in Hurl by lia.
  now injection Hurl.
Qed.

End DataUrl.

(* ================================================================== *)
(** * The avatar upload *)

Section AvatarUpload.

(** X24.  [/upload_avatar] changes the store only for a logged-in user
    whose request has a body of at most [UPLOAD_LIMIT] (2 MiB) bytes and
    a file whose name [allowed_file] accepts: then the avatar of that
    user, when registered, is the data URL of the file, and the answer
    flashes "Avatar updated".  Without a session the answer is a redirect
    to the login page; with a session and a longer body it is status 413;
    with a session, a body within the limit and no file, or a name that
    is empty or has no allowed extension, it flashes "No avatar or
    invalid type"; in these three cases the store is as before.  The
    avatars of the other users and the messages never change. *)
Theorem upload_avatar_sets_only_that_avatar
    (session_user : option string) (content_length : Z)
    (f : option FileStorage) (d : Store) :
  let '(d', answer) := upload_avatar session_user content_length f d in
  (session_user = None -> d' = d /\ answer = redirect "login" None)
  /\ (forall user,
        session_user = Some user -> UPLOAD_LIMIT < content_length ->
        d' = d /\ answer = abort 413)
  /\ (forall user file,
        session_user = Some user -> content_length <= UPLOAD_LIMIT ->
        f = Some file -> allowed_file (fs_filename file) = true ->
        answer = redirect "chat" (Some "Avatar updated")
        /\ (get_user (Some user) d <> None ->
            avatar_of (Some user) d' = Some (file_to_dataurl file)))
  /\ (forall user,
        session_user = Some user -> content_length <= UPLOAD_LIMIT ->
        (f = None
         \/ exists file, f = Some file
                         /\ allowed_file (fs_filename file) = false) ->
        d' = d
        /\ answer = redirect "chat" (Some "No avatar or invalid type"))
  /\ (d' <> d -> content_length <= UPLOAD_LIMIT)
  /\ (forall other, session_user <> Some other ->
        avatar_of (Some other) d' = avatar_of (Some other) d)
  /\ messages d' = messages d.
Proof.
  unfold upload_avatar.
  destruct session_user as [user|].
  - destruct (Z.ltb_spec UPLOAD_LIMIT content_length) as [Hbig|Hsmall].
    { split; [discriminate|]. split; [now intros|].
      split; [intros; lia|]. split; [intros; lia|].
      split; [congruence|]. split; reflexivity. }
    destruct f as [file|].
    + destruct (allowed_file (fs_filename file)) eqn:Hok.
      * assert (Hname : String.eqb (fs_filename file) "" = false).
        { destruct (String.eqb_spec (fs_filename file) "") as [E|]; [|reflexivity].
          rewrite E in Hok. discriminate Hok. }
        rewrite Hname. cbn [negb orb].
        split; [discriminate|]. split; [intros; lia|]. split.
        { intros u fl Hu _ Hf _. injection Hu as <-. injection Hf as <-.
          split; [reflexivity|]. intros Hreg.
          rewrite (proj1 (set_avatar_lookup user _ d)).
          destruct (get_user (Some user) d); [reflexivity|contradiction]. }
        split.
        { intros u _ _ [Hf|(fl & Hf & Hbad)]; [discriminate Hf|].
          injection Hf as <-. congruence. }
        split; [intros _; exact Hsmall|].
        split; [|reflexivity].
        intros other Hother.
        apply (proj1 (proj2 (set_avatar_lookup user _ d))). congruence.
      * rewrite orb_true_r.
        split; [discriminate|]. split; [intros; lia|]. split.
        { intros u fl _ _ Hf Hgood. injection Hf as <-. congruence. }
        split; [now intros|]. split; [congruence|]. split; reflexivity.
    + split; [discriminate|]. split; [intros; lia|]. split; [discriminate|].
      split; [now intros|]. split; [congruence|]. split; reflexivity.
  - split; [now intros|]. split; [discriminate|]. split; [discriminate|].
    split; [discriminate|]. split; [congruence|]. split; reflexivity.
Qed.

End AvatarUpload.
